(** * AntibodyHumanization: the V-gene scorer and the reverse humanizer

    A shallow embedding of [humanization/v_gene_scorer.py] and
    [humanization/reverse_humanizer.py], with the properties their
    specification states about them.

    Python values are modelled by [pyobj], Python exceptions by the
    [Raise] branch of [result], Python lists by [list] with stdpp's lookup
    and insert (an index out of range raises [IndexError], as in Python),
    and Python floats by the rationals of [QArith] compared with
    [Qle_bool] and [Qeq_bool].  A list that the source mutates in place is
    threaded through the functions that mutate it.  The calls of the logger
    have no effect on the results and are left out; the worker pool of the
    scorer is a map over the population. *)

From Stdlib Require Import ZArith QArith Lia Ascii String.
From stdpp Require Import base list strings sorting.

Close Scope Q_scope.
Open Scope Z_scope.
Open Scope nat_scope.

(** ** Python values and exceptions *)

Inductive pyobj : Type :=
  | PNone
  | PStr (s : string)
  | PFloat (q : Q).

(** Python's [==] on the values that occur in a positional sequence. *)
Definition py_eq (a b : pyobj) : bool :=
  match a, b with
  | PNone, PNone => true
  | PStr s, PStr t => String.eqb s t
  | PFloat p, PFloat q => Qeq_bool p q
  | _, _ => false
  end.

(** The exceptions of the source, and [ExternalError] for what a
    collaborator may raise. *)
Inductive exn : Type :=
  | RuntimeError (msg : string)
  | IndexError
  | ValueError
  | ZeroDivisionError
  | AttributeError
  | TypeError
  | ExternalError (msg : string).

Inductive result (A : Type) : Type :=
  | Ok (a : A)
  | Raise (e : exn).
Arguments Ok {A} a.
Arguments Raise {A} e.

#[global] Instance result_ret : MRet result := fun A a => Ok a.
#[global] Instance result_bind : MBind result := fun A B f m =>
  match m with
  | Ok a => f a
  | Raise e => Raise e
  end.

(** A [for] loop over a list that threads an accumulator and stops at the
    first exception. *)
Fixpoint for_each {A S : Type} (body : S -> A -> result S) (xs : list A) (s : S)
  : result S :=
  match xs with
  | [] => Ok s
  | x :: rest => s' ← body s x; for_each body rest s'
  end.

(** [pool.map]: the results in input order, or the first exception. *)
Fixpoint map_result {A B : Type} (f : A -> result B) (xs : list A)
  : result (list B) :=
  match xs with
  | [] => Ok []
  | x :: rest => y ← f x; ys ← map_result f rest; Ok (y :: ys)
  end.

(** [range(n)] for a Python integer [n]; empty when [n <= 0]. *)
Definition py_range (n : Z) : list nat := seq 0 (Z.to_nat n).

(** [enumerate(xs, start)] and [enumerate(xs)] *)
Fixpoint enumerate_from {A : Type} (start : nat) (xs : list A) : list (nat * A) :=
  match xs with
  | [] => []
  | x :: rest => (start, x) :: enumerate_from (S start) rest
  end.

Definition enumerate {A : Type} (xs : list A) : list (nat * A) :=
  enumerate_from 0 xs.

(** [xs[i]] on a list, for [i >= 0]. *)
Definition getitem {A : Type} (xs : list A) (i : nat) : result A :=
  match xs !! i with
  | Some x => Ok x
  | None => Raise IndexError
  end.

(** [xs[i] = v] on a list, for [i >= 0]. *)
Definition setitem {A : Type} (xs : list A) (i : nat) (v : A) : result (list A) :=
  if decide (i < length xs) then Ok (<[i := v]> xs) else Raise IndexError.

(** [s[i]] on a [str]: the one-character string at [i]. *)
Definition str_getitem (s : string) (i : nat) : result pyobj :=
  match String.get i s with
  | Some c => Ok (PStr (String c EmptyString))
  | None => Raise IndexError
  end.

(** ** The annotation schema *)

(** Modelled from the spec: the class [Annotation] (humanization/annotations.py
    is not among the sources): an ordered list of named positions and the
    scalar [v_gene_end]. *)
Record Annotation : Type := mkAnnotation {
  segmented_positions : list string;
  v_gene_end : Z
}.

(** ** v_gene_scorer.py *)

Definition wildcard : pyobj := PStr "X".

(** One iteration of the loop of [calc_score]; [acc] is [(same, total)]. *)
Definition calc_score_body (seq_1 : list pyobj) (seq_2 : string)
    (acc : Z * Z) (i : nat) : result (Z * Z) :=
  let '(same, total) := acc in
  a ← getitem seq_1 i;
  informative ←
    (if negb (py_eq a wildcard) then Ok true
     else b ← str_getitem seq_2 i; Ok (negb (py_eq b wildcard)));
  if informative : bool then
    b ← str_getitem seq_2 i;
    Ok ((if py_eq a b then same + 1 else same)%Z, (total + 1)%Z)
  else Ok (same, total).

Definition py_truediv (a b : Z) : result Q :=
  if (b =? 0)%Z then Raise ZeroDivisionError else Ok (Qmake a (Z.to_pos b)).

Definition calc_score (seq_1 : list pyobj) (seq_2 : string)
    (annotation : Annotation) : result Q :=
  '(same, total) ←
    for_each (calc_score_body seq_1 seq_2)
             (py_range (v_gene_end annotation + 1)) (0%Z, 0%Z);
  py_truediv same total.

Definition Qlt_bool (a b : Q) : bool := negb (Qle_bool b a).

Definition is_v_gene_score_less (first second : option Q) : bool :=
  match first, second with
  | Some a, Some b => Qlt_bool a b
  | _, _ => true
  end.

(** [sorted(enumerate(v_gene_scores), key=lambda x: x[1], reverse=True)]:
    Python's sort is stable, also with [reverse=True], so entries with equal
    scores keep their input order.  The stable descending order is unique;
    it is computed here by insertion from the right. *)
Fixpoint insert_desc (x : nat * Q) (l : list (nat * Q)) : list (nat * Q) :=
  match l with
  | [] => [x]
  | y :: l' =>
      if Qle_bool (snd y) (snd x) then x :: y :: l' else y :: insert_desc x l'
  end.

Definition sorted_desc (l : list (nat * Q)) : list (nat * Q) :=
  foldr insert_desc [] l.

Module VGeneScorer.

Record t : Type := mk {
  annotation : Annotation;
  human_samples : list string;
  labels : list string
}.

(** [__init__] *)
Definition init (annotation : Annotation) (human_samples labels : list string)
  : result t :=
  if decide (length human_samples ≠ length labels)
  then Raise (RuntimeError "Lengths are different")
  else Ok (mk annotation human_samples labels).

(** The body of the loop that builds the list [result] of the source. *)
Definition query_body (self : t) (res : list (string * Q * string))
    (entry : nat * Q) : result (list (string * Q * string)) :=
  let '(idx, v_gene_score) := entry in
  sample ← getitem (human_samples self) idx;
  label ← getitem (labels self) idx;
  Ok (res ++ [(sample, v_gene_score, label)]).

(** The scores of the whole population; the worker pool of the source
    maps [calc_score] over the samples and returns the scores in input
    order, which is what [map_result] computes. *)
Definition scores (self : t) (sequence : list pyobj) : result (list Q) :=
  map_result (fun sample => calc_score sequence sample (annotation self))
             (human_samples self).

Definition query (self : t) (sequence : list pyobj)
  : result (list (string * Q * string)) :=
  v_gene_scores ← scores self sequence;
  for_each (query_body self) (take 2 (sorted_desc (enumerate v_gene_scores))) [].

End VGeneScorer.

(** ** The parts of abstract_humanizer.py, models.py and annotations.py that
    reverse_humanizer.py uses *)

(** Modelled from the spec: the tuple [SequenceChange] (abstract_humanizer.py
    is not among the sources): position index or none, original amino acid,
    candidate amino acid, resulting model score. *)
Record SequenceChange : Type := mkChange {
  position : option nat;
  old_aa : pyobj;
  aa : pyobj;
  value : Q
}.

(** Modelled from the spec: [SequenceChange.is_defined]; the null change is
    the one whose position is none. *)
Definition is_defined (c : SequenceChange) : bool :=
  match position c with Some _ => true | None => false end.

(** Modelled from the spec: the tuple [IterationDetails]: iteration number,
    resulting model score, resulting V-gene score, the change applied or
    none. *)
Record IterationDetails : Type := mkIteration {
  index : Z;
  model_metric : Q;
  v_gene_score : option Q;
  change : option SequenceChange
}.

Module ModelWrapper.
(** Modelled from the spec: the model wrapper holds the schema and the
    classifier; [predict_proba s] is [model.predict_proba(s)[1]]. *)
Record t : Type := mk {
  annotation : Annotation;
  predict_proba : list pyobj -> result Q
}.
End ModelWrapper.

(** The reference [human_sample] of [ReverseHumanizer.query] is bound either
    to the annotated explicit sample (a list of tokens) or to what the
    unpacking of the scorer's answer binds it to (a triple). *)
Inductive human_ref : Type :=
  | AnnotatedSample (tokens : list string)
  | ScorerEntry (entry : string * Q * string).

(** [human_sample[idx]] *)
Definition ref_getitem (h : human_ref) (idx : nat) : result pyobj :=
  match h with
  | AnnotatedSample tokens => s ← getitem tokens idx; Ok (PStr s)
  | ScorerEntry (sample, score, label) =>
      match idx with
      | 0 => Ok (PStr sample)
      | 1 => Ok (PFloat score)
      | 2 => Ok (PStr label)
      | _ => Raise IndexError
      end
  end.

(** The functions that reverse_humanizer.py imports and whose code is not
    among the sources; they are parameters of the development. *)
Record Imports : Type := mkImports {
  (** [annotate_single(sequence, annotation)]: the tokens or none *)
  annotate_single : string -> Annotation -> option (list string);
  (** [seq_to_str(sequence, with_x)] *)
  seq_to_str : list pyobj -> bool -> string;
  (** [is_change_less(left, right, use_aa_similarity)] *)
  is_change_less : SequenceChange -> SequenceChange -> bool -> bool;
  (** [AbstractHumanizer._calc_metrics(current_seq, human_sample)] *)
  calc_metrics : list pyobj -> human_ref -> result (Q * option Q);
  (** [config.get(config_loader.MAX_CHANGES)] *)
  MAX_CHANGES : Z
}.

(** [a, b = xs] *)
Definition unpack_pair {A : Type} (xs : list A) : result (A * A) :=
  match xs with
  | [a; b] => Ok (a, b)
  | _ => Raise ValueError
  end.

(** How one round of a loop ends. *)
Inductive control (S : Type) : Type :=
  | Continue (s : S)
  | Break (s : S).
Arguments Continue {S} s.
Arguments Break {S} s.

(** The state a round leaves. *)
Definition control_state {S : Type} (c : control S) : S :=
  match c with Continue s => s | Break s => s end.

(** A [for] loop whose body may [break]. *)
Fixpoint for_break {A S : Type} (body : A -> S -> result (control S))
    (xs : list A) (s : S) : result S :=
  match xs with
  | [] => Ok s
  | x :: rest =>
      c ← body x s;
      match c with
      | Continue s' => for_break body rest s'
      | Break s' => Ok s'
      end
  end.

(** ** reverse_humanizer.py *)

Module ReverseHumanizer.

Record t : Type := mk {
  model_wrapper : ModelWrapper.t;
  v_gene_scorer : option VGeneScorer.t;
  skip_positions : list string;
  use_aa_similarity : bool
}.

(** The state of the round loop of [query]: [current_seq] and
    [iterations]. *)
Definition loop_state : Type := list pyobj * list IterationDetails.

Section methods.
Context (ext : Imports) (self : t).

Local Abbreviation schema := (ModelWrapper.annotation (model_wrapper self)).

(** The list [sequence] is mutated in place by the source; the function
    returns the change together with the list as it is on return. *)
Definition _test_single_change (sequence : list pyobj) (column_idx : nat)
    (new_aa : pyobj) : result (SequenceChange * list pyobj) :=
  aa_backup ← getitem sequence column_idx;
  if py_eq aa_backup new_aa
  then Ok (mkChange None aa_backup PNone (-1)%Q, sequence)
  else
    sequence1 ← setitem sequence column_idx new_aa;
    new_value ← ModelWrapper.predict_proba (model_wrapper self) sequence1;
    let candidate_change :=
      mkChange (Some column_idx) aa_backup new_aa new_value in
    sequence2 ← setitem sequence1 column_idx aa_backup;
    Ok (candidate_change, sequence2).

(** The body of the loop of [_find_best_change]; the accumulator is
    [(best_change, current_seq)]. *)
Definition find_best_body (original_seq : list pyobj)
    (acc : SequenceChange * list pyobj) (entry : nat * string)
  : result (SequenceChange * list pyobj) :=
  let '(best_change, current_seq) := acc in
  let '(idx, column_name) := entry in
  if bool_decide (column_name ∈ skip_positions self)
  then Ok (best_change, current_seq)
  else
    new_aa ← getitem original_seq idx;
    '(candidate_change, current_seq') ←
      _test_single_change current_seq idx new_aa;
    if is_change_less ext best_change candidate_change
                      (use_aa_similarity self)
    then Ok (candidate_change, current_seq')
    else Ok (best_change, current_seq').

Definition _find_best_change (current_seq original_seq : list pyobj)
  : result (SequenceChange * list pyobj) :=
  for_each (find_best_body original_seq)
           (enumerate (segmented_positions schema))
           (mkChange None PNone PNone (-1)%Q, current_seq).

(** Lines 50-54 of the source: the reference that [human_sample] is
    bound to when the seed is built. *)
Definition obtain_human_sample (current_seq : list pyobj)
    (human_sample : option string) : result human_ref :=
  let annotated : option (list string) :=
    match human_sample with
    | Some s => if String.eqb s "" then None else annotate_single ext s schema
    | None => None
    end in
  match annotated with
  | Some (tok :: toks) => Ok (AnnotatedSample (tok :: toks))
  | _ =>
      scorer ← match v_gene_scorer self with
               | Some scorer => Ok scorer
               | None => Raise AttributeError
               end;
      answer ← VGeneScorer.query scorer current_seq;
      '(human_sample', _) ← unpack_pair answer;
      Ok (ScorerEntry human_sample')
  end.

(** Lines 56-58: the chimeric seed. *)
Definition chimeric_body (human_sample : human_ref)
    (current_seq : list pyobj) (entry : nat * string)
  : result (list pyobj) :=
  let '(idx, column_name) := entry in
  if String.prefix "fwr" column_name
  then v ← ref_getitem human_sample idx; setitem current_seq idx v
  else Ok current_seq.

Definition chimeric_seed (human_sample : human_ref)
    (current_seq : list pyobj) : result (list pyobj) :=
  for_each (chimeric_body human_sample)
           (enumerate (segmented_positions schema)) current_seq.

(** The acceptance test of line 72. *)
Definition meets_targets (target_model_metric : Q)
    (target_v_gene_score : option Q) (best_value : Q)
    (v_gene_score : option Q) : bool :=
  Qle_bool target_model_metric best_value
  && is_v_gene_score_less target_v_gene_score v_gene_score.

(** Lines 64-81: one round of the loop. *)
Definition round (original_seq : list pyobj) (human_sample : human_ref)
    (target_model_metric : Q) (target_v_gene_score : option Q)
    (it : Z) (st : loop_state) : result (control loop_state) :=
  let '(current_seq, iterations) := st in
  '(current_value, v_gene_score) ← calc_metrics ext current_seq human_sample;
  '(best_change, current_seq) ← _find_best_change current_seq original_seq;
  if is_defined best_change then
    pos ← match position best_change with
          | Some pos => Ok pos
          | None => Raise TypeError
          end;
    prev_aa ← getitem current_seq pos;
    current_seq ← setitem current_seq pos (aa best_change);
    '(best_value, v_gene_score) ← calc_metrics ext current_seq human_sample;
    if negb (meets_targets target_model_metric target_v_gene_score
                           best_value v_gene_score)
    then
      current_seq ← setitem current_seq pos prev_aa;
      Ok (Break (current_seq, iterations))
    else
      column_name ← getitem (segmented_positions schema) pos;
      Ok (Continue (current_seq,
                    iterations ++ [mkIteration it best_value v_gene_score
                                               (Some best_change)]))
  else Ok (Break (current_seq, iterations)).

(** [range(1, config.get(config_loader.MAX_CHANGES) + 1)] *)
Definition round_numbers : list Z :=
  (fun k : nat => Z.of_nat k) <$> seq 1 (Z.to_nat (MAX_CHANGES ext)).

(** Lines 60-82, from the seed on; [search] returns the list
    [current_seq] itself and [finish] flattens it. *)
Definition search (original_seq : list pyobj) (human_sample : human_ref)
    (target_model_metric : Q) (target_v_gene_score : option Q)
    (seed : list pyobj) : result loop_state :=
  '(current_value, v_gene_score) ← calc_metrics ext seed human_sample;
  for_break (round original_seq human_sample
                   target_model_metric target_v_gene_score)
            round_numbers
            (seed, [mkIteration 0 current_value v_gene_score None]).

Definition finish (st : loop_state) : string * list IterationDetails :=
  (seq_to_str ext (fst st) false, snd st).

Definition query (sequence : string) (target_model_metric : Q)
    (target_v_gene_score : option Q) (human_sample : option string)
  : result (string * list IterationDetails) :=
  match annotate_single ext sequence schema with
  | None => Raise (RuntimeError (sequence +:+ " cannot be annotated"))
  | Some tokens =>
      let current_seq := PStr <$> tokens in
      let original_seq := current_seq in
      human_sample ← obtain_human_sample current_seq human_sample;
      seed ← chimeric_seed human_sample current_seq;
      st ← search original_seq human_sample
                  target_model_metric target_v_gene_score seed;
      Ok (finish st)
  end.

End methods.

End ReverseHumanizer.

(** The number of elements of [l] that satisfy [f]. *)
Fixpoint count_if (f : nat -> bool) (l : list nat) : nat :=
  match l with
  | [] => 0
  | i :: rest => (if f i then 1 else 0) + count_if f rest
  end.

(** ** The notions the specification of the search speaks of *)

(** The column name, if any, begins with the framework-region prefix. *)
Definition is_framework (column_name : option string) : bool :=
  match column_name with
  | Some name => String.prefix "fwr" name
  | None => false
  end.

(** Position [i] of the current sequence differs from the original, by
    Python's [!=]. *)
Definition differs (current_seq original_seq : list pyobj) (i : nat) : bool :=
  match current_seq !! i, original_seq !! i with
  | Some b, Some a => negb (py_eq b a)
  | _, _ => false
  end.

(** The number of positions that differ from the original. *)
Definition diff_count (current_seq original_seq : list pyobj) : nat :=
  count_if (differs current_seq original_seq) (seq 0 (length current_seq)).

(** The change reports position none and the score -1.0. *)
Definition null_change (c : SequenceChange) : Prop :=
  position c = None /\ value c = (-1)%Q.

(** [c] is the candidate of a position that is not skipped and at which the
    current sequence differs from the original: it proposes the original's
    token there, with the score of the model on the sequence so changed. *)
Definition real_candidate (self : ReverseHumanizer.t)
    (current_seq original_seq : list pyobj) (c : SequenceChange) : Prop :=
  exists (pos : nat) (column_name : string),
    position c = Some pos
    /\ (segmented_positions
          (ModelWrapper.annotation (ReverseHumanizer.model_wrapper self)))
         !! pos = Some column_name
    /\ (column_name ∉ ReverseHumanizer.skip_positions self)
    /\ current_seq !! pos = Some (old_aa c)
    /\ original_seq !! pos = Some (aa c)
    /\ differs current_seq original_seq pos = true
    /\ ModelWrapper.predict_proba (ReverseHumanizer.model_wrapper self)
         (<[pos := aa c]> current_seq) = Ok (value c).

(** The accumulator of the loop of [_find_best_change] is a null change or
    the candidate of a differing position. *)
Definition best_so_far (self : ReverseHumanizer.t)
    (current_seq original_seq : list pyobj) (best : SequenceChange) : Prop :=
  null_change best \/ real_candidate self current_seq original_seq best.

(** *** The contracts of the collaborators *)

(** The classifier answers every call. *)
Definition model_total (self : ReverseHumanizer.t) : Prop :=
  forall s, exists q,
    ModelWrapper.predict_proba (ReverseHumanizer.model_wrapper self) s = Ok q.

(** The classifier's answers are probabilities. *)
Definition model_probability (self : ReverseHumanizer.t) : Prop :=
  forall s q,
    ModelWrapper.predict_proba (ReverseHumanizer.model_wrapper self) s = Ok q ->
    (0 <= q <= 1)%Q.

(** [_calc_metrics] answers every call. *)
Definition metrics_total (ext : Imports) : Prop :=
  forall s h, exists m, calc_metrics ext s h = Ok m.

(** The annotator yields one token per position of the schema. *)
Definition annotator_aligned (ext : Imports) (self : ReverseHumanizer.t) : Prop :=
  forall s tokens,
    annotate_single ext s
      (ModelWrapper.annotation (ReverseHumanizer.model_wrapper self))
    = Some tokens ->
    length tokens =
    length (segmented_positions
              (ModelWrapper.annotation (ReverseHumanizer.model_wrapper self))).

(** Null-change dominance: a change with a position and a score above -1.0
    is never less than a null change. *)
Definition null_dominance (ext : Imports) : Prop :=
  forall real null flag,
    is_defined real = true -> (-1 < value real)%Q -> null_change null ->
    is_change_less ext real null flag = false.

(** The record [r] passes the acceptance test of the round loop. *)
Definition accepted (target_model_metric : Q) (target_v_gene_score : option Q)
    (r : IterationDetails) : Prop :=
  (target_model_metric <= model_metric r)%Q
  /\ is_v_gene_score_less target_v_gene_score (v_gene_score r) = true.

(** ** The order the specification of [VGeneScorer.query] speaks of

    [ranks_before p q]: the entry [p = (index, score)] has the larger score,
    or the same score and the smaller population index. *)
Definition ranks_before (p q : nat * Q) : Prop :=
  (snd q < snd p)%Q \/ ((snd p == snd q)%Q /\ fst p < fst q).

(** The triple [r] is the population entry of index [fst e] with the score
    [snd e]. *)
Definition entry_of (self : VGeneScorer.t) (e : nat * Q)
    (r : string * Q * string) : Prop :=
  VGeneScorer.human_samples self !! fst e = Some (fst (fst r))
  /\ snd (fst r) = snd e
  /\ VGeneScorer.labels self !! fst e = Some (snd r).

(** ** The quantities the specification of [calc_score] speaks of

    These follow the words of the specification, to be compared with what
    [calc_score] computes. *)

(** Both sequences hold the wildcard token at position [i]. *)
Definition both_wildcard (seq_1 : list pyobj) (seq_2 : string) (i : nat) : Prop :=
  seq_1 !! i = Some (PStr "X") /\ String.get i seq_2 = Some "X"%char.

(** The number of positions [0..v_gene_end]. *)
Definition score_range (ann : Annotation) : nat := Z.to_nat (v_gene_end ann + 1).

Definition all_wildcard (seq_1 : list pyobj) (seq_2 : string) (n : nat) : Prop :=
  forall i, i < n -> both_wildcard seq_1 seq_2 i.

(** A position is informative unless both sequences hold the wildcard. *)
Definition informative (seq_1 : list pyobj) (seq_2 : string) (i : nat) : bool :=
  match seq_1 !! i, String.get i seq_2 with
  | Some a, Some c => negb (py_eq a wildcard && Ascii.eqb c "X")
  | _, _ => false
  end.

(** The two tokens at position [i] are equal. *)
Definition tokens_match (seq_1 : list pyobj) (seq_2 : string) (i : nat) : bool :=
  match seq_1 !! i, String.get i seq_2 with
  | Some a, Some c => py_eq a (PStr (String c EmptyString))
  | _, _ => false
  end.

Definition informative_count (seq_1 : list pyobj) (seq_2 : string) (n : nat) : nat :=
  count_if (informative seq_1 seq_2) (seq 0 n).

Definition match_count (seq_1 : list pyobj) (seq_2 : string) (n : nat) : nat :=
  count_if (fun i => informative seq_1 seq_2 i && tokens_match seq_1 seq_2 i)
           (seq 0 n).

(** ** A small instance

    A schema of four positions, an annotator that takes one residue per
    position, a classifier that scores the fraction of residues [A], and a
    population of two human samples. *)

Module Demo.

Definition schema : Annotation :=
  mkAnnotation ["fwr1_1"; "cdr1_1"; "fwr2_1"; "cdr2_1"] 3.

Definition residues (s : string) : list string :=
  (fun c => String c EmptyString) <$> list_ascii_of_string s.

Definition annotate (s : string) (ann : Annotation) : option (list string) :=
  if decide (length (residues s) = length (segmented_positions ann))
  then Some (residues s) else None.

Definition count_A (s : list pyobj) : nat :=
  length (List.filter (fun x => py_eq x (PStr "A")) s).

Definition predict (s : list pyobj) : result Q :=
  Ok (Qmake (Z.of_nat (count_A s)) (Pos.of_nat (length s))).

Definition ref_tokens (h : human_ref) : list pyobj :=
  match h with
  | AnnotatedSample tokens => PStr <$> tokens
  | ScorerEntry (sample, _, _) => PStr <$> residues sample
  end.

Definition similarity (s : list pyobj) (h : human_ref) : Q :=
  Qmake (Z.of_nat (length (List.filter (fun p => py_eq (fst p) (snd p))
                                       (zip s (ref_tokens h)))))
        (Pos.of_nat (length s)).

Definition metrics (s : list pyobj) (h : human_ref) : result (Q * option Q) :=
  v ← predict s; Ok (v, Some (similarity s h)).

Fixpoint flatten (s : list pyobj) (with_x : bool) : string :=
  match s with
  | [] => EmptyString
  | PStr t :: rest =>
      if with_x || negb (String.eqb t "X")
      then t +:+ flatten rest with_x else flatten rest with_x
  | _ :: rest => flatten rest with_x
  end.

Definition less (left right : SequenceChange) (use_aa_similarity : bool) : bool :=
  Qlt_bool (value left) (value right).

Definition ext (max_changes : Z) : Imports :=
  mkImports annotate flatten less metrics max_changes.

Definition model : ModelWrapper.t := ModelWrapper.mk schema predict.

Definition scorer : VGeneScorer.t :=
  VGeneScorer.mk schema ["BBBB"; "BABB"] ["IGHV1"; "IGHV3"].

Definition humanizer : ReverseHumanizer.t :=
  ReverseHumanizer.mk model (Some scorer) [] false.

(** A schema of ten positions and a population of four samples whose
    similarities to [query10] are 0.9, 0.5, 0.9 and 0.1. *)
Definition schema10 : Annotation :=
  mkAnnotation ["fwr1_1"; "fwr1_2"; "fwr1_3"; "fwr1_4"; "cdr1_1"; "cdr1_2";
                "fwr2_1"; "fwr2_2"; "cdr2_1"; "fwr3_1"] 9.

Definition scorer10 : VGeneScorer.t :=
  VGeneScorer.mk schema10
    ["QVQLVQSGAK"; "QVQLVTTTTT"; "EVQLVQSGAE"; "QTTTTTTTTT"]
    ["IGHV1"; "IGHV2"; "IGHV3"; "IGHV4"].

Definition query10 : list pyobj := PStr <$> residues "QVQLVQSGAE".

Definition model10 : ModelWrapper.t := ModelWrapper.mk schema10 predict.

Definition humanizer10 : ReverseHumanizer.t :=
  ReverseHumanizer.mk model10 (Some scorer10) [] false.

End Demo.

(** * Further code of the repository *)

(** The characters of a [str], each as a one-character string:
    [list(s)]. *)
Definition str_tokens (s : string) : list pyobj :=
  (fun c => PStr (String c EmptyString)) <$> list_ascii_of_string s.

(** ** Notions for the trail of [ReverseHumanizer.query] *)

(** The positions of the changes that the records of a trail carry. *)
Definition changed_positions (trail : list IterationDetails) : list nat :=
  omap (fun r => c ← change r; position c) trail.

(** The change of a record applied to a sequence, and taken back. *)
Definition redo (current_seq : list pyobj) (r : IterationDetails) : list pyobj :=
  match change r with
  | Some c => match position c with
              | Some pos => <[pos := aa c]> current_seq
              | None => current_seq
              end
  | None => current_seq
  end.

Definition undo (r : IterationDetails) (current_seq : list pyobj) : list pyobj :=
  match change r with
  | Some c => match position c with
              | Some pos => <[pos := old_aa c]> current_seq
              | None => current_seq
              end
  | None => current_seq
  end.

(** All the changes of a trail applied in order, and taken back in reverse
    order. *)
Definition replay (trail : list IterationDetails) (seed : list pyobj)
  : list pyobj := foldl redo seed trail.

Definition rollback (trail : list IterationDetails) (final : list pyobj)
  : list pyobj := foldr undo final trail.

(** The number of framework positions of a schema. *)
Definition framework_count (ann : Annotation) : nat :=
  count_if (fun i => is_framework (segmented_positions ann !! i))
           (seq 0 (length (segmented_positions ann))).

(** The run of the small instance from the sequence AAAA with the sample
    BBBB, targets 0.5 and 0.0. *)
Module DemoRun.

Definition original : list pyobj := [PStr "A"; PStr "A"; PStr "A"; PStr "A"].

Definition reference : human_ref := AnnotatedSample ["B"; "B"; "B"; "B"].

Definition seed : list pyobj := [PStr "B"; PStr "A"; PStr "B"; PStr "A"].

Definition final : list pyobj := [PStr "A"; PStr "A"; PStr "B"; PStr "A"].

Definition trail : list IterationDetails :=
  [mkIteration 0 (2 # 4) (Some (2 # 4)%Q) None;
   mkIteration 1 (3 # 4) (Some (1 # 4)%Q)
     (Some (mkChange (Some 0) (PStr "B") (PStr "A") (3 # 4)))].

End DemoRun.

(** ** Notions for [_find_best_change] *)

(** [is_change_less], with the flag [flag], is a strict order: no change is
    less than itself, and less-than is transitive. *)
Definition comparator_strict (ext : Imports) (flag : bool) : Prop :=
  (forall a, is_change_less ext a a flag = false)
  /\ (forall a b c,
        is_change_less ext a b flag = true ->
        is_change_less ext b c flag = true ->
        is_change_less ext a c flag = true).

(** [c] is what [_test_single_change] returns for a position of the schema
    that is not skipped. *)
Definition tested_candidate (self : ReverseHumanizer.t)
    (current_seq original_seq : list pyobj) (c : SequenceChange) : Prop :=
  exists idx column_name new_aa,
    (segmented_positions
       (ModelWrapper.annotation (ReverseHumanizer.model_wrapper self)))
      !! idx = Some column_name
    /\ (column_name ∉ ReverseHumanizer.skip_positions self)
    /\ original_seq !! idx = Some new_aa
    /\ ReverseHumanizer._test_single_change self current_seq idx new_aa
       = Ok (c, current_seq).

(** ** dataset/dataset_preparer.py *)

(** A data frame: its column names and its rows, one cell per column; the
    cell [None] is a missing value (NaN). *)
Record DataFrame : Type := mkFrame {
  frame_columns : list string;
  frame_rows : list (list (option string))
}.

(** ["".join(row)]: a cell that is not a [str] raises [TypeError]. *)
Fixpoint py_join (row : list (option string)) : result string :=
  match row with
  | [] => Ok EmptyString
  | Some cell :: rest => joined ← py_join rest; Ok (cell +:+ joined)
  | None :: rest => Raise TypeError
  end.

(** [merge_all_columns]; the rows are [df.to_numpy().tolist()]. *)
Definition merge_all_columns (df : DataFrame) : result (list string) :=
  map_result py_join (frame_rows df).

(** The place of the column [pos], if there is one. *)
Fixpoint column_index (pos : string) (columns : list string) : option nat :=
  match columns with
  | [] => None
  | c :: rest => if String.eqb c pos then Some 0 else S <$> column_index pos rest
  end.

(** [df[pos] == aa]: one boolean per row; pandas raises [KeyError] when
    there is no column [pos]. *)
Definition column_equals (df : DataFrame) (pos aa : string) : result (list bool) :=
  match column_index pos (frame_columns df) with
  | Some j =>
      Ok ((fun row => bool_decide (row !! j = Some (Some aa))) <$> frame_rows df)
  | None => Raise (ExternalError "KeyError")
  end.

(** [df[mask]]: the rows at which the mask is true. *)
Definition select_rows {A : Type} (rows : list A) (mask : list bool) : list A :=
  fst <$> List.filter snd (zip rows mask).

(** [itertools.accumulate(xs, func)]: the running results. *)
Fixpoint accumulate_from {A : Type} (f : A -> A -> A) (acc : A) (xs : list A)
  : list A :=
  match xs with
  | [] => []
  | x :: rest => f acc x :: accumulate_from f (f acc x) rest
  end.

Definition accumulate {A : Type} (f : A -> A -> A) (xs : list A) : list A :=
  match xs with
  | [] => []
  | x :: rest => x :: accumulate_from f x rest
  end.

(** [next(it)] on the results of an iterator. *)
Definition py_next {A : Type} (xs : list A) : result A :=
  match xs with
  | x :: _ => Ok x
  | [] => Raise (ExternalError "StopIteration")
  end.

(** [filter_df]; [required_positions] are the items of
    [annotation.required_positions], a dict, in its order. *)
Definition filter_df (df : DataFrame) (required_positions : list (string * string))
  : result DataFrame :=
  if bool_decide (0 < length required_positions) then
    masks ← map_result (fun '(pos, aa) => column_equals df pos aa)
                       required_positions;
    mask ← py_next (accumulate (zip_with andb) masks);
    Ok (mkFrame (frame_columns df) (select_rows (frame_rows df) mask))
  else Ok df.

(** ** dataset_preparer.py *)

(** The values that the callers among the sources pass for the parameters
    [annotated_data] and [annotation] of [read_human_samples] and
    [read_any_dataset], and for the parameter [v_type] of
    [build_v_gene_scorer]: [None], a [bool], an [Annotation] or a
    [ChainType]. *)
Inductive pyarg (ChainType : Type) : Type :=
  | ArgNone
  | ArgBool (b : bool)
  | ArgAnnotation (annotation : Annotation)
  | ArgChainType (v_type : ChainType).
Arguments ArgNone {ChainType}.
Arguments ArgBool {ChainType} b.
Arguments ArgAnnotation {ChainType} annotation.
Arguments ArgChainType {ChainType} v_type.

(** What the objects of the classes [Annotation] and [ChainType] do where
    the code below uses them; humanization/annotations.py is not among the
    sources, and they are parameters of the development. *)
Record Classes (ChainType : Type) : Type := mkClasses {
  (** [v_type.full_type()] *)
  full_type : ChainType -> string;
  (** the truth value of an [Annotation] and of a [ChainType] *)
  annotation_truth : Annotation -> bool;
  chain_type_truth : ChainType -> bool;
  (** whether an [Annotation] and a [ChainType] have the attribute [name] *)
  annotation_has_name : Annotation -> bool;
  chain_type_has_name : ChainType -> bool
}.
Arguments full_type {ChainType} c v_type.
Arguments annotation_truth {ChainType} c annotation.
Arguments chain_type_truth {ChainType} c v_type.
Arguments annotation_has_name {ChainType} c annotation.
Arguments chain_type_has_name {ChainType} c v_type.

(** The labels whose rows [read_human_samples] keeps: every label but
    ['NOT_HUMAN'] without a chain type, and the label ['IG' + full_type]
    with one. *)
Definition kept_label (kind : option string) (label : string) : bool :=
  match kind with
  | None => negb (String.eqb label "NOT_HUMAN")
  | Some kind => String.eqb label ("IG" +:+ kind)
  end.

(** [X.isna().sum().sum() > 0 or y.isna().sum() > 0] *)
Definition found_nans (X : DataFrame) (y : list (option string)) : bool :=
  existsb (existsb (fun cell => bool_decide (cell = None))) (frame_rows X)
  || existsb (fun label => bool_decide (label = None)) y.

(** The characters of a [str] as one-character strings: what iterating over
    a [str], or indexing it, gives. *)
Definition str_chars (s : string) : list string :=
  (fun c => String c EmptyString) <$> list_ascii_of_string s.

Section dataset_reading.
Context {ChainType : Type} (classes : Classes ChainType).

(** [read_annotated_dataset(input_dir)] and [read_raw_dataset(input_dir,
    annotation)] read the files of [input_dir]: the frame X and the labels
    y, or an exception. *)
Context (read_annotated_dataset :
           string -> result (DataFrame * list (option string)))
        (read_raw_dataset :
           string -> pyarg ChainType ->
           result (DataFrame * list (option string))).

(** The truth value of [v] in [if v:]. *)
Definition py_truth (v : pyarg ChainType) : bool :=
  match v with
  | ArgNone => false
  | ArgBool b => b
  | ArgAnnotation annotation => annotation_truth classes annotation
  | ArgChainType v_type => chain_type_truth classes v_type
  end.

(** The evaluation of [v.name]; [None] and a [bool] have no attribute
    [name]. *)
Definition getattr_name (v : pyarg ChainType) : result unit :=
  match v with
  | ArgNone => Raise AttributeError
  | ArgBool _ => Raise AttributeError
  | ArgAnnotation annotation =>
      if annotation_has_name classes annotation then Ok tt
      else Raise AttributeError
  | ArgChainType v_type =>
      if chain_type_has_name classes v_type then Ok tt
      else Raise AttributeError
  end.

(** [read_any_dataset]; the message of line 34 evaluates
    [annotation.name] before the data set is read. *)
Definition read_any_dataset (input_dir : string)
    (annotated_data annotation : pyarg ChainType)
  : result (DataFrame * list (option string)) :=
  '(X, y) ← (if py_truth annotated_data
             then _ ← getattr_name annotation;
                  read_annotated_dataset input_dir
             else read_raw_dataset input_dir annotation);
  if found_nans X y then Raise (RuntimeError "Found nans") else Ok (X, y).

(** [read_human_samples]; [v_type] is a [ChainType] or [None], as its
    annotation says and as every caller among the sources leaves it. *)
Definition read_human_samples (dataset_file : option string)
    (annotated_data annotation : pyarg ChainType)
    (v_type : option ChainType)
  : result (option (list string)) :=
  match dataset_file with
  | Some file =>
      '(X, y) ← read_any_dataset file annotated_data annotation;
      let mask :=
        match v_type with
        | None => (fun label => negb (bool_decide (label = Some "NOT_HUMAN"%string)))
                  <$> y
        | Some v_type =>
            (fun label =>
               bool_decide (label = Some ("IG" +:+ full_type classes v_type)))
            <$> y
        end in
      let df := mkFrame (frame_columns X) (select_rows (frame_rows X) mask) in
      human_samples ← merge_all_columns df;
      Ok (Some human_samples)
  | None => Ok None
  end.

(** ** v_gene_scorer.py: build_v_gene_scorer and get_similar_human_samples *)

(** [build_v_gene_scorer]; line 60 passes [annotation] and [v_type] by
    position, so that they reach the parameters [annotated_data] and
    [annotation] of [read_human_samples], whose [v_type] keeps its default.
    [human_dataset[0]] and [human_dataset[1]] are the first two merged
    rows, each a [str]; the scorer iterates over and indexes them by
    character. *)
Definition build_v_gene_scorer (annotation : Annotation)
    (dataset_file : option string) (v_type : pyarg ChainType)
  : result (option VGeneScorer.t) :=
  human_dataset ← read_human_samples dataset_file (ArgAnnotation annotation)
                                     v_type None;
  match human_dataset with
  | Some human_dataset =>
      human_samples ← getitem human_dataset 0;
      labels ← getitem human_dataset 1;
      v_gene_scorer ← VGeneScorer.init annotation (str_chars human_samples)
                                       (str_chars labels);
      Ok (Some v_gene_scorer)
  | None => Ok None
  end.

(** [GeneralChainType] and [annotate_single(seq, annotation, chain_type)]
    (humanization/annotations.py is not among the sources). *)
Context {GeneralChainType : Type}
        (annotate : string -> Annotation -> GeneralChainType -> option (list string)).

(** The body of the loop of [get_similar_human_samples]; [v_gene_scorer]
    is what [build_v_gene_scorer(annotation, dataset_file)] returned: a
    scorer or none. *)
Definition similar_samples_body (annotation : Annotation)
    (v_gene_scorer : option VGeneScorer.t) (chain_type : GeneralChainType)
    (res : list (option (list (string * Q * string)))) (seq : string)
  : result (list (option (list (string * Q * string)))) :=
  match annotate seq annotation chain_type with
  | Some aligned_seq =>
      scorer ← match v_gene_scorer with
               | Some scorer => Ok scorer
               | None => Raise AttributeError
               end;
      answer ← VGeneScorer.query scorer (PStr <$> aligned_seq);
      Ok (res ++ [Some answer])
  | None => Ok (res ++ [None])
  end.

Definition get_similar_human_samples (annotation : Annotation)
    (dataset_file : option string) (sequences : list string)
    (chain_type : GeneralChainType)
  : result (list (option (list (string * Q * string)))) :=
  v_gene_scorer ← build_v_gene_scorer annotation dataset_file ArgNone;
  for_each (similar_samples_body annotation v_gene_scorer chain_type)
           sequences [].

(** What the entry of the sequence [s] has to be: none when [s] does not
    annotate, the scorer's answer otherwise. *)
Definition similar_entry (annotation : Annotation)
    (v_gene_scorer : option VGeneScorer.t) (chain_type : GeneralChainType) (s : string)
    (entry : option (list (string * Q * string))) : Prop :=
  match annotate s annotation chain_type with
  | None => entry = None
  | Some aligned_seq =>
      exists scorer answer,
        v_gene_scorer = Some scorer
        /\ VGeneScorer.query scorer (PStr <$> aligned_seq) = Ok answer
        /\ entry = Some answer
  end.

End dataset_reading.

(** A small annotated data set, read in either mode, and classes whose
    objects are true and have a name. *)
Module DemoData.
Definition frame : DataFrame :=
  mkFrame ["1"; "2"]%string
          [[Some "Q"; Some "V"]; [Some "E"; Some "V"]; [Some "Q"; Some "L"]]%string.
Definition labels : list (option string) :=
  [Some "IGHV1"; Some "NOT_HUMAN"; Some "IGHV3"]%string.
Definition classes : Classes string :=
  mkClasses string (fun v_type => v_type) (fun _ => true) (fun _ => true)
            (fun _ => true) (fun _ => true).
Definition read_annotated (input_dir : string)
  : result (DataFrame * list (option string)) := Ok (frame, labels).
Definition read_raw (input_dir : string) (annotation : pyarg string)
  : result (DataFrame * list (option string)) := Ok (frame, labels).
End DemoData.

(** * Properties *)

(** ** The result monad and the list primitives *)

Lemma bind_Ok {A B : Type} (m : result A) (f : A -> result B) (b : B) :
  (m ≫= f) = Ok b -> exists a, m = Ok a /\ f a = Ok b.
Proof. destruct m as [a|e]; simpl; [eauto | discriminate]. Qed.

Lemma bind_ret {A B : Type} (a : A) (f : A -> result B) : (Ok a ≫= f) = f a.
Proof. reflexivity. Qed.

Lemma for_each_cons {A S : Type} (body : S -> A -> result S) x xs s :
  for_each body (x :: xs) s = (body s x ≫= for_each body xs).
Proof. reflexivity. Qed.

Lemma getitem_Ok {A : Type} (xs : list A) (i : nat) (x : A) :
  getitem xs i = Ok x <-> xs !! i = Some x.
Proof. unfold getitem. destruct (xs !! i); split; congruence. Qed.

Lemma getitem_lookup {A : Type} (xs : list A) (i : nat) (x : A) :
  xs !! i = Some x -> getitem xs i = Ok x.
Proof. apply getitem_Ok. Qed.

Lemma setitem_Ok {A : Type} (xs ys : list A) (i : nat) (v : A) :
  setitem xs i v = Ok ys <-> i < length xs /\ ys = <[i := v]> xs.
Proof.
  unfold setitem. destruct (decide (i < length xs)); split.
  - intros [= <-]. auto.
  - intros [_ ->]. reflexivity.
  - discriminate.
  - intros [? _]. lia.
Qed.

Lemma setitem_lt {A : Type} (xs : list A) (i : nat) (v : A) :
  i < length xs -> setitem xs i v = Ok (<[i := v]> xs).
Proof. intros. apply setitem_Ok. auto. Qed.

Lemma py_eq_refl (a : pyobj) : py_eq a a = true.
Proof.
  destruct a as [|s|q]; simpl; [reflexivity| apply String.eqb_refl |].
  apply Qeq_bool_iff. reflexivity.
Qed.

Lemma py_eq_PStr (a : pyobj) (s : string) : py_eq a (PStr s) = true <-> a = PStr s.
Proof.
  destruct a as [|t|q]; simpl; split; try discriminate.
  - intros H. apply String.eqb_eq in H. congruence.
  - intros [= ->]. apply String.eqb_refl.
Qed.

(** ** calc_score *)

Section calc_score_facts.
Variables (seq_1 : list pyobj) (seq_2 : string).

Lemma string_get_lt (i : nat) :
  i < String.length seq_2 -> exists c, String.get i seq_2 = Some c.
Proof.
  revert i. induction seq_2 as [|c s IH]; simpl; intros i Hi; [lia|].
  destruct i as [|i]; [eauto|]. apply IH. lia.
Qed.

Lemma informative_false_iff (i : nat) :
  i < length seq_1 -> i < String.length seq_2 ->
  informative seq_1 seq_2 i = false <-> both_wildcard seq_1 seq_2 i.
Proof.
  intros H1 H2. unfold informative, both_wildcard.
  destruct (lookup_lt_is_Some_2 seq_1 i H1) as [a Ha]. rewrite Ha.
  destruct (string_get_lt i H2) as [c Hc]. rewrite Hc.
  rewrite negb_false_iff, andb_true_iff.
  unfold wildcard. rewrite py_eq_PStr, Ascii.eqb_eq. split.
  - intros [-> ->]. auto.
  - intros [[= ->] [= ->]]. auto.
Qed.

(** One iteration adds to [total] when the position is informative and to
    [same] when moreover the tokens are equal. *)
Lemma calc_score_body_in_range (same total : Z) (i : nat) :
  i < length seq_1 -> i < String.length seq_2 ->
  calc_score_body seq_1 seq_2 (same, total) i =
  Ok ((same + Z.of_nat (if informative seq_1 seq_2 i && tokens_match seq_1 seq_2 i
                        then 1 else 0))%Z,
      (total + Z.of_nat (if informative seq_1 seq_2 i then 1 else 0))%Z).
Proof.
  intros H1 H2. unfold calc_score_body, informative, tokens_match.
  destruct (lookup_lt_is_Some_2 seq_1 i H1) as [a Ha].
  destruct (string_get_lt i H2) as [c Hc].
  rewrite (getitem_lookup _ _ _ Ha). unfold str_getitem. rewrite Ha, Hc. simpl.
  destruct (py_eq a wildcard) eqn:Ea; simpl.
  - destruct (Ascii.eqb c "X"); simpl.
    + f_equal. f_equal; lia.
    + destruct (py_eq a (PStr (String c EmptyString))); simpl; f_equal; f_equal; lia.
  - destruct (py_eq a (PStr (String c EmptyString))); simpl; f_equal; f_equal; lia.
Qed.

Lemma calc_score_loop (l : list nat) (same total : Z) :
  Forall (fun i => i < length seq_1 /\ i < String.length seq_2) l ->
  for_each (calc_score_body seq_1 seq_2) l (same, total) =
  Ok ((same + Z.of_nat (count_if (fun i => informative seq_1 seq_2 i
                                        && tokens_match seq_1 seq_2 i) l))%Z,
      (total + Z.of_nat (count_if (informative seq_1 seq_2) l))%Z).
Proof.
  intros Hl. revert same total.
  induction Hl as [|i l [H1 H2] _ IH]; intros same total.
  - simpl. f_equal. f_equal; lia.
  - rewrite for_each_cons, calc_score_body_in_range, bind_ret by assumption.
    rewrite IH. cbn [count_if]. f_equal. f_equal; lia.
Qed.

Lemma count_if_zero (f : nat -> bool) (l : list nat) :
  count_if f l = 0 <-> Forall (fun i => f i = false) l.
Proof.
  induction l as [|i l IH]; simpl.
  - split; auto.
  - rewrite Forall_cons. destruct (f i); simpl.
    + split; [lia | intros [? _]; discriminate].
    + rewrite IH. tauto.
Qed.

End calc_score_facts.

(** C5. Over sequences that cover the positions [0..v_gene_end],
    [calc_score] raises an exception if and only if both sequences hold the
    wildcard at every position of [0..v_gene_end]; the exception is then the
    division by zero and no fallback value is returned; otherwise the value
    is the number of informative positions with equal tokens divided by the
    number of informative positions. *)
Theorem calc_score_spec (seq_1 : list pyobj) (seq_2 : string) (ann : Annotation) :
  score_range ann <= length seq_1 -> score_range ann <= String.length seq_2 ->
  ((exists e, calc_score seq_1 seq_2 ann = Raise e)
     <-> all_wildcard seq_1 seq_2 (score_range ann))
  /\ (all_wildcard seq_1 seq_2 (score_range ann) ->
      calc_score seq_1 seq_2 ann = Raise ZeroDivisionError)
  /\ (~ all_wildcard seq_1 seq_2 (score_range ann) ->
      0 < informative_count seq_1 seq_2 (score_range ann)
      /\ calc_score seq_1 seq_2 ann =
         Ok (Qmake (Z.of_nat (match_count seq_1 seq_2 (score_range ann)))
                   (Pos.of_nat (informative_count seq_1 seq_2 (score_range ann))))).
Proof.
  intros H1 H2.
  set (n := score_range ann) in *.
  set (all_wild := all_wildcard seq_1 seq_2 n).
  assert (Hrange : Forall (fun i => i < length seq_1 /\ i < String.length seq_2)
                          (seq 0 n)).
  { apply Forall_forall. intros i Hi. apply elem_of_seq in Hi. lia. }
  assert (Hrun : calc_score seq_1 seq_2 ann =
                 py_truediv (Z.of_nat (match_count seq_1 seq_2 n))
                            (Z.of_nat (informative_count seq_1 seq_2 n))).
  { unfold calc_score, py_range. fold (score_range ann). fold n.
    rewrite (calc_score_loop seq_1 seq_2 _ 0%Z 0%Z Hrange). reflexivity. }
  assert (Hzero : informative_count seq_1 seq_2 n = 0 <-> all_wild).
  { unfold informative_count. rewrite count_if_zero, Forall_forall.
    unfold all_wild, all_wildcard. split.
    - intros H i Hi. apply informative_false_iff; [lia | lia |].
      apply H. apply elem_of_seq. lia.
    - intros H i Hi. apply elem_of_seq in Hi.
      apply informative_false_iff; [lia | lia |]. apply H. lia. }
  assert (Hall : all_wild -> calc_score seq_1 seq_2 ann = Raise ZeroDivisionError).
  { intros Hw. apply Hzero in Hw. rewrite Hrun, Hw. reflexivity. }
  assert (Hsome : ~ all_wild ->
      0 < informative_count seq_1 seq_2 n
      /\ calc_score seq_1 seq_2 ann =
         Ok (Qmake (Z.of_nat (match_count seq_1 seq_2 n))
                   (Pos.of_nat (informative_count seq_1 seq_2 n)))).
  { intros Hw.
    assert (Hpos : 0 < informative_count seq_1 seq_2 n).
    { destruct (informative_count seq_1 seq_2 n) eqn:E; [|lia].
      exfalso. apply Hw, Hzero. reflexivity. }
    split; [exact Hpos|]. rewrite Hrun. unfold py_truediv.
    destruct (Z.eqb_spec (Z.of_nat (informative_count seq_1 seq_2 n)) 0); [lia|].
    do 2 f_equal. destruct (informative_count seq_1 seq_2 n) eqn:E; [lia|].
    simpl. rewrite Pos.of_nat_succ. reflexivity. }
  split; [|split]; [|exact Hall|exact Hsome].
  split.
  - intros [e He]. destruct (decide (informative_count seq_1 seq_2 n = 0)) as [E|E].
    + apply Hzero, E.
    + assert (Hw : ~ all_wild) by (intros Hw; apply E, Hzero, Hw).
      destruct (Hsome Hw) as [_ Heq]. congruence.
  - intros Hw. eauto.
Qed.

(** ** is_v_gene_score_less *)

Lemma Qlt_bool_iff (a b : Q) : Qlt_bool a b = true <-> (a < b)%Q.
Proof.
  unfold Qlt_bool. rewrite negb_true_iff. split.
  - intros H. apply Qnot_le_lt. intros Hle.
    apply Qle_bool_iff in Hle. congruence.
  - intros H. destruct (Qle_bool b a) eqn:E; [|reflexivity].
    apply Qle_bool_iff in E. exfalso. exact (Qlt_not_le _ _ H E).
Qed.

(** C8. [is_v_gene_score_less] is true whenever either argument is absent;
    when both are present it is true exactly when the first is smaller than
    the second. *)
Theorem is_v_gene_score_less_spec (a b : Q) (o : option Q) :
  is_v_gene_score_less None o = true
  /\ is_v_gene_score_less o None = true
  /\ (is_v_gene_score_less (Some a) (Some b) = true <-> (a < b)%Q).
Proof.
  split; [reflexivity|]. split; [destruct o; reflexivity|].
  simpl. apply Qlt_bool_iff.
Qed.

(** ** Loops with [break] *)

Lemma for_break_cons {A S : Type} (body : A -> S -> result (control S)) x xs s :
  for_break body (x :: xs) s =
  (c ← body x s;
   match c with Continue s' => for_break body xs s' | Break s' => Ok s' end).
Proof. reflexivity. Qed.

(** A property that every round preserves holds when the loop ends. *)
Lemma for_break_invariant {A S : Type} (body : A -> S -> result (control S))
    (P : S -> Prop) (xs : list A) :
  (forall x s c, x ∈ xs -> P s -> body x s = Ok c -> P (control_state c)) ->
  forall s s', P s -> for_break body xs s = Ok s' -> P s'.
Proof.
  induction xs as [|x xs IH]; intros Hbody s s' Hs H.
  - injection H as <-. exact Hs.
  - rewrite for_break_cons in H. apply bind_Ok in H as (c & Hc & H).
    pose proof (Hbody x s c (list_elem_of_here _ _) Hs Hc) as Hc'.
    destruct c as [s1|s1]; simpl in Hc'.
    + apply (IH (fun y t d Hy => Hbody y t d (list_elem_of_further _ _ _ Hy))
                s1 s' Hc' H).
    + injection H as <-. exact Hc'.
Qed.

(** A measure that a continuing round raises by at most one, and a breaking
    round does not raise, grows by at most the number of rounds. *)
Lemma for_break_bound {A St : Type} (body : A -> St -> result (control St))
    (m : St -> nat) (xs : list A) :
  (forall x s c, body x s = Ok c ->
     match c with
     | Continue s' => m s' <= S (m s)
     | Break s' => m s' <= m s
     end) ->
  forall s s', for_break body xs s = Ok s' -> m s' <= m s + length xs.
Proof.
  intros Hbody. induction xs as [|x xs IH]; intros s s' H.
  - injection H as <-. simpl. lia.
  - rewrite for_break_cons in H. apply bind_Ok in H as (c & Hc & H).
    pose proof (Hbody x s c Hc) as Hm. destruct c as [s1|s1].
    + apply IH in H. simpl. lia.
    + injection H as <-. simpl. lia.
Qed.

(** A loop whose rounds all return, returns. *)
Lemma for_break_total {A S : Type} (body : A -> S -> result (control S))
    (P : S -> Prop) (xs : list A) :
  (forall x s, P s -> exists c, body x s = Ok c /\ P (control_state c)) ->
  forall s, P s -> exists s', for_break body xs s = Ok s'.
Proof.
  intros Hbody. induction xs as [|x xs IH]; intros s Hs.
  - eexists. reflexivity.
  - destruct (Hbody x s Hs) as (c & Hc & Hc').
    rewrite for_break_cons, Hc, bind_ret. destruct c as [s1|s1]; simpl in Hc'.
    + apply IH, Hc'.
    + eauto.
Qed.

(** ** Counting the positions that differ *)

Lemma count_if_ext (f g : nat -> bool) (l : list nat) :
  (forall i, i ∈ l -> f i = g i) -> count_if f l = count_if g l.
Proof.
  induction l as [|i l IH]; intros H; simpl; [reflexivity|].
  rewrite (H i) by constructor. f_equal. apply IH.
  intros j Hj. apply H. by constructor.
Qed.

Lemma count_if_flip (f g : nat -> bool) (l : list nat) (p : nat) :
  NoDup l -> p ∈ l -> f p = true -> g p = false ->
  (forall i, i ≠ p -> f i = g i) ->
  count_if g l + 1 = count_if f l.
Proof.
  intros Hnd Hp Hf Hg Hother. induction Hnd as [|i l Hi Hnd IH]; simpl.
  - inversion Hp.
  - destruct (decide (i = p)) as [->|Hne].
    + rewrite Hf, Hg. simpl.
      rewrite (count_if_ext f g l); [lia|].
      intros j Hj. apply Hother. intros ->. contradiction.
    + rewrite (Hother i Hne).
      apply elem_of_cons in Hp as [->|Hp]; [contradiction|].
      specialize (IH Hp). lia.
Qed.

Lemma differs_insert_eq (current_seq original_seq : list pyobj) (p : nat)
    (a : pyobj) :
  original_seq !! p = Some a ->
  differs (<[p := a]> current_seq) original_seq p = false.
Proof.
  intros Ha. unfold differs. rewrite Ha.
  destruct (<[p := a]> current_seq !! p) as [b|] eqn:E; [|reflexivity].
  destruct (decide (p < length current_seq)) as [Hlt|Hge].
  - rewrite list_lookup_insert_eq in E by exact Hlt. injection E as <-.
    by rewrite py_eq_refl.
  - apply lookup_lt_Some in E. rewrite length_insert in E. lia.
Qed.

Lemma differs_insert_ne (current_seq original_seq : list pyobj) (p i : nat)
    (a : pyobj) :
  i ≠ p -> differs (<[p := a]> current_seq) original_seq i
           = differs current_seq original_seq i.
Proof.
  intros Hne. unfold differs. by rewrite list_lookup_insert_ne.
Qed.

(** Reverting one differing position to the original's token lowers the
    number of differing positions by exactly one. *)
Lemma diff_count_revert (current_seq original_seq : list pyobj) (p : nat)
    (a : pyobj) :
  differs current_seq original_seq p = true ->
  original_seq !! p = Some a ->
  diff_count (<[p := a]> current_seq) original_seq + 1
  = diff_count current_seq original_seq.
Proof.
  intros Hd Ha. unfold diff_count. rewrite length_insert.
  apply (count_if_flip _ _ _ p).
  - apply NoDup_seq.
  - apply elem_of_seq. unfold differs in Hd.
    destruct (current_seq !! p) eqn:E; [|discriminate].
    apply lookup_lt_Some in E. lia.
  - exact Hd.
  - by apply differs_insert_eq.
  - intros i Hi. symmetry. by apply differs_insert_ne.
Qed.

(** ** VGeneScorer.query *)

Lemma enumerate_from_lookup {A : Type} (xs : list A) (k i : nat) :
  enumerate_from k xs !! i = (fun x => (k + i, x)) <$> xs !! i.
Proof.
  revert k i. induction xs as [|x xs IH]; intros k i; [reflexivity|].
  destruct i as [|i]; simpl.
  - f_equal. f_equal. lia.
  - rewrite IH. destruct (xs !! i); simpl; [|reflexivity].
    f_equal. f_equal. lia.
Qed.

Lemma enumerate_from_length {A : Type} (xs : list A) (k : nat) :
  length (enumerate_from k xs) = length xs.
Proof. revert k. induction xs; intros k; simpl; auto. Qed.

Lemma enumerate_from_elem {A : Type} (xs : list A) (k : nat) (p : nat * A) :
  p ∈ enumerate_from k xs -> k <= fst p /\ xs !! (fst p - k) = Some (snd p).
Proof.
  intros Hp. apply list_elem_of_lookup in Hp as [i Hi].
  rewrite enumerate_from_lookup in Hi.
  destruct (xs !! i) eqn:E; simpl in Hi; [|discriminate].
  injection Hi as <-. simpl. split; [lia|].
  replace (k + i - k) with i by lia. exact E.
Qed.

Lemma enumerate_from_increasing {A : Type} (xs : list A) (k : nat) :
  StronglySorted (fun p q : nat * A => fst p < fst q) (enumerate_from k xs).
Proof.
  revert k. induction xs as [|x xs IH]; intros k; simpl; constructor.
  - apply IH.
  - apply Forall_forall. intros p Hp.
    apply enumerate_from_elem in Hp. simpl. lia.
Qed.

Lemma insert_desc_perm (x : nat * Q) (l : list (nat * Q)) :
  insert_desc x l ≡ₚ x :: l.
Proof.
  induction l as [|y l IH]; simpl; [reflexivity|].
  destruct (Qle_bool (snd y) (snd x)); [reflexivity|].
  rewrite IH. apply Permutation_swap.
Qed.

Lemma sorted_desc_perm (l : list (nat * Q)) : sorted_desc l ≡ₚ l.
Proof.
  induction l as [|x l IH]; simpl; [reflexivity|].
  rewrite insert_desc_perm. by f_equiv.
Qed.

Lemma ranks_before_le (p q : nat * Q) : ranks_before p q -> (snd q <= snd p)%Q.
Proof.
  intros [H|[H _]]; [apply Qlt_le_weak, H|].
  rewrite H. apply Qle_refl.
Qed.

Lemma insert_desc_sorted (x : nat * Q) (l : list (nat * Q)) :
  StronglySorted ranks_before l ->
  Forall (fun y => fst x < fst y) l ->
  StronglySorted ranks_before (insert_desc x l).
Proof.
  induction l as [|y l IH]; intros Hs Hx; simpl.
  - repeat constructor.
  - apply StronglySorted_cons in Hs as [Hy Hs].
    apply Forall_cons in Hx as [Hxy Hx].
    destruct (Qle_bool (snd y) (snd x)) eqn:E.
    + apply Qle_bool_iff in E.
      assert (Hrank : forall z, (snd z <= snd y)%Q -> fst x < fst z ->
                                ranks_before x z).
      { intros z Hz Hlt. unfold ranks_before.
        destruct (Qlt_le_dec (snd z) (snd x)) as [Hlt'|Hle]; [by left|].
        right. split; [|exact Hlt]. apply Qle_antisym; [exact Hle|].
        eapply Qle_trans; eassumption. }
      constructor; [constructor; assumption|].
      constructor.
      * apply Hrank; [apply Qle_refl | exact Hxy].
      * rewrite Forall_forall in Hy, Hx |- *. intros z Hz.
        apply Hrank; [apply ranks_before_le; auto | auto].
    + assert (Hlt : (snd x < snd y)%Q).
      { apply Qnot_le_lt. intros Hle. apply Qle_bool_iff in Hle. congruence. }
      constructor; [apply IH; assumption|].
      rewrite insert_desc_perm. constructor; [by left | exact Hy].
Qed.

Lemma sorted_desc_sorted (l : list (nat * Q)) :
  StronglySorted (fun p q : nat * Q => fst p < fst q) l ->
  StronglySorted ranks_before (sorted_desc l).
Proof.
  induction 1 as [|x l Hs IH Hx]; simpl; [constructor|].
  apply insert_desc_sorted; [exact IH|].
  by rewrite sorted_desc_perm.
Qed.

(** The ranking of the four similarities of the specification's example. *)
Lemma sorted_desc_example (v_gene_scores : list Q) :
  Forall2 Qeq v_gene_scores [9 # 10; 1 # 2; 9 # 10; 1 # 10]%Q ->
  exists a c,
    take 2 (sorted_desc (enumerate v_gene_scores)) = [(0, a); (2, c)]
    /\ (a == 9 # 10)%Q /\ (c == 9 # 10)%Q.
Proof.
  intros H.
  destruct v_gene_scores as [|a [|b [|c [|d [|]]]]];
    repeat match goal with
           | H : Forall2 _ _ _ |- _ => inversion H; clear H; subst
           end.
  assert (Hdc : Qle_bool d c = true).
  { apply Qle_bool_iff.
    match goal with Hc : (c == _)%Q, Hd : (d == _)%Q |- _ => rewrite Hc, Hd end.
    discriminate. }
  assert (Hcb : Qle_bool c b = false).
  { destruct (Qle_bool c b) eqn:E; [|reflexivity]. apply Qle_bool_iff in E.
    match goal with Hc : (c == _)%Q, Hb : (b == _)%Q |- _ => rewrite Hc, Hb in E end.
    exfalso. apply E. reflexivity. }
  assert (Hdb : Qle_bool d b = true).
  { apply Qle_bool_iff.
    match goal with Hb : (b == _)%Q, Hd : (d == _)%Q |- _ => rewrite Hb, Hd end.
    discriminate. }
  assert (Hca : Qle_bool c a = true).
  { apply Qle_bool_iff.
    match goal with Hc : (c == _)%Q, Ha : (a == _)%Q |- _ => rewrite Hc, Ha end.
    discriminate. }
  exists a, c. split; [|split; assumption].
  cbn. rewrite Hdc. cbn. rewrite Hcb. cbn. rewrite Hdb. cbn. rewrite Hca.
  reflexivity.
Qed.

Section query_facts.
Variable self : VGeneScorer.t.

Lemma query_loop (l : list (nat * Q)) (acc : list (string * Q * string)) :
  Forall (fun e => fst e < length (VGeneScorer.human_samples self)
                   /\ fst e < length (VGeneScorer.labels self)) l ->
  exists res, for_each (VGeneScorer.query_body self) l acc = Ok (acc ++ res)
              /\ Forall2 (entry_of self) l res.
Proof.
  intros Hl. revert acc. induction Hl as [|[idx q] l [H1 H2] _ IH]; intros acc.
  - exists []. rewrite app_nil_r. split; [reflexivity | constructor].
  - simpl in H1, H2.
    destruct (lookup_lt_is_Some_2 _ _ H1) as [sample Hsample].
    destruct (lookup_lt_is_Some_2 _ _ H2) as [label Hlabel].
    destruct (IH (acc ++ [(sample, q, label)])) as (res & Hres & Hall).
    exists ((sample, q, label) :: res). split.
    + assert (Hstep : VGeneScorer.query_body self acc (idx, q) =
                      Ok (acc ++ [(sample, q, label)])).
      { unfold VGeneScorer.query_body.
        rewrite (getitem_lookup _ _ _ Hsample), bind_ret.
        rewrite (getitem_lookup _ _ _ Hlabel), bind_ret. reflexivity. }
      rewrite for_each_cons, Hstep, bind_ret, Hres, <- app_assoc. reflexivity.
    + constructor; [|exact Hall]. repeat split; assumption.
Qed.

Lemma scores_length (sequence : list pyobj) (v_gene_scores : list Q) :
  VGeneScorer.scores self sequence = Ok v_gene_scores ->
  length v_gene_scores = length (VGeneScorer.human_samples self).
Proof.
  unfold VGeneScorer.scores. generalize (VGeneScorer.human_samples self).
  intros samples. revert v_gene_scores.
  induction samples as [|s samples IH]; intros scores; simpl.
  - intros [= <-]. reflexivity.
  - intros H. apply bind_Ok in H as (y & _ & H).
    apply bind_Ok in H as (ys & Hys & [= <-]). simpl. f_equal. auto.
Qed.

End query_facts.

(** C4. When every member of the population can be scored, [query] returns
    at most two triples: the first two entries of a ranking of the whole
    population that is sorted by descending score, entries of equal score
    being ranked by population index; each triple carries the sample, score
    and label of its entry.  For the similarities 0.9, 0.5, 0.9, 0.1 the
    two triples are those of the entries 0 and 2, in this order, both with
    the score 0.9. *)
Theorem query_returns_top_two (self : VGeneScorer.t) (sequence : list pyobj)
    (v_gene_scores : list Q) :
  length (VGeneScorer.human_samples self) = length (VGeneScorer.labels self) ->
  VGeneScorer.scores self sequence = Ok v_gene_scores ->
  exists (res : list (string * Q * string)) (top rest : list (nat * Q)),
    VGeneScorer.query self sequence = Ok res
    /\ length res <= 2
    /\ length res = min 2 (length (VGeneScorer.human_samples self))
    /\ Forall2 (entry_of self) top res
    /\ top ++ rest ≡ₚ enumerate v_gene_scores
    /\ StronglySorted ranks_before (top ++ rest)
    /\ (Forall2 Qeq v_gene_scores [9 # 10; 1 # 2; 9 # 10; 1 # 10]%Q ->
        fst <$> top = [0; 2]
        /\ Forall (fun r => (snd (fst r) == 9 # 10)%Q) res).
Proof.
  intros Hlen Hscores.
  pose proof (scores_length self sequence v_gene_scores Hscores) as Hn.
  set (ranking := sorted_desc (enumerate v_gene_scores)).
  assert (Hperm : ranking ≡ₚ enumerate v_gene_scores) by apply sorted_desc_perm.
  assert (Hvalid : Forall (fun e => fst e < length (VGeneScorer.human_samples self)
                     /\ fst e < length (VGeneScorer.labels self)) (take 2 ranking)).
  { apply Forall_take. rewrite Hperm. apply Forall_forall. intros p Hp.
    apply enumerate_from_elem in Hp as [_ Hp].
    apply lookup_lt_Some in Hp. lia. }
  destruct (query_loop self (take 2 ranking) [] Hvalid) as (res & Hres & Hall).
  exists res, (take 2 ranking), (drop 2 ranking).
  assert (Hl : length res = min 2 (length (VGeneScorer.human_samples self))).
  { rewrite <- (Forall2_length _ _ _ Hall), length_take, Hperm.
    unfold enumerate. rewrite enumerate_from_length, Hn. reflexivity. }
  split; [|split; [|split; [|split; [|split; [|split]]]]].
  - unfold VGeneScorer.query. rewrite Hscores, bind_ret. exact Hres.
  - lia.
  - exact Hl.
  - exact Hall.
  - rewrite take_drop. exact Hperm.
  - rewrite take_drop. apply sorted_desc_sorted, enumerate_from_increasing.
  - intros Hex. destruct (sorted_desc_example _ Hex) as (a & c & Htop & Ha & Hc).
    fold ranking in Htop. rewrite Htop in Hall |- *. split; [reflexivity|].
    inversion Hall as [|e1 r1 l1 res1 (_ & Hr1 & _) Hall1]; subst.
    inversion Hall1 as [|e2 r2 l2 res2 (_ & Hr2 & _) Hall2]; subst.
    inversion Hall2; subst. simpl in Hr1, Hr2.
    repeat constructor; [by rewrite Hr1 | by rewrite Hr2].
Qed.

(** ** ReverseHumanizer: single changes and the best change *)

Section humanizer_facts.
Context (ext : Imports) (self : ReverseHumanizer.t).

Local Abbreviation schema :=
  (ModelWrapper.annotation (ReverseHumanizer.model_wrapper self)).
Local Abbreviation predict :=
  (ModelWrapper.predict_proba (ReverseHumanizer.model_wrapper self)).
Local Abbreviation test_single_change :=
  (ReverseHumanizer._test_single_change self).
Local Abbreviation find_best_change :=
  (ReverseHumanizer._find_best_change ext self).

(** What [_test_single_change] computes at a position of the sequence. *)
Lemma test_single_change_unfold (sequence : list pyobj) (idx : nat)
    (new_aa aa_backup : pyobj) :
  sequence !! idx = Some aa_backup ->
  test_single_change sequence idx new_aa =
  if py_eq aa_backup new_aa
  then Ok (mkChange None aa_backup PNone (-1)%Q, sequence)
  else new_value ← predict (<[idx := new_aa]> sequence);
       Ok (mkChange (Some idx) aa_backup new_aa new_value, sequence).
Proof.
  intros Hidx. unfold ReverseHumanizer._test_single_change.
  rewrite (getitem_lookup _ _ _ Hidx), bind_ret.
  destruct (py_eq aa_backup new_aa); [reflexivity|].
  pose proof (lookup_lt_Some _ _ _ Hidx) as Hlt.
  rewrite (setitem_lt _ _ _ Hlt), bind_ret.
  destruct (predict _) as [v|e]; [|reflexivity].
  rewrite !bind_ret, setitem_lt by (rewrite length_insert; exact Hlt).
  rewrite bind_ret, list_insert_insert_eq, list_insert_id by exact Hidx.
  reflexivity.
Qed.

Lemma test_single_change_out_of_range (sequence : list pyobj) (idx : nat)
    (new_aa : pyobj) :
  sequence !! idx = None ->
  test_single_change sequence idx new_aa = Raise IndexError.
Proof.
  intros H. unfold ReverseHumanizer._test_single_change, getitem.
  rewrite H. reflexivity.
Qed.

Lemma test_single_change_frame (sequence sequence' : list pyobj) (idx : nat)
    (new_aa : pyobj) (c : SequenceChange) :
  test_single_change sequence idx new_aa = Ok (c, sequence') ->
  sequence' = sequence.
Proof.
  destruct (sequence !! idx) as [b|] eqn:Hidx.
  - rewrite (test_single_change_unfold _ _ _ _ Hidx).
    destruct (py_eq b new_aa); [congruence|].
    destruct (predict _); simpl; congruence.
  - rewrite (test_single_change_out_of_range _ _ _ Hidx). discriminate.
Qed.

Local Abbreviation best_so_far := (best_so_far self).

Lemma find_best_body_inv (current_seq original_seq current_seq' : list pyobj)
    (best best' : SequenceChange) (idx : nat) (column_name : string) :
  segmented_positions schema !! idx = Some column_name ->
  best_so_far current_seq original_seq best ->
  ReverseHumanizer.find_best_body ext self original_seq
    (best, current_seq) (idx, column_name) = Ok (best', current_seq') ->
  current_seq' = current_seq
  /\ best_so_far current_seq original_seq best'.
Proof.
  intros Hname Hbest. unfold ReverseHumanizer.find_best_body.
  case_bool_decide as Hskip; [intros [= <- <-]; auto|].
  intros H. apply bind_Ok in H as (new_aa & Hnew & H).
  apply getitem_Ok in Hnew.
  apply bind_Ok in H as ([cand seq'] & Htest & H).
  pose proof (test_single_change_frame _ _ _ _ _ Htest) as ->.
  assert (Hcand : best_so_far current_seq original_seq cand).
  { destruct (current_seq !! idx) as [b|] eqn:Hidx.
    - rewrite (test_single_change_unfold _ _ _ _ Hidx) in Htest.
      destruct (py_eq b new_aa) eqn:E.
      + injection Htest as <-. left. split; reflexivity.
      + apply bind_Ok in Htest as (v & Hv & [= <-]). right.
        exists idx, column_name. simpl.
        repeat split; try assumption.
        unfold differs. rewrite Hidx, Hnew, E. reflexivity.
    - rewrite (test_single_change_out_of_range _ _ _ Hidx) in Htest.
      discriminate. }
  destruct (is_change_less ext best cand _); injection H as <- <-; auto.
Qed.

Lemma find_best_loop_inv (original_seq : list pyobj)
    (entries : list (nat * string)) :
  Forall (fun e => segmented_positions schema !! fst e = Some (snd e)) entries ->
  forall current_seq current_seq' best best',
  best_so_far current_seq original_seq best ->
  for_each (ReverseHumanizer.find_best_body ext self original_seq) entries
           (best, current_seq) = Ok (best', current_seq') ->
  current_seq' = current_seq
  /\ best_so_far current_seq original_seq best'.
Proof.
  induction 1 as [|[idx name] entries Hname _ IH];
    intros current_seq current_seq' best best' Hbest H.
  - injection H as <- <-. auto.
  - rewrite for_each_cons in H. apply bind_Ok in H as ([b1 s1] & Hstep & H).
    destruct (find_best_body_inv _ _ _ _ _ _ _ Hname Hbest Hstep) as [-> Hb1].
    exact (IH _ _ _ _ Hb1 H).
Qed.

Lemma enumerate_lookup_Forall {A : Type} (xs : list A) :
  Forall (fun e => xs !! fst e = Some (snd e)) (enumerate xs).
Proof.
  apply Forall_forall. intros p Hp.
  apply enumerate_from_elem in Hp as [_ Hp].
  by rewrite Nat.sub_0_r in Hp.
Qed.

Lemma find_best_change_inv (current_seq original_seq current_seq' : list pyobj)
    (best : SequenceChange) :
  find_best_change current_seq original_seq = Ok (best, current_seq') ->
  current_seq' = current_seq
  /\ best_so_far current_seq original_seq best.
Proof.
  apply find_best_loop_inv; [apply enumerate_lookup_Forall|].
  left. split; reflexivity.
Qed.

Lemma real_candidate_defined (current_seq original_seq : list pyobj)
    (c : SequenceChange) :
  best_so_far current_seq original_seq c ->
  forall pos, position c = Some pos ->
  real_candidate self current_seq original_seq c.
Proof. intros [[Hnone _]|H] pos Hpos; [congruence | exact H]. Qed.


(** [_find_best_change] returns when the sequences cover the schema and
    the classifier answers. *)
Lemma find_best_loop_total (original_seq : list pyobj)
    (entries : list (nat * string)) :
  model_total self ->
  forall current_seq best,
  Forall (fun e => fst e < length current_seq /\ fst e < length original_seq)
         entries ->
  exists best',
    for_each (ReverseHumanizer.find_best_body ext self original_seq) entries
             (best, current_seq) = Ok (best', current_seq).
Proof.
  intros Hmodel current_seq best Hall. revert best.
  induction Hall as [|[idx name] entries [H1 H2] _ IH]; intros best.
  - eexists. reflexivity.
  - simpl in H1, H2. rewrite for_each_cons.
    assert (Hstep : exists b1,
               ReverseHumanizer.find_best_body ext self original_seq
                 (best, current_seq) (idx, name) = Ok (b1, current_seq)).
    { unfold ReverseHumanizer.find_best_body.
      case_bool_decide; [eauto|].
      destruct (lookup_lt_is_Some_2 _ _ H2) as [a Ha].
      destruct (lookup_lt_is_Some_2 _ _ H1) as [b Hb].
      rewrite (getitem_lookup _ _ _ Ha), bind_ret.
      rewrite (test_single_change_unfold _ _ _ _ Hb).
      destruct (py_eq b a).
      - rewrite bind_ret. destruct (is_change_less _ _ _ _); eauto.
      - destruct (Hmodel (<[idx := a]> current_seq)) as [v ->].
        rewrite !bind_ret. destruct (is_change_less _ _ _ _); eauto. }
    destruct Hstep as [b1 ->]. rewrite bind_ret. apply IH.
Qed.

Lemma enumerate_index_Forall {A : Type} (xs : list A) (P : nat -> Prop) :
  (forall i, i < length xs -> P i) ->
  Forall (fun e : nat * A => P (fst e)) (enumerate xs).
Proof.
  intros HP. apply Forall_forall. intros p Hp.
  apply enumerate_from_elem in Hp as [_ Hp].
  apply lookup_lt_Some in Hp. apply HP. lia.
Qed.

Lemma find_best_change_total (current_seq original_seq : list pyobj) :
  model_total self ->
  length (segmented_positions schema) <= length current_seq ->
  length (segmented_positions schema) <= length original_seq ->
  exists best, find_best_change current_seq original_seq = Ok (best, current_seq).
Proof.
  intros Hmodel H1 H2. apply find_best_loop_total; [exact Hmodel|].
  apply (enumerate_index_Forall _
           (fun i => i < length current_seq /\ i < length original_seq)).
  intros i Hi. lia.
Qed.

(** A position at which the current sequence equals the original yields
    the null change and leaves the sequence as it was. *)
Lemma null_candidate (current_seq original_seq : list pyobj) (idx : nat)
    (b a : pyobj) :
  current_seq !! idx = Some b -> original_seq !! idx = Some a ->
  differs current_seq original_seq idx = false ->
  test_single_change current_seq idx a =
  Ok (mkChange None b PNone (-1)%Q, current_seq).
Proof.
  intros Hb Ha Hd. rewrite (test_single_change_unfold _ _ _ _ Hb).
  unfold differs in Hd. rewrite Hb, Ha in Hd.
  apply negb_false_iff in Hd. rewrite Hd. reflexivity.
Qed.

Lemma real_candidate_score (current_seq original_seq : list pyobj)
    (c : SequenceChange) :
  model_probability self ->
  real_candidate self current_seq original_seq c ->
  is_defined c = true /\ (-1 < value c)%Q.
Proof.
  intros Hprob (pos & name & Hpos & _ & _ & _ & _ & _ & Hv).
  unfold is_defined. rewrite Hpos. split; [reflexivity|].
  apply Hprob in Hv as [Hv _].
  eapply Qlt_le_trans; [|exact Hv]. reflexivity.
Qed.

(** Under null-change dominance, a null candidate does not replace a real
    best change. *)
Lemma null_candidate_not_selected (current_seq original_seq : list pyobj)
    (best : SequenceChange) (idx : nat) (column_name : string) (b a : pyobj) :
  null_dominance ext -> model_probability self ->
  real_candidate self current_seq original_seq best ->
  current_seq !! idx = Some b -> original_seq !! idx = Some a ->
  differs current_seq original_seq idx = false ->
  ReverseHumanizer.find_best_body ext self original_seq
    (best, current_seq) (idx, column_name) = Ok (best, current_seq).
Proof.
  intros Hdom Hprob Hbest Hb Ha Hd. unfold ReverseHumanizer.find_best_body.
  case_bool_decide; [reflexivity|].
  rewrite (getitem_lookup _ _ _ Ha), bind_ret.
  rewrite (null_candidate _ _ _ _ _ Hb Ha Hd), bind_ret.
  destruct (real_candidate_score _ _ _ Hprob Hbest) as [Hdef Hval].
  rewrite (Hdom best _ _ Hdef Hval); [reflexivity|]. split; reflexivity.
Qed.

(** Hence a best change that is real stays real to the end of the loop. *)
Lemma find_best_loop_keeps_real (original_seq : list pyobj)
    (entries : list (nat * string)) :
  null_dominance ext -> model_probability self ->
  Forall (fun e => segmented_positions schema !! fst e = Some (snd e)) entries ->
  forall current_seq current_seq' best best',
  real_candidate self current_seq original_seq best ->
  for_each (ReverseHumanizer.find_best_body ext self original_seq) entries
           (best, current_seq) = Ok (best', current_seq') ->
  real_candidate self current_seq original_seq best'.
Proof.
  intros Hdom Hprob.
  induction 1 as [|[idx name] entries Hname _ IH];
    intros current_seq current_seq' best best' Hbest H.
  - injection H as <- <-. exact Hbest.
  - rewrite for_each_cons in H. apply bind_Ok in H as ([b1 s1] & Hstep & H).
    assert (Hb1 : s1 = current_seq
                  /\ real_candidate self current_seq original_seq b1).
    { destruct (find_best_body_inv _ _ _ _ _ _ _ Hname (or_intror Hbest) Hstep)
        as [-> Hb1]. split; [reflexivity|].
      destruct Hb1 as [Hnull|Hreal]; [|exact Hreal].
      (* the accumulator became a null change: the candidate was null
         and was selected, which null-change dominance excludes *)
      exfalso. revert Hstep. unfold ReverseHumanizer.find_best_body.
      case_bool_decide.
      { intros [= ->]. destruct Hnull as [Hnone _].
        destruct Hbest as (? & ? & ? & _). congruence. }
      intros Hstep. apply bind_Ok in Hstep as (a & Ha & Hstep).
      apply bind_Ok in Hstep as ([cand s2] & Htest & Hstep).
      destruct (real_candidate_score _ _ _ Hprob Hbest) as [Hdef Hval].
      destruct (is_change_less ext best cand _) eqn:Eless.
      - injection Hstep as -> ->.
        rewrite (Hdom best b1 _ Hdef Hval Hnull) in Eless. discriminate.
      - injection Hstep as -> ->. destruct Hnull as [Hnone _].
        destruct Hbest as (? & ? & ? & _). congruence. }
    destruct Hb1 as [-> Hb1]. exact (IH _ _ _ _ Hb1 H).
Qed.

(** *** One round of the search *)

Section rounds.
Variables (original_seq : list pyobj) (human_sample : human_ref)
          (target_model_metric : Q) (target_v_gene_score : option Q).

Local Abbreviation round :=
  (ReverseHumanizer.round ext self original_seq human_sample
                          target_model_metric target_v_gene_score).
Local Abbreviation meets :=
  (ReverseHumanizer.meets_targets target_model_metric target_v_gene_score).

Lemma meets_targets_accepted (it : Z) (best_value : Q) (v : option Q)
    (c : option SequenceChange) :
  meets best_value v = true <->
  accepted target_model_metric target_v_gene_score
           (mkIteration it best_value v c).
Proof.
  unfold ReverseHumanizer.meets_targets, accepted. simpl.
  rewrite andb_true_iff, Qle_bool_iff. reflexivity.
Qed.

(** What a round that returns has done. *)
Lemma round_inv (it : Z) (current_seq : list pyobj)
    (iterations : list IterationDetails) (c : control ReverseHumanizer.loop_state) :
  round it (current_seq, iterations) = Ok c ->
  match c with
  | Break st => st = (current_seq, iterations)
  | Continue st =>
      exists best pos best_value v,
        real_candidate self current_seq original_seq best
        /\ position best = Some pos
        /\ fst st = <[pos := aa best]> current_seq
        /\ calc_metrics ext (fst st) human_sample = Ok (best_value, v)
        /\ meets best_value v = true
        /\ snd st = iterations ++ [mkIteration it best_value v (Some best)]
  end.
Proof.
  unfold ReverseHumanizer.round. intros H.
  apply bind_Ok in H as ([cv vg] & _ & H). cbv beta iota in H.
  apply bind_Ok in H as ([best cur1] & Hbest & H). cbv beta iota in H.
  apply find_best_change_inv in Hbest as [-> Hbest].
  unfold is_defined in H.
  destruct (position best) as [pos|] eqn:Hpos; rewrite ?bind_ret in H.
  - pose proof (real_candidate_defined _ _ _ Hbest pos Hpos) as Hreal.
    destruct Hreal as (pos' & name & Hpos' & Hname & Hskip & Hcur & Horig & Hd & Hv).
    assert (pos' = pos) as -> by congruence.
    pose proof (lookup_lt_Some _ _ _ Hcur) as Hlt.
    rewrite (getitem_lookup _ _ _ Hcur), bind_ret in H.
    rewrite (setitem_lt _ _ _ Hlt), bind_ret in H.
    apply bind_Ok in H as ([bv v] & Hm & H). cbv beta iota in H.
    destruct (meets bv v) eqn:E; simpl negb in H; cbv iota in H.
    + rewrite (getitem_lookup _ _ _ Hname), bind_ret in H.
      injection H as <-. exists best, pos, bv, v. simpl.
      split; [exists pos, name; repeat split; assumption|].
      repeat split; assumption.
    + rewrite setitem_lt, bind_ret in H by (rewrite length_insert; exact Hlt).
      rewrite list_insert_insert_eq, list_insert_id in H by exact Hcur.
      injection H as <-. reflexivity.
  - injection H as <-. reflexivity.
Qed.

Lemma round_length (it : Z) (st : ReverseHumanizer.loop_state)
    (c : control ReverseHumanizer.loop_state) :
  round it st = Ok c -> length (fst (control_state c)) = length (fst st).
Proof.
  destruct st as [cur iters]. intros H. apply round_inv in H.
  destruct c as [st'|st']; simpl.
  - destruct H as (best & pos & bv & v & _ & _ & -> & _).
    apply length_insert.
  - subst st'. reflexivity.
Qed.

(** The first two steps of a round, and the tentative change. *)
Ltac enter_round Hm Hbest :=
  unfold ReverseHumanizer.round;
  rewrite Hm, bind_ret; cbv beta iota;
  rewrite Hbest, bind_ret; cbv beta iota.

Ltac apply_change Hcur Hlt Hm2 :=
  rewrite (getitem_lookup _ _ _ Hcur), bind_ret;
  rewrite (setitem_lt _ _ _ Hlt), bind_ret;
  rewrite Hm2, bind_ret; cbv beta iota.

(** The three ways a round ends. *)
Lemma round_no_candidate (it : Z) (current_seq current_seq' : list pyobj)
    (iterations : list IterationDetails) (m : Q * option Q)
    (best : SequenceChange) :
  calc_metrics ext current_seq human_sample = Ok m ->
  find_best_change current_seq original_seq = Ok (best, current_seq') ->
  position best = None ->
  round it (current_seq, iterations) = Ok (Break (current_seq, iterations)).
Proof.
  intros Hm Hbest Hpos. destruct m as [cv vg].
  destruct (find_best_change_inv _ _ _ _ Hbest) as [-> _].
  enter_round Hm Hbest. unfold is_defined. rewrite Hpos. reflexivity.
Qed.

Lemma round_rejected (it : Z) (current_seq current_seq' : list pyobj)
    (iterations : list IterationDetails) (m : Q * option Q)
    (best : SequenceChange) (pos : nat) (best_value : Q) (v : option Q) :
  calc_metrics ext current_seq human_sample = Ok m ->
  find_best_change current_seq original_seq = Ok (best, current_seq') ->
  position best = Some pos ->
  calc_metrics ext (<[pos := aa best]> current_seq) human_sample
    = Ok (best_value, v) ->
  meets best_value v = false ->
  round it (current_seq, iterations) = Ok (Break (current_seq, iterations)).
Proof.
  intros Hm Hbest Hpos Hm2 Hgate. destruct m as [cv vg].
  destruct (find_best_change_inv _ _ _ _ Hbest) as [-> Hinv].
  destruct (real_candidate_defined _ _ _ Hinv pos Hpos)
    as (pos' & name & Hpos' & Hname & Hskip & Hcur & Horig & Hd & Hv).
  assert (pos' = pos) as -> by congruence.
  pose proof (lookup_lt_Some _ _ _ Hcur) as Hlt.
  enter_round Hm Hbest. unfold is_defined. rewrite Hpos, bind_ret.
  apply_change Hcur Hlt Hm2.
  rewrite Hgate. simpl negb. cbv iota.
  rewrite setitem_lt, bind_ret by (rewrite length_insert; exact Hlt).
  rewrite list_insert_insert_eq, list_insert_id by exact Hcur.
  reflexivity.
Qed.

Lemma round_accepted (it : Z) (current_seq current_seq' : list pyobj)
    (iterations : list IterationDetails) (m : Q * option Q)
    (best : SequenceChange) (pos : nat) (best_value : Q) (v : option Q) :
  calc_metrics ext current_seq human_sample = Ok m ->
  find_best_change current_seq original_seq = Ok (best, current_seq') ->
  position best = Some pos ->
  calc_metrics ext (<[pos := aa best]> current_seq) human_sample
    = Ok (best_value, v) ->
  meets best_value v = true ->
  round it (current_seq, iterations) =
  Ok (Continue (<[pos := aa best]> current_seq,
                iterations ++ [mkIteration it best_value v (Some best)])).
Proof.
  intros Hm Hbest Hpos Hm2 Hgate. destruct m as [cv vg].
  destruct (find_best_change_inv _ _ _ _ Hbest) as [-> Hinv].
  destruct (real_candidate_defined _ _ _ Hinv pos Hpos)
    as (pos' & name & Hpos' & Hname & Hskip & Hcur & Horig & Hd & Hv).
  assert (pos' = pos) as -> by congruence.
  pose proof (lookup_lt_Some _ _ _ Hcur) as Hlt.
  enter_round Hm Hbest. unfold is_defined. rewrite Hpos, bind_ret.
  apply_change Hcur Hlt Hm2.
  rewrite Hgate. simpl negb. cbv iota.
  rewrite (getitem_lookup _ _ _ Hname), bind_ret. reflexivity.
Qed.

(** A round returns when the collaborators answer and the sequences
    cover the schema. *)
Lemma round_total (it : Z) (current_seq : list pyobj)
    (iterations : list IterationDetails) :
  model_total self -> metrics_total ext ->
  length (segmented_positions schema) <= length current_seq ->
  length (segmented_positions schema) <= length original_seq ->
  exists c, round it (current_seq, iterations) = Ok c.
Proof.
  intros Hmodel Hmetrics H1 H2.
  destruct (Hmetrics current_seq human_sample) as [m Hm].
  destruct (find_best_change_total current_seq original_seq Hmodel H1 H2)
    as [best Hbest].
  destruct (position best) as [pos|] eqn:Hpos.
  - destruct (Hmetrics (<[pos := aa best]> current_seq) human_sample)
      as [[bv v] Hm2].
    destruct (meets bv v) eqn:Hgate.
    + eexists. eapply round_accepted; eassumption.
    + eexists. eapply round_rejected; eassumption.
  - eexists. eapply round_no_candidate; eassumption.
Qed.

(** *** The whole loop *)

Local Abbreviation run := (for_break round).

(** Every accepted round lowers the number of differing positions by
    one and appends one record; no other round changes either. *)
Lemma run_diff_count (its : list Z) (st st' : ReverseHumanizer.loop_state) :
  run its st = Ok st' ->
  diff_count (fst st') original_seq + length (snd st')
  = diff_count (fst st) original_seq + length (snd st).
Proof.
  apply (for_break_invariant round
           (fun s => diff_count (fst s) original_seq + length (snd s)
                     = diff_count (fst st) original_seq + length (snd st)));
    [|reflexivity].
  intros it [cur iters] c _ Hs Hc. apply round_inv in Hc.
  destruct c as [s1|s1]; simpl.
  - destruct Hc as (best & pos & bv & v & Hreal & Hpos & -> & _ & _ & ->).
    destruct Hreal as (pos' & name & Hpos' & _ & _ & _ & Horig & Hd & _).
    assert (pos' = pos) as -> by congruence.
    pose proof (diff_count_revert _ _ _ _ Hd Horig) as Hrev.
    rewrite length_app. simpl in *. lia.
  - subst s1. exact Hs.
Qed.

(** A position that equals the original stays equal to it. *)
Lemma run_stays_reverted (i : nat) (its : list Z)
    (st st' : ReverseHumanizer.loop_state) :
  differs (fst st) original_seq i = false ->
  run its st = Ok st' ->
  differs (fst st') original_seq i = false.
Proof.
  apply (for_break_invariant round
           (fun s => differs (fst s) original_seq i = false)).
  intros it [cur iters] c _ Hs Hc. apply round_inv in Hc.
  destruct c as [s1|s1]; simpl.
  - destruct Hc as (best & pos & bv & v & Hreal & Hpos & -> & _).
    destruct Hreal as (pos' & name & Hpos' & _ & _ & _ & Horig & _ & _).
    assert (pos' = pos) as -> by congruence.
    destruct (decide (i = pos)) as [->|Hne].
    + by apply differs_insert_eq.
    + rewrite differs_insert_ne by exact Hne. exact Hs.
  - subst s1. exact Hs.
Qed.

Lemma run_trail_length (its : list Z) (st st' : ReverseHumanizer.loop_state) :
  run its st = Ok st' -> length (snd st') <= length (snd st) + length its.
Proof.
  apply (for_break_bound round (fun s => length (snd s))).
  intros it [cur iters] c Hc. apply round_inv in Hc.
  destruct c as [s1|s1].
  - destruct Hc as (best & pos & bv & v & _ & _ & _ & _ & _ & ->).
    rewrite length_app. simpl. lia.
  - subst s1. simpl. lia.
Qed.

(** The records the loop appends carry the number of their round, the
    change applied, and pass the acceptance test. *)
Lemma run_records_changes (its : list Z)
    (st st' : ReverseHumanizer.loop_state) :
  run its st = Ok st' ->
  exists added,
    snd st' = snd st ++ added
    /\ Forall (fun r => index r ∈ its
                        /\ accepted target_model_metric target_v_gene_score r
                        /\ is_Some (change r))
              added.
Proof.
  apply (for_break_invariant round
           (fun s => exists added,
                snd s = snd st ++ added
                /\ Forall (fun r => index r ∈ its
                        /\ accepted target_model_metric target_v_gene_score r
                        /\ is_Some (change r))
                     added)).
  - intros it [cur iters] c Hit (added & Hadded & Hall) Hc.
    apply round_inv in Hc. destruct c as [s1|s1]; simpl.
    + destruct Hc as (best & pos & bv & v & _ & _ & _ & _ & Hgate & ->).
      simpl in Hadded. subst iters.
      exists (added ++ [mkIteration it bv v (Some best)]).
      split; [by rewrite app_assoc|].
      apply Forall_app. split; [exact Hall|].
      constructor; [|constructor]. split; [exact Hit|].
      split; [by apply meets_targets_accepted | by eexists].
    + subst s1. exists added. auto.
  - exists []. by rewrite app_nil_r.
Qed.

Lemma run_total (its : list Z) (st : ReverseHumanizer.loop_state) :
  model_total self -> metrics_total ext ->
  length (segmented_positions schema) <= length (fst st) ->
  length (segmented_positions schema) <= length original_seq ->
  exists st', run its st = Ok st'.
Proof.
  intros Hmodel Hmetrics H1 H2.
  apply (for_break_total round
           (fun s => length (segmented_positions schema) <= length (fst s)));
    [|exact H1].
  intros it [cur iters] Hs.
  destruct (round_total it cur iters Hmodel Hmetrics Hs H2) as [c Hc].
  exists c. split; [exact Hc|].
  rewrite (round_length _ _ _ Hc). exact Hs.
Qed.

End rounds.

(** *** The seed *)

Lemma round_numbers_length :
  length (ReverseHumanizer.round_numbers ext) = Z.to_nat (MAX_CHANGES ext).
Proof.
  unfold ReverseHumanizer.round_numbers. by rewrite length_fmap, length_seq.
Qed.

Lemma round_numbers_positive (it : Z) :
  it ∈ ReverseHumanizer.round_numbers ext -> (1 <= it)%Z.
Proof.
  unfold ReverseHumanizer.round_numbers. intros H.
  apply list_elem_of_fmap in H as (k & -> & Hk).
  apply elem_of_seq in Hk. lia.
Qed.

(** With an annotated sample as reference, the seed holds the sample's
    token at the framework positions and the sequence's own token
    elsewhere. *)
Lemma chimeric_loop_annotated (tokens : list string) (names : list string) :
  forall (k : nat) (current_seq : list pyobj),
  k + length names <= length tokens ->
  k + length names <= length current_seq ->
  exists seed,
    for_each (ReverseHumanizer.chimeric_body (AnnotatedSample tokens))
             (enumerate_from k names) current_seq = Ok seed
    /\ length seed = length current_seq
    /\ forall i,
         seed !! i =
         if bool_decide (k <= i) && is_framework (names !! (i - k))
         then PStr <$> tokens !! i
         else current_seq !! i.
Proof.
  induction names as [|name names IH]; intros k current_seq H1 H2.
  - exists current_seq. split; [reflexivity|]. split; [reflexivity|].
    intros i. by rewrite lookup_nil, andb_false_r.
  - simpl in H1, H2.
    assert (Hstep : exists cur1,
               ReverseHumanizer.chimeric_body (AnnotatedSample tokens)
                 current_seq (k, name) = Ok cur1
               /\ length cur1 = length current_seq
               /\ forall i,
                    cur1 !! i =
                    if bool_decide (i = k) && String.prefix "fwr" name
                    then PStr <$> tokens !! i else current_seq !! i).
    { unfold ReverseHumanizer.chimeric_body.
      destruct (String.prefix "fwr" name).
      - destruct (lookup_lt_is_Some_2 tokens k) as [tok Htok]; [lia|].
        unfold ref_getitem. rewrite (getitem_lookup _ _ _ Htok), !bind_ret.
        rewrite setitem_lt by lia. eexists. split; [reflexivity|].
        split; [apply length_insert|]. intros i.
        case_bool_decide as Hi; simpl.
        + subst i. rewrite list_lookup_insert_eq by lia. by rewrite Htok.
        + by rewrite list_lookup_insert_ne.
      - exists current_seq. split; [reflexivity|]. split; [reflexivity|].
        intros i. by rewrite andb_false_r. }
    destruct Hstep as (cur1 & Hstep & Hlen1 & Hcur1).
    destruct (IH (S k) cur1) as (seed & Hseed & Hlen & Hlook); [lia|lia|].
    exists seed. split; [|split].
    + change (enumerate_from k (name :: names))
        with ((k, name) :: enumerate_from (S k) names).
      by rewrite for_each_cons, Hstep, bind_ret.
    + lia.
    + intros i. rewrite Hlook, !Hcur1.
      destruct (decide (i = k)) as [->|Hne].
      * rewrite Nat.sub_diag. simpl.
        rewrite (bool_decide_eq_false_2 (S k <= k)) by lia.
        rewrite (bool_decide_eq_true_2 (k <= k)) by lia.
        rewrite (bool_decide_eq_true_2 (k = k)) by lia. reflexivity.
      * rewrite (bool_decide_eq_false_2 (i = k)) by exact Hne. simpl.
        destruct (decide (k <= i)) as [Hle|Hgt].
        -- replace (i - k) with (S (i - S k)) by lia. simpl.
           rewrite (bool_decide_eq_true_2 (S k <= i)) by lia.
           rewrite (bool_decide_eq_true_2 (k <= i)) by lia. reflexivity.
        -- rewrite (bool_decide_eq_false_2 (S k <= i)) by lia.
           rewrite (bool_decide_eq_false_2 (k <= i)) by lia. reflexivity.
Qed.

Lemma chimeric_body_length (h : human_ref) (current_seq seed : list pyobj)
    (entry : nat * string) :
  ReverseHumanizer.chimeric_body h current_seq entry = Ok seed ->
  length seed = length current_seq.
Proof.
  destruct entry as [idx name]. unfold ReverseHumanizer.chimeric_body.
  destruct (String.prefix "fwr" name); [|by intros [= <-]].
  intros H. apply bind_Ok in H as (v & _ & H).
  apply setitem_Ok in H as [_ ->]. apply length_insert.
Qed.

Lemma chimeric_seed_length (h : human_ref) (current_seq seed : list pyobj) :
  ReverseHumanizer.chimeric_seed self h current_seq = Ok seed ->
  length seed = length current_seq.
Proof.
  unfold ReverseHumanizer.chimeric_seed.
  generalize (enumerate (segmented_positions schema)). intros entries.
  revert current_seq. induction entries as [|e entries IH]; intros cur H.
  - by injection H as <-.
  - rewrite for_each_cons in H. apply bind_Ok in H as (cur1 & Hstep & H).
    apply chimeric_body_length in Hstep. apply IH in H. lia.
Qed.

Lemma chimeric_seed_annotated (tokens : list string) (current_seq : list pyobj) :
  length (segmented_positions schema) <= length tokens ->
  length (segmented_positions schema) <= length current_seq ->
  exists seed,
    ReverseHumanizer.chimeric_seed self (AnnotatedSample tokens) current_seq
      = Ok seed
    /\ length seed = length current_seq
    /\ forall i,
         seed !! i =
         if is_framework (segmented_positions schema !! i)
         then PStr <$> tokens !! i
         else current_seq !! i.
Proof.
  intros H1 H2.
  destruct (chimeric_loop_annotated tokens (segmented_positions schema)
              0 current_seq) as (seed & Hseed & Hlen & Hlook); [lia|lia|].
  exists seed. split; [exact Hseed|]. split; [exact Hlen|].
  intros i. rewrite Hlook, Nat.sub_0_r.
  rewrite (bool_decide_eq_true_2 (0 <= i)) by lia. reflexivity.
Qed.

(** *** query *)

Section query_facts.
Variables (sequence : string) (target_model_metric : Q)
          (target_v_gene_score : option Q) (human_sample : option string).

Local Abbreviation query :=
  (ReverseHumanizer.query ext self sequence target_model_metric
                          target_v_gene_score human_sample).

Lemma query_not_annotated :
  annotate_single ext sequence schema = None ->
  query = Raise (RuntimeError (sequence +:+ " cannot be annotated")).
Proof. intros H. unfold ReverseHumanizer.query. by rewrite H. Qed.

Lemma query_annotated (tokens : list string) :
  annotate_single ext sequence schema = Some tokens ->
  query =
  (h ← ReverseHumanizer.obtain_human_sample ext self (PStr <$> tokens)
                                            human_sample;
   seed ← ReverseHumanizer.chimeric_seed self h (PStr <$> tokens);
   st ← ReverseHumanizer.search ext self (PStr <$> tokens) h
          target_model_metric target_v_gene_score seed;
   Ok (ReverseHumanizer.finish ext st)).
Proof. intros H. unfold ReverseHumanizer.query. by rewrite H. Qed.

(** What a run that returns has gone through. *)
Lemma query_inv (s : string) (trail : list IterationDetails) :
  query = Ok (s, trail) ->
  exists tokens h seed cv vg final,
    annotate_single ext sequence schema = Some tokens
    /\ ReverseHumanizer.obtain_human_sample ext self (PStr <$> tokens)
         human_sample = Ok h
    /\ ReverseHumanizer.chimeric_seed self h (PStr <$> tokens) = Ok seed
    /\ calc_metrics ext seed h = Ok (cv, vg)
    /\ for_break (ReverseHumanizer.round ext self (PStr <$> tokens) h
                    target_model_metric target_v_gene_score)
                 (ReverseHumanizer.round_numbers ext)
                 (seed, [mkIteration 0 cv vg None]) = Ok (final, trail)
    /\ s = seq_to_str ext final false.
Proof.
  destruct (annotate_single ext sequence schema) as [tokens|] eqn:Hann.
  - rewrite (query_annotated tokens Hann). intros H.
    apply bind_Ok in H as (h & Hh & H).
    apply bind_Ok in H as (seed & Hseed & H).
    apply bind_Ok in H as ([final trail'] & Hsearch & H).
    injection H as <- <-. unfold ReverseHumanizer.search in Hsearch.
    apply bind_Ok in Hsearch as ([cv vg] & Hm & Hrun).
    cbv beta iota in Hrun.
    exists tokens, h, seed, cv, vg, final. repeat split; assumption.
  - rewrite (query_not_annotated Hann). discriminate.
Qed.

(** A run returns when the sequence is annotated, a reference is
    obtained, the seed is built and the collaborators answer. *)
Lemma query_returns (tokens : list string) (h : human_ref)
    (seed : list pyobj) :
  model_total self -> metrics_total ext -> annotator_aligned ext self ->
  annotate_single ext sequence schema = Some tokens ->
  ReverseHumanizer.obtain_human_sample ext self (PStr <$> tokens)
    human_sample = Ok h ->
  ReverseHumanizer.chimeric_seed self h (PStr <$> tokens) = Ok seed ->
  exists cv vg final trail,
    calc_metrics ext seed h = Ok (cv, vg)
    /\ for_break (ReverseHumanizer.round ext self (PStr <$> tokens) h
                    target_model_metric target_v_gene_score)
                 (ReverseHumanizer.round_numbers ext)
                 (seed, [mkIteration 0 cv vg None]) = Ok (final, trail)
    /\ query = Ok (seq_to_str ext final false, trail).
Proof.
  intros Hmodel Hmetrics Haligned Hann Hh Hseed.
  destruct (Hmetrics seed h) as [[cv vg] Hm].
  pose proof (Haligned _ _ Hann) as Hlen.
  pose proof (chimeric_seed_length _ _ _ Hseed) as Hlen'.
  rewrite length_fmap in Hlen'.
  destruct (run_total (PStr <$> tokens) h target_model_metric
              target_v_gene_score (ReverseHumanizer.round_numbers ext)
              (seed, [mkIteration 0 cv vg None]) Hmodel Hmetrics)
    as [[final trail] Hrun].
  { simpl. lia. }
  { rewrite length_fmap. lia. }
  exists cv, vg, final, trail. split; [exact Hm|]. split; [exact Hrun|].
  rewrite (query_annotated tokens Hann), Hh, bind_ret, Hseed, bind_ret.
  unfold ReverseHumanizer.search. rewrite Hm, bind_ret. cbv beta iota.
  rewrite Hrun. reflexivity.
Qed.

End query_facts.

(** An explicit sample that annotates is the reference. *)
Lemma obtain_explicit_sample (current_seq : list pyobj) (sample : string)
    (tokens : list string) :
  sample ≠ EmptyString ->
  annotate_single ext sample schema = Some tokens ->
  tokens ≠ [] ->
  ReverseHumanizer.obtain_human_sample ext self current_seq (Some sample)
  = Ok (AnnotatedSample tokens).
Proof.
  intros Hne Hann Htok. unfold ReverseHumanizer.obtain_human_sample.
  destruct (String.eqb_spec sample ""); [contradiction|].
  rewrite Hann. destruct tokens; [contradiction|reflexivity].
Qed.

(** A sample that does not annotate is dropped and the scorer is asked, as
    when no sample is supplied. *)
Lemma obtain_unannotated_sample (current_seq : list pyobj) (sample : string) :
  annotate_single ext sample schema = None ->
  ReverseHumanizer.obtain_human_sample ext self current_seq (Some sample)
  = ReverseHumanizer.obtain_human_sample ext self current_seq None.
Proof.
  intros Hann. unfold ReverseHumanizer.obtain_human_sample.
  destruct (String.eqb sample ""); [reflexivity|]. by rewrite Hann.
Qed.

End humanizer_facts.

(** ** The small instance meets the contracts *)

Lemma demo_model_total : model_total Demo.humanizer.
Proof. intros s. eexists. reflexivity. Qed.

Lemma demo_metrics_total (n : Z) : metrics_total (Demo.ext n).
Proof. intros s h. eexists. reflexivity. Qed.

Lemma demo_annotator_aligned (n : Z) : annotator_aligned (Demo.ext n) Demo.humanizer.
Proof.
  intros s tokens. simpl. unfold Demo.annotate.
  case_decide as Hlen; [|discriminate]. intros [= <-]. exact Hlen.
Qed.

Lemma filter_length_le {A : Type} (f : A -> bool) (l : list A) :
  length (List.filter f l) <= length l.
Proof.
  induction l as [|x l IH]; simpl; [lia|]. destruct (f x); simpl; lia.
Qed.

Lemma demo_model_probability : model_probability Demo.humanizer.
Proof.
  intros s q. simpl. unfold Demo.predict, Demo.count_A. intros [= <-].
  pose proof (filter_length_le (fun x => py_eq x (PStr "A")) s) as Hle.
  unfold Qle. cbn [Qnum Qden]. split; [lia|].
  destruct (length s) as [|n].
  - simpl. lia.
  - rewrite <- Pos.of_nat_succ, Zpos_P_of_succ_nat. lia.
Qed.

Lemma demo_null_dominance (n : Z) : null_dominance (Demo.ext n).
Proof.
  intros real null flag _ Hval [_ Hnull]. simpl. unfold Demo.less.
  rewrite Hnull. destruct (Qlt_bool (value real) (-1)) eqn:E; [|reflexivity].
  apply Qlt_bool_iff in E. exfalso.
  exact (Qlt_irrefl _ (Qlt_trans _ _ _ E Hval)).
Qed.

(** ** The claims *)

(** C5, at a sequence with one wildcard position: two informative positions,
    one of them with equal tokens. *)
Lemma calc_score_spec_witness :
  score_range (mkAnnotation [] 2) <= length [PStr "A"; PStr "X"; PStr "C"]
  /\ score_range (mkAnnotation [] 2) <= String.length "AXD"
  /\ calc_score [PStr "A"; PStr "X"; PStr "C"] "AXD" (mkAnnotation [] 2)
     = Ok (1 # 2)%Q.
Proof.
  assert (H1 : score_range (mkAnnotation [] 2)
               <= length [PStr "A"; PStr "X"; PStr "C"]) by (vm_compute; lia).
  assert (H2 : score_range (mkAnnotation [] 2) <= String.length "AXD")
    by (vm_compute; lia).
  split; [exact H1|]. split; [exact H2|].
  destruct (calc_score_spec _ _ _ H1 H2) as (_ & _ & Hscore).
  apply Hscore. intros Hall.
  destruct (Hall 0) as [Hx _]; [vm_compute; lia|]. discriminate Hx.
Defined.

(** C4, at the population of four samples with the similarities 0.9, 0.5,
    0.9 and 0.1. *)
Lemma query_returns_top_two_witness :
  length (VGeneScorer.human_samples Demo.scorer10)
  = length (VGeneScorer.labels Demo.scorer10)
  /\ VGeneScorer.scores Demo.scorer10 Demo.query10
     = Ok [9 # 10; 5 # 10; 9 # 10; 1 # 10]%Q
  /\ exists res top,
       VGeneScorer.query Demo.scorer10 Demo.query10 = Ok res
       /\ Forall2 (entry_of Demo.scorer10) top res
       /\ fst <$> top = [0; 2]
       /\ Forall (fun r => (snd (fst r) == 9 # 10)%Q) res.
Proof.
  assert (H1 : length (VGeneScorer.human_samples Demo.scorer10)
               = length (VGeneScorer.labels Demo.scorer10)) by reflexivity.
  assert (H2 : VGeneScorer.scores Demo.scorer10 Demo.query10
               = Ok [9 # 10; 5 # 10; 9 # 10; 1 # 10]%Q) by reflexivity.
  split; [exact H1|]. split; [exact H2|].
  destruct (query_returns_top_two _ _ _ H1 H2)
    as (res & top & rest & Hq & _ & _ & Hentries & _ & _ & Hexample).
  exists res, top. split; [exact Hq|]. split; [exact Hentries|].
  apply Hexample. repeat constructor; reflexivity.
Defined.

(** C6. [_test_single_change] returns with the sequence as it was at the
    call, and it returns whenever the position is one of the sequence and
    the classifier answers; the classifier is asked about the sequence with
    that one position replaced; so [_find_best_change] returns with
    [current_seq] unchanged, and it returns whenever the sequences cover the
    schema and the classifier answers. *)
Theorem single_change_leaves_sequence (ext : Imports) (self : ReverseHumanizer.t)
    (sequence : list pyobj) :
  (forall column_idx new_aa c sequence',
      ReverseHumanizer._test_single_change self sequence column_idx new_aa
        = Ok (c, sequence') ->
      sequence' = sequence)
  /\ (forall column_idx new_aa,
        column_idx < length sequence -> model_total self ->
        exists c,
          ReverseHumanizer._test_single_change self sequence column_idx new_aa
            = Ok (c, sequence))
  /\ (forall column_idx new_aa aa_backup,
        sequence !! column_idx = Some aa_backup ->
        py_eq aa_backup new_aa = false ->
        ReverseHumanizer._test_single_change self sequence column_idx new_aa
        = (new_value ← ModelWrapper.predict_proba
                         (ReverseHumanizer.model_wrapper self)
                         (<[column_idx := new_aa]> sequence);
           Ok (mkChange (Some column_idx) aa_backup new_aa new_value, sequence)))
  /\ (forall original_seq best sequence',
        ReverseHumanizer._find_best_change ext self sequence original_seq
          = Ok (best, sequence') ->
        sequence' = sequence)
  /\ (forall original_seq,
        model_total self ->
        length (segmented_positions
                  (ModelWrapper.annotation (ReverseHumanizer.model_wrapper self)))
          <= length sequence ->
        length (segmented_positions
                  (ModelWrapper.annotation (ReverseHumanizer.model_wrapper self)))
          <= length original_seq ->
        exists best,
          ReverseHumanizer._find_best_change ext self sequence original_seq
            = Ok (best, sequence)).
Proof.
  split; [|split; [|split; [|split]]].
  - intros idx new_aa c sequence'. apply test_single_change_frame.
  - intros idx new_aa Hlt Hmodel.
    destruct (lookup_lt_is_Some_2 _ _ Hlt) as [b Hb].
    rewrite (test_single_change_unfold _ _ _ _ _ Hb).
    destruct (py_eq b new_aa); [eauto|].
    destruct (Hmodel (<[idx := new_aa]> sequence)) as [v ->]. eauto.
  - intros idx new_aa b Hb Hne.
    by rewrite (test_single_change_unfold _ _ _ _ _ Hb), Hne.
  - intros original_seq best sequence' H.
    by destruct (find_best_change_inv _ _ _ _ _ _ H).
  - intros original_seq. apply find_best_change_total.
Qed.

(** The acceptance test fails exactly when the model score is below its
    target, or both V-gene values are present and the score is not above
    the target. *)
Lemma meets_targets_false_iff (target_model_metric : Q)
    (target_v_gene_score : option Q) (best_value : Q) (v : option Q) :
  ReverseHumanizer.meets_targets target_model_metric target_v_gene_score
    best_value v = false
  <-> (best_value < target_model_metric)%Q
      \/ (exists t x, target_v_gene_score = Some t /\ v = Some x /\ (x <= t)%Q).
Proof.
  unfold ReverseHumanizer.meets_targets. rewrite andb_false_iff.
  assert (Hle : Qle_bool target_model_metric best_value = false
                <-> (best_value < target_model_metric)%Q).
  { rewrite <- Qlt_bool_iff. unfold Qlt_bool. by rewrite negb_true_iff. }
  rewrite Hle. apply or_iff_compat_l.
  destruct target_v_gene_score as [t|], v as [x|]; simpl.
  - unfold Qlt_bool. rewrite negb_false_iff, Qle_bool_iff. split.
    + intros H. exists t, x. auto.
    + intros (t' & x' & [= <-] & [= <-] & H). exact H.
  - split; [discriminate | intros (? & ? & _ & ? & _); discriminate].
  - split; [discriminate | intros (? & ? & ? & _); discriminate].
  - split; [discriminate | intros (? & ? & ? & _); discriminate].
Qed.

(** C2. In a trail that [query] returns, every record of a round (iteration
    number at least 1) passed the acceptance test: its model score is at
    least the target and [is_v_gene_score_less target score] holds, so that
    a score that is present is not less than a target that is present; the
    first record is the seed's, with number 0.  The test fails exactly when
    the model score is below its target or a present V-gene score is not
    above a present target; and when the best change, once applied, fails
    the test, the loop ends there with the sequence and the trail as they
    were before the change was applied. *)
Theorem accepted_rounds_meet_targets (ext : Imports) (self : ReverseHumanizer.t)
    (sequence : string) (target_model_metric : Q)
    (target_v_gene_score : option Q) (human_sample : option string)
    (s : string) (trail : list IterationDetails) :
  ReverseHumanizer.query ext self sequence target_model_metric
    target_v_gene_score human_sample = Ok (s, trail) ->
  Forall (fun r =>
            (1 <= index r)%Z ->
            (target_model_metric <= model_metric r)%Q
            /\ is_v_gene_score_less target_v_gene_score (v_gene_score r) = true
            /\ (is_Some target_v_gene_score -> is_Some (v_gene_score r) ->
                is_v_gene_score_less (v_gene_score r) target_v_gene_score = false))
         trail
  /\ (exists r0 rest,
        trail = r0 :: rest /\ index r0 = 0%Z /\ change r0 = None
        /\ Forall (fun r => (1 <= index r)%Z /\ is_Some (change r)) rest)
  /\ (forall best_value v,
        ReverseHumanizer.meets_targets target_model_metric target_v_gene_score
          best_value v = false
        <-> (best_value < target_model_metric)%Q
            \/ (exists t x, target_v_gene_score = Some t /\ v = Some x
                            /\ (x <= t)%Q))
  /\ (forall original_seq h it rest current_seq current_seq' iterations m best
             pos best_value v,
        calc_metrics ext current_seq h = Ok m ->
        ReverseHumanizer._find_best_change ext self current_seq original_seq
          = Ok (best, current_seq') ->
        position best = Some pos ->
        calc_metrics ext (<[pos := aa best]> current_seq) h = Ok (best_value, v) ->
        ReverseHumanizer.meets_targets target_model_metric target_v_gene_score
          best_value v = false ->
        for_break (ReverseHumanizer.round ext self original_seq h
                     target_model_metric target_v_gene_score)
                  (it :: rest) (current_seq, iterations)
        = Ok (current_seq, iterations)).
Proof.
  intros Hq.
  apply query_inv in Hq
    as (tokens & h & seed & cv & vg & final & _ & _ & _ & _ & Hrun & _).
  pose proof (run_records_changes _ _ _ _ _ _ _ _ _ Hrun)
    as (added & Hadded & Hall).
  simpl in Hadded. subst trail.
  assert (Hgate : forall a b : option Q,
             is_v_gene_score_less a b = true -> is_Some a -> is_Some b ->
             is_v_gene_score_less b a = false).
  { intros a b Hab [x ->] [y ->]. simpl in *. apply Qlt_bool_iff in Hab.
    destruct (Qlt_bool y x) eqn:E; [|reflexivity]. apply Qlt_bool_iff in E.
    exfalso. exact (Qlt_irrefl _ (Qlt_trans _ _ _ Hab E)). }
  split; [|split; [|split]].
  - constructor; [simpl; lia|].
    eapply Forall_impl; [exact Hall|]. intros r (_ & [Hm Hv] & _) _.
    split; [exact Hm|]. split; [exact Hv|]. intros Ht Hs. by apply Hgate.
  - eexists _, added. split; [reflexivity|]. split; [reflexivity|].
    split; [reflexivity|].
    eapply Forall_impl; [exact Hall|]. intros r (Hit & _ & Hc).
    split; [|exact Hc]. eapply round_numbers_positive, Hit.
  - intros bv v. apply meets_targets_false_iff.
  - intros original_seq h' it rest cur cur' iters m best pos bv v
           Hm Hbest Hpos Hm2 Hgate'.
    rewrite for_break_cons.
    by rewrite (round_rejected _ _ _ _ _ _ _ _ _ _ _ _ _ _ _
                  Hm Hbest Hpos Hm2 Hgate'), bind_ret.
Qed.

(** C2, at the run of the small instance from the sequence AAAA with the
    sample BBBB: one round is accepted and the next is turned down. *)
Lemma accepted_rounds_meet_targets_witness :
  exists s trail,
    ReverseHumanizer.query (Demo.ext 10) Demo.humanizer "AAAA" (1 # 2)%Q
      (Some 0%Q) (Some "BBBB"%string) = Ok (s, trail)
    /\ length trail = 2
    /\ Forall (fun r => (1 <= index r)%Z -> ((1 # 2) <= model_metric r)%Q) trail.
Proof.
  eexists _, _. split; [vm_compute; reflexivity|]. split; [reflexivity|].
  match goal with
  | |- Forall _ ?t =>
      destruct (accepted_rounds_meet_targets (Demo.ext 10) Demo.humanizer
                  "AAAA" (1 # 2)%Q (Some 0%Q) (Some "BBBB"%string) "AABA" t
                  eq_refl) as (Hall & _)
  end.
  eapply Forall_impl; [exact Hall|]. intros r Hr Hi. exact (proj1 (Hr Hi)).
Defined.

(** C3. Under null-change dominance and a classifier that answers with
    probabilities: the candidate of a position at which the current sequence
    equals the original is the null change (position none, score -1.0), it
    does not replace a best change that is real, and a best change that is
    real stays real to the end of the loop; the best change returned is a
    null change or the candidate of a differing position; an accepted round
    sets exactly one differing position to the original's token, which
    lowers the number of differing positions by exactly one; and over any
    number of rounds that number goes down by the number of records
    appended, never up, and a position that equals the original stays equal
    to it, so that its candidate is the null change again. *)
Theorem reversion_never_cycles (ext : Imports) (self : ReverseHumanizer.t)
    (original_seq : list pyobj) (human_sample : human_ref)
    (target_model_metric : Q) (target_v_gene_score : option Q) :
  null_dominance ext -> model_probability self ->
  (forall current_seq idx b a,
      current_seq !! idx = Some b -> original_seq !! idx = Some a ->
      differs current_seq original_seq idx = false ->
      ReverseHumanizer._test_single_change self current_seq idx a
      = Ok (mkChange None b PNone (-1)%Q, current_seq))
  /\ (forall current_seq best idx column_name b a,
        real_candidate self current_seq original_seq best ->
        current_seq !! idx = Some b -> original_seq !! idx = Some a ->
        differs current_seq original_seq idx = false ->
        ReverseHumanizer.find_best_body ext self original_seq
          (best, current_seq) (idx, column_name) = Ok (best, current_seq))
  /\ (forall entries current_seq current_seq' best best',
        Forall (fun e =>
                  segmented_positions
                    (ModelWrapper.annotation (ReverseHumanizer.model_wrapper self))
                    !! fst e = Some (snd e)) entries ->
        real_candidate self current_seq original_seq best ->
        for_each (ReverseHumanizer.find_best_body ext self original_seq) entries
                 (best, current_seq) = Ok (best', current_seq') ->
        real_candidate self current_seq original_seq best')
  /\ (forall current_seq current_seq' best,
        ReverseHumanizer._find_best_change ext self current_seq original_seq
          = Ok (best, current_seq') ->
        null_change best \/ real_candidate self current_seq original_seq best)
  /\ (forall it current_seq iterations current_seq' iterations',
        ReverseHumanizer.round ext self original_seq human_sample
          target_model_metric target_v_gene_score it (current_seq, iterations)
          = Ok (Continue (current_seq', iterations')) ->
        exists pos a,
          differs current_seq original_seq pos = true
          /\ original_seq !! pos = Some a
          /\ current_seq' = <[pos := a]> current_seq
          /\ differs current_seq' original_seq pos = false
          /\ diff_count current_seq' original_seq + 1
             = diff_count current_seq original_seq
          /\ length iterations' = length iterations + 1)
  /\ (forall its st st',
        for_break (ReverseHumanizer.round ext self original_seq human_sample
                     target_model_metric target_v_gene_score) its st = Ok st' ->
        diff_count (fst st') original_seq + length (snd st')
        = diff_count (fst st) original_seq + length (snd st)
        /\ diff_count (fst st') original_seq <= diff_count (fst st) original_seq
        /\ forall i b a,
             differs (fst st) original_seq i = false ->
             fst st' !! i = Some b -> original_seq !! i = Some a ->
             ReverseHumanizer._test_single_change self (fst st') i a
             = Ok (mkChange None b PNone (-1)%Q, fst st')).
Proof.
  intros Hdom Hprob. split; [|split; [|split; [|split; [|split]]]].
  - intros cur idx b a. apply null_candidate.
  - intros cur best idx name b a. by apply null_candidate_not_selected.
  - intros entries cur cur' best best' Hentries.
    by apply (find_best_loop_keeps_real ext self original_seq entries).
  - intros cur cur' best H.
    by destruct (find_best_change_inv _ _ _ _ _ _ H).
  - intros it cur iters cur' iters' H. apply round_inv in H.
    destruct H as (best & pos & bv & v & Hreal & Hpos & Hcur' & _ & _ & Hiters).
    simpl in Hcur', Hiters. subst cur' iters'.
    destruct Hreal as (pos' & name & Hpos' & _ & _ & _ & Horig & Hd & _).
    assert (pos' = pos) as -> by congruence.
    exists pos, (aa best). split; [exact Hd|]. split; [exact Horig|].
    split; [reflexivity|]. split; [by apply differs_insert_eq|].
    split; [by apply diff_count_revert|].
    rewrite length_app. simpl. lia.
  - intros its st st' Hrun.
    pose proof (run_diff_count _ _ _ _ _ _ _ _ _ Hrun) as Hcount.
    pose proof (run_records_changes _ _ _ _ _ _ _ _ _ Hrun)
      as (added & Hadded & _).
    split; [exact Hcount|]. split.
    + rewrite Hadded, length_app in Hcount. lia.
    + intros i b a Hd Hb Ha. apply (null_candidate self _ original_seq); auto.
      exact (run_stays_reverted _ _ _ _ _ _ _ _ _ _ Hd Hrun).
Qed.

(** C3, at the small instance; the accepted round of the run from AAAA with
    the sample BBBB reverts position 0. *)
Lemma reversion_never_cycles_witness :
  null_dominance (Demo.ext 10) /\ model_probability Demo.humanizer
  /\ diff_count [PStr "A"; PStr "A"; PStr "B"; PStr "A"]
                [PStr "A"; PStr "A"; PStr "A"; PStr "A"] + 1
     = diff_count [PStr "B"; PStr "A"; PStr "B"; PStr "A"]
                  [PStr "A"; PStr "A"; PStr "A"; PStr "A"].
Proof.
  split; [apply demo_null_dominance|]. split; [apply demo_model_probability|].
  destruct (reversion_never_cycles (Demo.ext 10) Demo.humanizer
              [PStr "A"; PStr "A"; PStr "A"; PStr "A"]
              (AnnotatedSample ["B"; "B"; "B"; "B"]) (1 # 2)%Q (Some 0%Q)
              (demo_null_dominance 10) demo_model_probability)
    as (_ & _ & _ & _ & Hround & _).
  destruct (Hround 1%Z [PStr "B"; PStr "A"; PStr "B"; PStr "A"] []
                   [PStr "A"; PStr "A"; PStr "B"; PStr "A"]
                   [mkIteration 1 (3 # 4) (Some (1 # 4)%Q)
                      (Some (mkChange (Some 0) (PStr "B") (PStr "A") (3 # 4)))]
                   eq_refl)
    as (pos & a & _ & _ & _ & _ & Hcount & _).
  exact Hcount.
Defined.

(** C7. When the sequence is annotated, a reference is obtained, the seed
    is built and the collaborators answer, [query] returns after at most
    [MAX_CHANGES] rounds, with a trail of at least one and at most
    [MAX_CHANGES + 1] records; with a budget of 0 the trail is the record of
    the seed alone and the string is the seed, flattened. *)
Theorem query_within_budget (ext : Imports) (self : ReverseHumanizer.t)
    (sequence : string) (target_model_metric : Q)
    (target_v_gene_score : option Q) (human_sample : option string)
    (tokens : list string) (h : human_ref) (seed : list pyobj) :
  model_total self -> metrics_total ext -> annotator_aligned ext self ->
  annotate_single ext sequence
    (ModelWrapper.annotation (ReverseHumanizer.model_wrapper self)) = Some tokens ->
  ReverseHumanizer.obtain_human_sample ext self (PStr <$> tokens) human_sample
    = Ok h ->
  ReverseHumanizer.chimeric_seed self h (PStr <$> tokens) = Ok seed ->
  exists s trail,
    ReverseHumanizer.query ext self sequence target_model_metric
      target_v_gene_score human_sample = Ok (s, trail)
    /\ length (ReverseHumanizer.round_numbers ext) = Z.to_nat (MAX_CHANGES ext)
    /\ 1 <= length trail <= Z.to_nat (MAX_CHANGES ext) + 1
    /\ (MAX_CHANGES ext = 0%Z ->
        exists cv vg,
          calc_metrics ext seed h = Ok (cv, vg)
          /\ trail = [mkIteration 0 cv vg None]
          /\ s = seq_to_str ext seed false).
Proof.
  intros Hmodel Hmetrics Haligned Hann Hh Hseed.
  destruct (query_returns ext self sequence target_model_metric
              target_v_gene_score human_sample tokens h seed
              Hmodel Hmetrics Haligned Hann Hh Hseed)
    as (cv & vg & final & trail & Hm & Hrun & Hq).
  exists (seq_to_str ext final false), trail.
  split; [exact Hq|]. split; [apply round_numbers_length|].
  pose proof (run_trail_length _ _ _ _ _ _ _ _ _ Hrun) as Hlen.
  pose proof (run_records_changes _ _ _ _ _ _ _ _ _ Hrun) as (added & Hadded & _).
  rewrite round_numbers_length in Hlen. simpl in Hlen, Hadded.
  split.
  - subst trail. simpl. simpl in Hlen. lia.
  - intros Hzero. exists cv, vg. split; [exact Hm|].
    unfold ReverseHumanizer.round_numbers in Hrun. rewrite Hzero in Hrun.
    simpl in Hrun. injection Hrun as <- <-. auto.
Qed.

(** C7, at the small instance with a budget of 0. *)
Lemma query_within_budget_witness :
  model_total Demo.humanizer /\ metrics_total (Demo.ext 0)
  /\ annotator_aligned (Demo.ext 0) Demo.humanizer
  /\ exists s trail,
       ReverseHumanizer.query (Demo.ext 0) Demo.humanizer "AAAA" (1 # 2)%Q
         (Some 0%Q) (Some "BBBB"%string) = Ok (s, trail)
       /\ 1 <= length trail <= 1.
Proof.
  split; [apply demo_model_total|]. split; [apply demo_metrics_total|].
  split; [apply demo_annotator_aligned|].
  destruct (query_within_budget (Demo.ext 0) Demo.humanizer "AAAA" (1 # 2)%Q
              (Some 0%Q) (Some "BBBB"%string) ["A"; "A"; "A"; "A"]
              (AnnotatedSample ["B"; "B"; "B"; "B"])
              [PStr "B"; PStr "A"; PStr "B"; PStr "A"]
              demo_model_total (demo_metrics_total 0) (demo_annotator_aligned 0)
              eq_refl eq_refl eq_refl)
    as (s & trail & Hq & _ & Hlen & _).
  exists s, trail. split; [exact Hq | exact Hlen].
Defined.

(** C9. [query] raises the annotation error, and so returns neither a
    sequence nor a trail, when the input sequence cannot be annotated.  Once
    the seed is built and the collaborators answer, it returns a sequence
    and a trail however the search ends: the budget is exhausted, no
    candidate is left, or the best candidate misses the targets. *)
Theorem query_fails_on_annotation_only (ext : Imports) (self : ReverseHumanizer.t)
    (sequence : string) (target_model_metric : Q)
    (target_v_gene_score : option Q) (human_sample : option string) :
  (annotate_single ext sequence
     (ModelWrapper.annotation (ReverseHumanizer.model_wrapper self)) = None ->
   ReverseHumanizer.query ext self sequence target_model_metric
     target_v_gene_score human_sample
   = Raise (RuntimeError (sequence +:+ " cannot be annotated")))
  /\ (forall tokens h seed,
        model_total self -> metrics_total ext -> annotator_aligned ext self ->
        annotate_single ext sequence
          (ModelWrapper.annotation (ReverseHumanizer.model_wrapper self))
          = Some tokens ->
        ReverseHumanizer.obtain_human_sample ext self (PStr <$> tokens)
          human_sample = Ok h ->
        ReverseHumanizer.chimeric_seed self h (PStr <$> tokens) = Ok seed ->
        exists final trail,
          ReverseHumanizer.search ext self (PStr <$> tokens) h
            target_model_metric target_v_gene_score seed = Ok (final, trail)
          /\ ReverseHumanizer.query ext self sequence target_model_metric
               target_v_gene_score human_sample
             = Ok (seq_to_str ext final false, trail))
  /\ (forall sample tokens sample_tokens,
        model_total self -> metrics_total ext -> annotator_aligned ext self ->
        human_sample = Some sample -> sample ≠ EmptyString ->
        annotate_single ext sequence
          (ModelWrapper.annotation (ReverseHumanizer.model_wrapper self))
          = Some tokens ->
        annotate_single ext sample
          (ModelWrapper.annotation (ReverseHumanizer.model_wrapper self))
          = Some sample_tokens ->
        sample_tokens ≠ [] ->
        exists s trail,
          ReverseHumanizer.query ext self sequence target_model_metric
            target_v_gene_score human_sample = Ok (s, trail))
  /\ (forall original_seq h st,
        for_break (ReverseHumanizer.round ext self original_seq h
                     target_model_metric target_v_gene_score) [] st = Ok st)
  /\ (forall original_seq h it rest current_seq current_seq' iterations m best,
        calc_metrics ext current_seq h = Ok m ->
        ReverseHumanizer._find_best_change ext self current_seq original_seq
          = Ok (best, current_seq') ->
        position best = None ->
        for_break (ReverseHumanizer.round ext self original_seq h
                     target_model_metric target_v_gene_score)
                  (it :: rest) (current_seq, iterations)
        = Ok (current_seq, iterations))
  /\ (forall original_seq h it rest current_seq current_seq' iterations m best
             pos best_value v,
        calc_metrics ext current_seq h = Ok m ->
        ReverseHumanizer._find_best_change ext self current_seq original_seq
          = Ok (best, current_seq') ->
        position best = Some pos ->
        calc_metrics ext (<[pos := aa best]> current_seq) h = Ok (best_value, v) ->
        ReverseHumanizer.meets_targets target_model_metric target_v_gene_score
          best_value v = false ->
        for_break (ReverseHumanizer.round ext self original_seq h
                     target_model_metric target_v_gene_score)
                  (it :: rest) (current_seq, iterations)
        = Ok (current_seq, iterations)).
Proof.
  assert (Hreturns : forall tokens h seed,
        model_total self -> metrics_total ext -> annotator_aligned ext self ->
        annotate_single ext sequence
          (ModelWrapper.annotation (ReverseHumanizer.model_wrapper self))
          = Some tokens ->
        ReverseHumanizer.obtain_human_sample ext self (PStr <$> tokens)
          human_sample = Ok h ->
        ReverseHumanizer.chimeric_seed self h (PStr <$> tokens) = Ok seed ->
        exists final trail,
          ReverseHumanizer.search ext self (PStr <$> tokens) h
            target_model_metric target_v_gene_score seed = Ok (final, trail)
          /\ ReverseHumanizer.query ext self sequence target_model_metric
               target_v_gene_score human_sample
             = Ok (seq_to_str ext final false, trail)).
  { intros tokens h seed Hmodel Hmetrics Haligned Hann Hh Hseed.
    destruct (query_returns ext self sequence target_model_metric
                target_v_gene_score human_sample tokens h seed
                Hmodel Hmetrics Haligned Hann Hh Hseed)
      as (cv & vg & final & trail & Hm & Hrun & Hq).
    exists final, trail. split; [|exact Hq].
    unfold ReverseHumanizer.search. rewrite Hm, bind_ret. exact Hrun. }
  split; [apply query_not_annotated|]. split; [exact Hreturns|].
  split; [|split; [|split]].
  - intros sample tokens stoks Hmodel Hmetrics Haligned -> Hne Hann Hsample Hstoks.
    pose proof (obtain_explicit_sample ext self (PStr <$> tokens) sample stoks
                  Hne Hsample Hstoks) as Hh.
    destruct (chimeric_seed_annotated self stoks (PStr <$> tokens))
      as (seed & Hseed & _).
    { rewrite (Haligned _ _ Hsample). lia. }
    { rewrite length_fmap, (Haligned _ _ Hann). lia. }
    destruct (Hreturns tokens _ seed Hmodel Hmetrics Haligned Hann Hh Hseed)
      as (final & trail & _ & Hq).
    eauto.
  - reflexivity.
  - intros original_seq h it rest cur cur' iters m best Hm Hbest Hpos.
    rewrite for_break_cons.
    by rewrite (round_no_candidate _ _ _ _ _ _ _ _ _ _ _ _ Hm Hbest Hpos), bind_ret.
  - intros original_seq h it rest cur cur' iters m best pos bv v
           Hm Hbest Hpos Hm2 Hgate.
    rewrite for_break_cons.
    by rewrite (round_rejected _ _ _ _ _ _ _ _ _ _ _ _ _ _ _
                  Hm Hbest Hpos Hm2 Hgate), bind_ret.
Qed.

(** C9, at the small instance: the sequence AAA does not annotate and the
    sequence AAAA with the sample BBBB gives a result. *)
Lemma query_fails_on_annotation_only_witness :
  ReverseHumanizer.query (Demo.ext 10) Demo.humanizer "AAA" (1 # 2)%Q
    (Some 0%Q) (Some "BBBB"%string)
  = Raise (RuntimeError "AAA cannot be annotated")
  /\ exists s trail,
       ReverseHumanizer.query (Demo.ext 10) Demo.humanizer "AAAA" (1 # 2)%Q
         (Some 0%Q) (Some "BBBB"%string) = Ok (s, trail).
Proof.
  split.
  - exact (proj1 (query_fails_on_annotation_only (Demo.ext 10) Demo.humanizer
                    "AAA" (1 # 2)%Q (Some 0%Q) (Some "BBBB"%string)) eq_refl).
  - destruct (query_fails_on_annotation_only (Demo.ext 10) Demo.humanizer
                "AAAA" (1 # 2)%Q (Some 0%Q) (Some "BBBB"%string))
      as (_ & _ & Hsample & _).
    apply (Hsample "BBBB"%string ["A"; "A"; "A"; "A"] ["B"; "B"; "B"; "B"]);
      try reflexivity; try discriminate.
    + apply demo_model_total.
    + apply demo_metrics_total.
    + apply demo_annotator_aligned.
Defined.

(** A loop whose body raises no other exception than [e], and raises at one
    of the elements whatever the accumulator is, raises [e]. *)
Lemma for_each_raises {A St : Type} (body : St -> A -> result St) (e : exn)
    (xs : list A) (x : A) :
  (forall s y e', body s y = Raise e' -> e' = e) ->
  x ∈ xs -> (forall s, body s x = Raise e) ->
  forall s, for_each body xs s = Raise e.
Proof.
  intros Hexn Hin Hx. induction xs as [|y xs IH]; intros s.
  - by apply elem_of_nil in Hin.
  - rewrite for_each_cons. destruct (body s y) as [s'|e'] eqn:E.
    + rewrite bind_ret. apply IH.
      apply elem_of_cons in Hin as [->|Hin]; [|exact Hin].
      rewrite Hx in E. discriminate.
    + simpl. f_equal. by eapply Hexn.
Qed.

(** The seed loop raises nothing but [IndexError]. *)
Lemma chimeric_body_raises (human_sample : human_ref) (current_seq : list pyobj)
    (entry : nat * string) (e : exn) :
  ReverseHumanizer.chimeric_body human_sample current_seq entry = Raise e ->
  e = IndexError.
Proof.
  destruct entry as [idx column_name]. unfold ReverseHumanizer.chimeric_body.
  destruct (String.prefix "fwr" column_name); [|discriminate].
  destruct (ref_getitem human_sample idx) as [v|e'] eqn:Eref.
  - rewrite bind_ret. unfold setitem.
    destruct (decide (idx < length current_seq)); [discriminate|congruence].
  - simpl. intros [= <-]. destruct human_sample as [tokens|[[sample score] label]].
    + unfold ref_getitem, getitem in Eref.
      destruct (tokens !! idx); [discriminate|]. simpl in Eref. congruence.
    + simpl in Eref. destruct idx as [|[|[|idx]]]; congruence.
Qed.

(** With the scorer's triple for a reference, a framework column of index 3
    or more makes the seed loop raise [IndexError]. *)
Lemma scorer_entry_seed_raises (self : ReverseHumanizer.t)
    (entry : string * Q * string) (current_seq : list pyobj) (idx : nat)
    (column_name : string) :
  segmented_positions
    (ModelWrapper.annotation (ReverseHumanizer.model_wrapper self)) !! idx
  = Some column_name ->
  String.prefix "fwr" column_name = true -> 3 <= idx ->
  ReverseHumanizer.chimeric_seed self (ScorerEntry entry) current_seq
  = Raise IndexError.
Proof.
  intros Hcol Hfwr Hidx. unfold ReverseHumanizer.chimeric_seed.
  apply (for_each_raises _ IndexError _ (idx, column_name)).
  - intros s y e. apply chimeric_body_raises.
  - apply list_elem_of_lookup. exists idx. unfold enumerate.
    by rewrite enumerate_from_lookup, Hcol.
  - intros s. destruct entry as [[sample score] label].
    unfold ReverseHumanizer.chimeric_body. rewrite Hfwr. simpl.
    destruct idx as [|[|[|idx]]]; [lia|lia|lia|reflexivity].
Qed.

(** C10. A supplied sample that does not annotate is discarded, and the run
    is the run with no sample supplied: [human_sample] is bound to what the
    unpacking of the scorer's answer binds it to, the scorer's first triple
    (sample, score, label), not the tokens of the top match.  The run
    therefore does fail: on every schema with a framework column of index 3
    or more it raises [IndexError] in the seed loop.  On the schema of ten
    positions the sample ZZ does not annotate and the run raises, where the
    run with the sample QVQLVQSGAK, which annotates, returns; on the small
    instance the reference of ZZ is the triple of BABB. *)
Theorem unannotated_sample_fallback_raises :
  (forall (ext : Imports) (self : ReverseHumanizer.t) (sequence : string)
          (target_model_metric : Q) (target_v_gene_score : option Q)
          (sample : string),
      annotate_single ext sample
        (ModelWrapper.annotation (ReverseHumanizer.model_wrapper self)) = None ->
      ReverseHumanizer.query ext self sequence target_model_metric
        target_v_gene_score (Some sample)
      = ReverseHumanizer.query ext self sequence target_model_metric
          target_v_gene_score None)
  /\ (forall (ext : Imports) (self : ReverseHumanizer.t) (sequence : string)
             (target_model_metric : Q) (target_v_gene_score : option Q)
             (sample : string) (tokens : list string) (scorer : VGeneScorer.t)
             (top second : string * Q * string),
        annotate_single ext sample
          (ModelWrapper.annotation (ReverseHumanizer.model_wrapper self)) = None ->
        annotate_single ext sequence
          (ModelWrapper.annotation (ReverseHumanizer.model_wrapper self))
        = Some tokens ->
        ReverseHumanizer.v_gene_scorer self = Some scorer ->
        VGeneScorer.query scorer (PStr <$> tokens) = Ok [top; second] ->
        ReverseHumanizer.obtain_human_sample ext self (PStr <$> tokens)
          (Some sample) = Ok (ScorerEntry top)
        /\ forall idx column_name,
             segmented_positions
               (ModelWrapper.annotation (ReverseHumanizer.model_wrapper self))
               !! idx = Some column_name ->
             String.prefix "fwr" column_name = true -> 3 <= idx ->
             ReverseHumanizer.query ext self sequence target_model_metric
               target_v_gene_score (Some sample) = Raise IndexError)
  /\ annotate_single (Demo.ext 10) "ZZ" Demo.schema10 = None
  /\ VGeneScorer.query Demo.scorer10 Demo.query10
     = Ok [("QVQLVQSGAK"%string, (9 # 10)%Q, "IGHV1"%string);
           ("EVQLVQSGAE"%string, (9 # 10)%Q, "IGHV3"%string)]
  /\ ReverseHumanizer.query (Demo.ext 10) Demo.humanizer10 "QVQLVQSGAE"
       (1 # 2)%Q (Some 0%Q) (Some "ZZ"%string)
     = Raise IndexError
  /\ (exists trail,
        ReverseHumanizer.query (Demo.ext 10) Demo.humanizer10 "QVQLVQSGAE"
          (1 # 2)%Q (Some 0%Q) (Some "QVQLVQSGAK"%string)
        = Ok ("QVQLVQSGAK"%string, trail))
  /\ ReverseHumanizer.obtain_human_sample (Demo.ext 10) Demo.humanizer
       [PStr "A"; PStr "A"; PStr "A"; PStr "A"] (Some "ZZ"%string)
     = Ok (ScorerEntry ("BABB"%string, (1 # 4)%Q, "IGHV3"%string)).
Proof.
  assert (Hsame : forall (ext : Imports) (self : ReverseHumanizer.t)
                         (sequence : string) (target_model_metric : Q)
                         (target_v_gene_score : option Q) (sample : string),
             annotate_single ext sample
               (ModelWrapper.annotation (ReverseHumanizer.model_wrapper self))
             = None ->
             ReverseHumanizer.query ext self sequence target_model_metric
               target_v_gene_score (Some sample)
             = ReverseHumanizer.query ext self sequence target_model_metric
                 target_v_gene_score None).
  { intros ext self sequence tm tv sample Hsample.
    unfold ReverseHumanizer.query.
    destruct (annotate_single ext sequence _); [|reflexivity].
    by rewrite (obtain_unannotated_sample ext self _ sample Hsample). }
  split; [exact Hsame|]. split.
  - intros ext self sequence tm tv sample tokens scorer top second
           Hsample Hseq Hscorer Hanswer.
    assert (Href : ReverseHumanizer.obtain_human_sample ext self
                     (PStr <$> tokens) None = Ok (ScorerEntry top)).
    { unfold ReverseHumanizer.obtain_human_sample.
      rewrite Hscorer, bind_ret, Hanswer. reflexivity. }
    split.
    + by rewrite (obtain_unannotated_sample ext self _ sample Hsample).
    + intros idx column_name Hcol Hfwr Hidx.
      rewrite (Hsame _ _ _ _ _ _ Hsample).
      rewrite (query_annotated ext self sequence tm tv None tokens Hseq).
      rewrite Href, bind_ret.
      by rewrite (scorer_entry_seed_raises self top _ idx column_name Hcol Hfwr Hidx).
  - repeat split; try (vm_compute; reflexivity).
    eexists. vm_compute. reflexivity.
Qed.

(** C1. With no sample supplied, [human_sample] is bound to the scorer's
    first triple (sample, score, label), and the seed loop indexes that
    triple by the position index: position 0 receives the whole sample
    string, position 1 the score, position 2 the label, and a framework
    position of index 3 or more raises [IndexError].  On the small instance
    the seed of AAAA is not B A B A, as indexing the sample BABB gives, and
    on the schema of ten positions the run raises. *)
Theorem seed_indexes_scorer_entry :
  (forall sample score label current_seq column_name,
      String.prefix "fwr" column_name = true -> 0 < length current_seq ->
      ReverseHumanizer.chimeric_body (ScorerEntry (sample, score, label))
        current_seq (0, column_name)
      = Ok (<[0 := PStr sample]> current_seq))
  /\ (forall entry current_seq idx column_name,
        String.prefix "fwr" column_name = true -> 3 <= idx ->
        ReverseHumanizer.chimeric_body (ScorerEntry entry)
          current_seq (idx, column_name)
        = Raise IndexError)
  /\ (forall entry : string * Q * string, unpack_pair [entry] = Raise ValueError)
  /\ ReverseHumanizer.obtain_human_sample (Demo.ext 10) Demo.humanizer
       [PStr "A"; PStr "A"; PStr "A"; PStr "A"] None
     = Ok (ScorerEntry ("BABB"%string, (1 # 4)%Q, "IGHV3"%string))
  /\ ReverseHumanizer.chimeric_seed Demo.humanizer
       (ScorerEntry ("BABB"%string, (1 # 4)%Q, "IGHV3"%string))
       [PStr "A"; PStr "A"; PStr "A"; PStr "A"]
     = Ok [PStr "BABB"; PStr "A"; PStr "IGHV3"; PStr "A"]
  /\ ReverseHumanizer.chimeric_seed Demo.humanizer
       (AnnotatedSample ["B"; "A"; "B"; "B"]%string)
       [PStr "A"; PStr "A"; PStr "A"; PStr "A"]
     = Ok [PStr "B"; PStr "A"; PStr "B"; PStr "A"]
  /\ ReverseHumanizer.query (Demo.ext 10) Demo.humanizer10 "QVQLVQSGAE"
       (1 # 2)%Q (Some 0%Q) None
     = Raise IndexError.
Proof.
  split; [|split; [|repeat split; vm_compute; reflexivity]].
  - intros sample score label cur name Hfwr Hlen.
    unfold ReverseHumanizer.chimeric_body. rewrite Hfwr. simpl.
    by apply setitem_lt.
  - intros [[sample score] label] cur idx name Hfwr Hidx.
    unfold ReverseHumanizer.chimeric_body. rewrite Hfwr. simpl.
    destruct idx as [|[|[|idx]]]; [lia|lia|lia|reflexivity].
Qed.

(** * Further properties *)

(** ** calc_score *)

Lemma for_each_ext {A St : Type} (f g : St -> A -> result St) (xs : list A) :
  (forall s x, x ∈ xs -> f s x = g s x) ->
  forall s, for_each f xs s = for_each g xs s.
Proof.
  induction xs as [|x xs IH]; intros Hfg s; [reflexivity|].
  rewrite !for_each_cons, (Hfg s x) by constructor.
  destruct (g s x) as [s'|e]; simpl; [|reflexivity].
  apply IH. intros t y Hy. apply Hfg. by constructor.
Qed.

Lemma for_each_app {A St : Type} (body : St -> A -> result St) xs ys s :
  for_each body (xs ++ ys) s = (for_each body xs s ≫= for_each body ys).
Proof.
  revert s. induction xs as [|x xs IH]; intros s; [reflexivity|].
  simpl. destruct (body s x); simpl; auto.
Qed.

(** What [calc_score] computes over sequences that cover the positions. *)
Lemma calc_score_covered (seq_1 : list pyobj) (seq_2 : string) (ann : Annotation) :
  score_range ann <= length seq_1 -> score_range ann <= String.length seq_2 ->
  calc_score seq_1 seq_2 ann =
  py_truediv (Z.of_nat (match_count seq_1 seq_2 (score_range ann)))
             (Z.of_nat (informative_count seq_1 seq_2 (score_range ann))).
Proof.
  intros H1 H2. unfold calc_score, py_range. fold (score_range ann).
  rewrite (calc_score_loop seq_1 seq_2 _ 0%Z 0%Z); [reflexivity|].
  apply Forall_forall. intros i Hi. apply elem_of_seq in Hi. lia.
Qed.

(** The counters of the loop: [0 <= same <= total] is kept. *)
Lemma calc_score_body_counters (seq_1 : list pyobj) (seq_2 : string)
    (same total same' total' : Z) (i : nat) :
  calc_score_body seq_1 seq_2 (same, total) i = Ok (same', total') ->
  (0 <= same <= total)%Z -> (0 <= same' <= total')%Z.
Proof.
  unfold calc_score_body. intros H Hinv.
  apply bind_Ok in H as (a & _ & H).
  apply bind_Ok in H as (inf & _ & H).
  destruct inf.
  - apply bind_Ok in H as (b & _ & H).
    destruct (py_eq a b); injection H as <- <-; lia.
  - injection H as <- <-. lia.
Qed.

Lemma calc_score_loop_counters (seq_1 : list pyobj) (seq_2 : string)
    (l : list nat) (same total same' total' : Z) :
  for_each (calc_score_body seq_1 seq_2) l (same, total) = Ok (same', total') ->
  (0 <= same <= total)%Z -> (0 <= same' <= total')%Z.
Proof.
  revert same total. induction l as [|i l IH]; intros same total H Hinv.
  - injection H as <- <-. exact Hinv.
  - rewrite for_each_cons in H. apply bind_Ok in H as ([s1 t1] & Hstep & H).
    eapply IH; [exact H|]. eapply calc_score_body_counters; eassumption.
Qed.

(** X1. A score that [calc_score] returns is a fraction of the unit
    interval. *)
Theorem calc_score_unit_interval (seq_1 : list pyobj) (seq_2 : string)
    (ann : Annotation) (q : Q) :
  calc_score seq_1 seq_2 ann = Ok q -> (0 <= q <= 1)%Q.
Proof.
  unfold calc_score. intros H.
  apply bind_Ok in H as ([same total] & Hloop & H). cbv beta iota in H.
  apply calc_score_loop_counters in Hloop; [|lia].
  unfold py_truediv in H. destruct (Z.eqb_spec total 0); [discriminate|].
  injection H as <-. unfold Qle. cbn [Qnum Qden].
  rewrite Z2Pos.id by lia. lia.
Qed.

Lemma calc_score_unit_interval_witness :
  calc_score [PStr "A"; PStr "X"; PStr "C"] "AXD" (mkAnnotation [] 2)
  = Ok (1 # 2)%Q
  /\ (0 <= 1 # 2 <= 1)%Q.
Proof.
  split; [reflexivity|].
  exact (calc_score_unit_interval [PStr "A"; PStr "X"; PStr "C"] "AXD"
           (mkAnnotation [] 2) (1 # 2)%Q eq_refl).
Defined.

(** X2. [calc_score] reads the positions [0..v_gene_end] only: two pairs
    of sequences that agree there have the same score or the same
    exception; so a token replaced beyond [v_gene_end] does not change the
    result. *)
Theorem calc_score_reads_prefix_only (seq_1 seq_1' : list pyobj)
    (seq_2 seq_2' : string) (ann : Annotation) :
  (forall i, i < score_range ann ->
             seq_1 !! i = seq_1' !! i /\ String.get i seq_2 = String.get i seq_2') ->
  calc_score seq_1 seq_2 ann = calc_score seq_1' seq_2' ann
  /\ forall p a, score_range ann <= p ->
       calc_score (<[p := a]> seq_1) seq_2 ann = calc_score seq_1 seq_2 ann.
Proof.
  assert (Hagree : forall s1 s1' s2 s2',
             (forall i, i < score_range ann ->
                        s1 !! i = s1' !! i /\ String.get i s2 = String.get i s2') ->
             calc_score s1 s2 ann = calc_score s1' s2' ann).
  { intros s1 s1' s2 s2' H. unfold calc_score, py_range.
    fold (score_range ann).
    rewrite (for_each_ext (calc_score_body s1 s2) (calc_score_body s1' s2'));
      [reflexivity|].
    intros [same total] i Hi. apply elem_of_seq in Hi.
    destruct (H i) as [H1 H2]; [lia|].
    unfold calc_score_body, getitem, str_getitem. by rewrite H1, H2. }
  intros H. split; [by apply Hagree|].
  intros p a Hp. apply Hagree. intros i Hi. split; [|reflexivity].
  apply list_lookup_insert_ne. lia.
Qed.

Lemma calc_score_reads_prefix_only_witness :
  calc_score [PStr "A"; PStr "X"; PStr "C"; PStr "D"] "AXDE" (mkAnnotation [] 2)
  = calc_score [PStr "A"; PStr "X"; PStr "C"] "AXDF" (mkAnnotation [] 2).
Proof.
  apply (calc_score_reads_prefix_only
           [PStr "A"; PStr "X"; PStr "C"; PStr "D"]
           [PStr "A"; PStr "X"; PStr "C"] "AXDE" "AXDF" (mkAnnotation [] 2)).
  intros i Hi. change (score_range (mkAnnotation [] 2)) with 3 in Hi.
  destruct i as [|[|[|i]]]; [split; reflexivity ..|lia].
Defined.

Lemma count_if_and_le (f g : nat -> bool) (l : list nat) :
  count_if (fun i => f i && g i) l <= count_if f l.
Proof.
  induction l as [|i l IH]; simpl; [lia|].
  destruct (f i), (g i); simpl; lia.
Qed.

Lemma count_if_and_eq (f g : nat -> bool) (l : list nat) :
  count_if (fun i => f i && g i) l = count_if f l
  <-> forall i, i ∈ l -> f i = true -> g i = true.
Proof.
  induction l as [|i l IH]; simpl.
  - split; [intros _ i Hi; inversion Hi | reflexivity].
  - pose proof (count_if_and_le f g l) as Hle. split.
    + intros H j Hj Hf. apply elem_of_cons in Hj as [->|Hj].
      * destruct (f i), (g i); simpl in *; try reflexivity; try discriminate; lia.
      * apply IH; [|exact Hj|exact Hf].
        destruct (f i), (g i); simpl in *; lia.
    + intros H.
      assert (Hl : count_if (fun i => f i && g i) l = count_if f l).
      { apply IH. intros j Hj. apply H. by constructor. }
      destruct (f i) eqn:Ef; simpl; [|lia].
      rewrite (H i) by (constructor || exact Ef). simpl. lia.
Qed.

Lemma count_if_app (f : nat -> bool) (l1 l2 : list nat) :
  count_if f (l1 ++ l2) = count_if f l1 + count_if f l2.
Proof. induction l1 as [|i l1 IH]; simpl; [reflexivity|]. rewrite IH. lia. Qed.

Lemma count_if_mono (f g : nat -> bool) (l : list nat) :
  (forall i, i ∈ l -> f i = true -> g i = true) ->
  count_if f l <= count_if g l.
Proof.
  induction l as [|i l IH]; intros H; simpl; [lia|].
  assert (Hl : count_if f l <= count_if g l).
  { apply IH. intros j Hj. apply H. by constructor. }
  destruct (f i) eqn:Ef; simpl; [|lia].
  rewrite (H i) by (constructor || exact Ef). simpl. lia.
Qed.

(** Counting over [0..n) the indices that satisfy [f], all of which lie
    below [m] and satisfy [g], gives at most the count of [g] over
    [0..m). *)
Lemma count_if_seq_le (f g : nat -> bool) (n m : nat) :
  (forall i, f i = true -> g i = true /\ i < m) ->
  count_if f (seq 0 n) <= count_if g (seq 0 m).
Proof.
  intros H. destruct (decide (n <= m)) as [Hle|Hgt].
  - replace m with (n + (m - n)) by lia. rewrite seq_app, count_if_app.
    pose proof (count_if_mono f g (seq 0 n)
                  (fun i _ Hf => proj1 (H i Hf))). lia.
  - replace n with (m + (n - m)) by lia. rewrite seq_app, count_if_app.
    assert (Hz : count_if f (seq (0 + m) (n - m)) = 0).
    { apply count_if_zero, Forall_forall. intros i Hi.
      apply elem_of_seq in Hi. destruct (f i) eqn:Ef; [|reflexivity].
      destruct (H i Ef). lia. }
    pose proof (count_if_mono f g (seq 0 m)
                  (fun i _ Hf => proj1 (H i Hf))). lia.
Qed.

Lemma string_get_ge (s : string) (i : nat) :
  String.length s <= i -> String.get i s = None.
Proof.
  revert i. induction s as [|c s IH]; intros i Hi; [by destruct i|].
  destruct i as [|i]; simpl in *; [lia|]. apply IH. lia.
Qed.

(** X3. Over sequences that cover the positions, a returned score is 1
    exactly when the tokens are equal at every informative position, and 0
    exactly when they are equal at none. *)
Theorem calc_score_extremes (seq_1 : list pyobj) (seq_2 : string)
    (ann : Annotation) (q : Q) :
  score_range ann <= length seq_1 -> score_range ann <= String.length seq_2 ->
  calc_score seq_1 seq_2 ann = Ok q ->
  ((q == 1)%Q <->
   forall i, i < score_range ann -> informative seq_1 seq_2 i = true ->
             tokens_match seq_1 seq_2 i = true)
  /\ ((q == 0)%Q <->
      forall i, i < score_range ann -> informative seq_1 seq_2 i = true ->
                tokens_match seq_1 seq_2 i = false).
Proof.
  intros H1 H2 Hq. rewrite (calc_score_covered _ _ _ H1 H2) in Hq.
  unfold py_truediv in Hq.
  destruct (Z.eqb_spec (Z.of_nat (informative_count seq_1 seq_2 (score_range ann))) 0)
    as [|Hpos]; [discriminate|].
  injection Hq as <-. unfold Qeq. cbn [Qnum Qden].
  rewrite Z2Pos.id by lia. unfold match_count, informative_count in *.
  pose proof (count_if_and_le (informative seq_1 seq_2) (tokens_match seq_1 seq_2)
                (seq 0 (score_range ann))) as Hle.
  split.
  - pose proof (count_if_and_eq (informative seq_1 seq_2)
                  (tokens_match seq_1 seq_2) (seq 0 (score_range ann))) as Heq.
    split.
    + intros H i Hi Hinf.
      apply (proj1 Heq); [lia | apply elem_of_seq; lia | exact Hinf].
    + intros H. rewrite (proj2 Heq); [lia|].
      intros i Hi. apply elem_of_seq in Hi. apply H. lia.
  - rewrite Z.mul_1_r, Z.mul_0_l.
    change 0%Z with (Z.of_nat 0). rewrite Nat2Z.inj_iff, count_if_zero.
    rewrite Forall_forall. setoid_rewrite elem_of_seq. split.
    + intros H i Hi Hinf. specialize (H i). rewrite Hinf in H. apply H. lia.
    + intros H i Hi. destruct (informative seq_1 seq_2 i) eqn:E; [|reflexivity].
      simpl. apply H; [lia | exact E].
Qed.

Lemma calc_score_extremes_witness :
  calc_score [PStr "A"; PStr "X"; PStr "C"] "AXC" (mkAnnotation [] 2)
  = Ok (2 # 2)%Q
  /\ forall i, i < 3 ->
       informative [PStr "A"; PStr "X"; PStr "C"] "AXC" i = true ->
       tokens_match [PStr "A"; PStr "X"; PStr "C"] "AXC" i = true.
Proof.
  split; [reflexivity|].
  apply (calc_score_extremes [PStr "A"; PStr "X"; PStr "C"] "AXC"
           (mkAnnotation [] 2) (2 # 2)%Q); reflexivity.
Defined.

Lemma str_tokens_lookup (s : string) (i : nat) :
  str_tokens s !! i = (fun c => PStr (String c EmptyString)) <$> String.get i s.
Proof.
  unfold str_tokens. revert i. induction s as [|c s IH]; intros i; simpl.
  - by destruct i.
  - destruct i as [|i]; simpl; [reflexivity | apply IH].
Qed.

(** X4. The score is symmetric: the two sequences can change places, with
    the same score or exception. *)
Theorem calc_score_symmetric (s1 s2 : string) (ann : Annotation) :
  calc_score (str_tokens s1) s2 ann = calc_score (str_tokens s2) s1 ann.
Proof.
  unfold calc_score. f_equal. apply for_each_ext.
  intros [same total] i _. unfold calc_score_body, getitem, str_getitem.
  rewrite !str_tokens_lookup.
  destruct (String.get i s1) as [c1|], (String.get i s2) as [c2|]; simpl;
    try reflexivity.
  - rewrite (Ascii.eqb_sym c2 c1).
    destruct (Ascii.eqb c1 "X"), (Ascii.eqb c2 "X"); reflexivity.
  - destruct (Ascii.eqb c1 "X"); reflexivity.
  - destruct (Ascii.eqb c2 "X"); reflexivity.
Qed.

(** X5. When one of the two sequences does not cover the positions
    [0..v_gene_end], [calc_score] raises [IndexError]; it never scores the
    part that is there. *)
Theorem calc_score_short_sequence (seq_1 : list pyobj) (seq_2 : string)
    (ann : Annotation) :
  length seq_1 < score_range ann \/ String.length seq_2 < score_range ann ->
  calc_score seq_1 seq_2 ann = Raise IndexError.
Proof.
  intros Hshort.
  set (m := Nat.min (length seq_1) (String.length seq_2)).
  assert (Hm : m < score_range ann) by lia.
  unfold calc_score, py_range. fold (score_range ann).
  replace (score_range ann) with (m + S (score_range ann - S m)) by lia.
  rewrite seq_app, for_each_app.
  rewrite (calc_score_loop seq_1 seq_2 (seq 0 m) 0%Z 0%Z).
  2:{ apply Forall_forall. intros i Hi. apply elem_of_seq in Hi. lia. }
  rewrite bind_ret. cbn [seq]. rewrite for_each_cons.
  assert (Hbody : forall acc, calc_score_body seq_1 seq_2 acc (0 + m)
                              = Raise IndexError).
  { intros [same total]. unfold calc_score_body, getitem. simpl.
    destruct (seq_1 !! m) as [a|] eqn:Ha; [|reflexivity].
    apply lookup_lt_Some in Ha.
    assert (Hget : String.get m seq_2 = None) by (apply string_get_ge; lia).
    unfold str_getitem. rewrite Hget. simpl.
    destruct (negb (py_eq a wildcard)); reflexivity. }
  by rewrite Hbody.
Qed.

Lemma calc_score_short_sequence_witness :
  calc_score [PStr "A"; PStr "C"] "ACD" (mkAnnotation [] 2) = Raise IndexError.
Proof.
  apply calc_score_short_sequence. left. vm_compute. lia.
Defined.

(** ** VGeneScorer *)

Lemma map_result_Ok_iff {A B : Type} (f : A -> result B) (xs : list A)
    (ys : list B) :
  map_result f xs = Ok ys <-> Forall2 (fun x y => f x = Ok y) xs ys.
Proof.
  revert ys. induction xs as [|x xs IH]; intros ys; simpl.
  - split; [intros [= <-]; constructor | by inversion 1].
  - split.
    + intros H. apply bind_Ok in H as (y & Hy & H).
      apply bind_Ok in H as (ys' & Hys & [= <-]).
      constructor; [exact Hy | by apply IH].
    + inversion 1 as [|? y ? ys' Hy Hys]; subst.
      apply IH in Hys. by rewrite Hy, bind_ret, Hys.
Qed.

Lemma map_result_returns {A B : Type} (f : A -> result B) (xs : list A) :
  (exists ys, map_result f xs = Ok ys) <-> Forall (fun x => exists y, f x = Ok y) xs.
Proof.
  induction xs as [|x xs IH]; simpl.
  - split; [constructor | eauto].
  - rewrite Forall_cons, <- IH. split.
    + intros [ys H]. apply bind_Ok in H as (y & Hy & H).
      apply bind_Ok in H as (ys' & Hys & _). eauto.
    + intros [[y Hy] [ys Hys]]. rewrite Hy, bind_ret, Hys. eauto.
Qed.

Lemma enumerate_elem {A : Type} (xs : list A) (j : nat) (x : A) :
  (j, x) ∈ enumerate xs <-> xs !! j = Some x.
Proof.
  split.
  - intros H. apply enumerate_from_elem in H as [_ H].
    by rewrite Nat.sub_0_r in H.
  - intros H. apply list_elem_of_lookup. exists j. unfold enumerate.
    by rewrite enumerate_from_lookup, H.
Qed.

(** When the labels match the samples and the scores are there, [query]
    returns the entries of the first two places of the ranking. *)
Lemma query_of_scores (self : VGeneScorer.t) (sequence : list pyobj)
    (v_gene_scores : list Q) :
  length (VGeneScorer.human_samples self) = length (VGeneScorer.labels self) ->
  VGeneScorer.scores self sequence = Ok v_gene_scores ->
  exists res,
    VGeneScorer.query self sequence = Ok res
    /\ Forall2 (entry_of self)
               (take 2 (sorted_desc (enumerate v_gene_scores))) res.
Proof.
  intros Hlen Hscores.
  pose proof (scores_length self sequence v_gene_scores Hscores) as Hn.
  destruct (query_loop self (take 2 (sorted_desc (enumerate v_gene_scores))) [])
    as (res & Hres & Hall).
  { apply Forall_take. rewrite sorted_desc_perm. apply Forall_forall.
    intros [j q] Hp. apply enumerate_elem, lookup_lt_Some in Hp. simpl. lia. }
  exists res. split; [|exact Hall].
  unfold VGeneScorer.query. by rewrite Hscores, bind_ret.
Qed.

(** X6. [__init__] raises when the numbers of samples and labels differ.
    A scorer that it builds answers a query exactly when every sample of
    the population can be scored against the sequence: one sample that
    cannot makes the whole query raise. *)
Theorem scorer_answers_iff_all_scored (ann : Annotation)
    (human_samples labels : list string) :
  (length human_samples ≠ length labels ->
   exists msg, VGeneScorer.init ann human_samples labels = Raise (RuntimeError msg))
  /\ forall self,
       VGeneScorer.init ann human_samples labels = Ok self ->
       length human_samples = length labels
       /\ forall sequence,
            ((exists res, VGeneScorer.query self sequence = Ok res)
             <-> Forall (fun sample => exists q, calc_score sequence sample ann = Ok q)
                        human_samples)
            /\ (Exists (fun sample => exists e, calc_score sequence sample ann = Raise e)
                       human_samples ->
                exists e, VGeneScorer.query self sequence = Raise e).
Proof.
  unfold VGeneScorer.init. split.
  - intros Hne. case_decide; [eauto | contradiction].
  - intros self. case_decide as Hlen; [discriminate|]. intros [= <-].
    assert (Hlen' : length human_samples = length labels).
    { destruct (decide (length human_samples = length labels)); [done|].
      contradiction. }
    split; [exact Hlen'|]. intros sequence.
    assert (Hiff : (exists res, VGeneScorer.query
                                  (VGeneScorer.mk ann human_samples labels)
                                  sequence = Ok res)
             <-> Forall (fun sample => exists q, calc_score sequence sample ann = Ok q)
                        human_samples).
    { rewrite <- (map_result_returns
                    (fun sample => calc_score sequence sample ann)). split.
      - intros [res H]. unfold VGeneScorer.query in H.
        apply bind_Ok in H as (v & Hv & _). eauto.
      - intros [v Hv].
        destruct (query_of_scores (VGeneScorer.mk ann human_samples labels)
                    sequence v Hlen' Hv) as (res & Hres & _). eauto. }
    split; [exact Hiff|].
    intros Hex.
    destruct (VGeneScorer.query _ sequence) as [res|e] eqn:Hq; [|eauto].
    exfalso. assert (Hall := proj1 Hiff (ex_intro _ res eq_refl)).
    apply Exists_exists in Hex as (sample & Hin & e & He).
    rewrite Forall_forall in Hall. destruct (Hall sample Hin) as [q Hq'].
    congruence.
Qed.

(** X7. The first triple that [query] returns has a score that no member
    of the population exceeds, and among the members with that score it is
    the one of the least index. *)
Theorem query_first_is_maximum (self : VGeneScorer.t) (sequence : list pyobj)
    (v_gene_scores : list Q) (first : string * Q * string)
    (others : list (string * Q * string)) :
  length (VGeneScorer.human_samples self) = length (VGeneScorer.labels self) ->
  VGeneScorer.scores self sequence = Ok v_gene_scores ->
  VGeneScorer.query self sequence = Ok (first :: others) ->
  exists i,
    VGeneScorer.human_samples self !! i = Some (fst (fst first))
    /\ VGeneScorer.labels self !! i = Some (snd first)
    /\ v_gene_scores !! i = Some (snd (fst first))
    /\ (forall j q, v_gene_scores !! j = Some q -> (q <= snd (fst first))%Q)
    /\ (forall j q, v_gene_scores !! j = Some q -> j < i ->
                    (q < snd (fst first))%Q).
Proof.
  intros Hlen Hscores Hq.
  destruct (query_of_scores self sequence v_gene_scores Hlen Hscores)
    as (res & Hres & Hall).
  rewrite Hq in Hres. injection Hres as <-.
  pose proof (sorted_desc_perm (enumerate v_gene_scores)) as Hperm.
  pose proof (sorted_desc_sorted (enumerate v_gene_scores)
                (enumerate_from_increasing v_gene_scores 0)) as Hsorted.
  destruct (sorted_desc (enumerate v_gene_scores)) as [|[i s] tl] eqn:Hrank;
    [inversion Hall|].
  simpl in Hall. inversion Hall as [|? ? ? ? (Hs & Hv & Hl) _]; subst.
  simpl in Hs, Hv, Hl.
  apply StronglySorted_cons in Hsorted as [Hfirst _].
  assert (Hin : forall j q, v_gene_scores !! j = Some q ->
                            (j, q) = (i, s) \/ (j, q) ∈ tl).
  { intros j q Hj. apply enumerate_elem in Hj. rewrite <- Hperm in Hj.
    by apply elem_of_cons in Hj. }
  exists i. split; [exact Hs|]. split; [exact Hl|]. rewrite Hv. split; [|split].
  - apply enumerate_elem. rewrite <- Hperm. by constructor.
  - intros j q Hj. destruct (Hin j q Hj) as [[= -> ->]|Htl]; [apply Qle_refl|].
    rewrite Forall_forall in Hfirst.
    exact (ranks_before_le _ _ (Hfirst _ Htl)).
  - intros j q Hj Hlt. destruct (Hin j q Hj) as [[= -> ->]|Htl]; [lia|].
    rewrite Forall_forall in Hfirst.
    destruct (Hfirst _ Htl) as [H|[_ H]]; [exact H | simpl in H; lia].
Qed.

Lemma query_first_is_maximum_witness :
  exists i,
    VGeneScorer.human_samples Demo.scorer10 !! i = Some "QVQLVQSGAK"%string
    /\ forall j q, [9 # 10; 5 # 10; 9 # 10; 1 # 10]%Q !! j = Some q ->
                   (q <= 9 # 10)%Q.
Proof.
  destruct (query_first_is_maximum Demo.scorer10 Demo.query10
              [9 # 10; 5 # 10; 9 # 10; 1 # 10]%Q
              ("QVQLVQSGAK"%string, (9 # 10)%Q, "IGHV1"%string)
              [("EVQLVQSGAE"%string, (9 # 10)%Q, "IGHV3"%string)]
              eq_refl eq_refl eq_refl)
    as (i & Hs & _ & _ & Hmax & _).
  exists i. split; [exact Hs | exact Hmax].
Defined.

(** ** The search of ReverseHumanizer.query *)

Section search_facts.
Context (ext : Imports) (self : ReverseHumanizer.t).
Variables (original_seq : list pyobj) (human_sample : human_ref)
          (target_model_metric : Q) (target_v_gene_score : option Q).

Local Abbreviation schema :=
  (ModelWrapper.annotation (ReverseHumanizer.model_wrapper self)).
Local Abbreviation round :=
  (ReverseHumanizer.round ext self original_seq human_sample
                          target_model_metric target_v_gene_score).
Local Abbreviation search :=
  (ReverseHumanizer.search ext self original_seq human_sample
                           target_model_metric target_v_gene_score).

Lemma search_inv (seed final : list pyobj) (trail : list IterationDetails) :
  search seed = Ok (final, trail) ->
  exists cv vg,
    calc_metrics ext seed human_sample = Ok (cv, vg)
    /\ for_break round (ReverseHumanizer.round_numbers ext)
                 (seed, [mkIteration 0 cv vg None]) = Ok (final, trail).
Proof.
  unfold ReverseHumanizer.search. intros H.
  apply bind_Ok in H as ([cv vg] & Hm & H). eauto.
Qed.

(** An invariant of the sequence alone that accepted changes keep holds
    at the end of the search. *)
Lemma search_sequence_invariant (P : list pyobj -> Prop)
    (seed final : list pyobj) (trail : list IterationDetails) :
  (forall cur best pos,
      P cur -> real_candidate self cur original_seq best ->
      position best = Some pos -> P (<[pos := aa best]> cur)) ->
  P seed -> search seed = Ok (final, trail) -> P final.
Proof.
  intros Hstep Hseed H. apply search_inv in H as (cv & vg & _ & Hrun).
  apply (for_break_invariant round (fun s => P (fst s)) _) in Hrun;
    [exact Hrun| |exact Hseed].
  intros it [cur iters] c _ Hs Hc. apply round_inv in Hc.
  destruct c as [s1|s1]; simpl.
  - destruct Hc as (best & pos & bv & v & Hreal & Hpos & -> & _).
    by apply (Hstep cur best pos).
  - by subst s1.
Qed.

(** X10. The search never changes a skipped position: at every position
    whose column is in the skip list the final sequence holds the seed's
    token, and no record of the trail carries such a position. *)
Theorem search_keeps_skipped_positions (seed final : list pyobj)
    (trail : list IterationDetails) :
  search seed = Ok (final, trail) ->
  (forall i,
      (forall name, segmented_positions schema !! i = Some name ->
                    name ∈ ReverseHumanizer.skip_positions self) ->
      final !! i = seed !! i)
  /\ Forall (fun pos =>
               exists name, segmented_positions schema !! pos = Some name
                            /\ name ∉ ReverseHumanizer.skip_positions self)
            (changed_positions trail).
Proof.
  intros H. split.
  - intros i Hskip.
    apply (search_sequence_invariant (fun cur => cur !! i = seed !! i)
             seed final trail); [|reflexivity|exact H].
    intros cur best pos Hcur (pos' & name & Hpos' & Hname & Hnot & _) Hpos.
    assert (pos' = pos) as -> by congruence.
    rewrite list_lookup_insert_ne; [exact Hcur|].
    intros ->. apply Hnot, Hskip, Hname.
  - apply search_inv in H as (cv & vg & _ & Hrun).
    apply (for_break_invariant round
             (fun s => Forall (fun pos =>
                 exists name, segmented_positions schema !! pos = Some name
                              /\ name ∉ ReverseHumanizer.skip_positions self)
               (changed_positions (snd s))) _) in Hrun;
      [exact Hrun| |constructor].
    intros it [cur iters] c _ Hs Hc. apply round_inv in Hc.
    destruct c as [s1|s1]; simpl.
    + destruct Hc as (best & pos & bv & v & Hreal & Hpos & _ & _ & _ & ->).
      unfold changed_positions. rewrite omap_app. apply Forall_app.
      split; [exact Hs|]. simpl. rewrite Hpos. constructor; [|constructor].
      destruct Hreal as (pos' & name & Hpos' & Hname & Hnot & _).
      assert (pos' = pos) as -> by congruence. eauto.
    + by subst s1.
Qed.

Lemma search_reverts_towards_original_aux (seed final : list pyobj)
    (trail : list IterationDetails) :
  search seed = Ok (final, trail) ->
  forall i,
    final !! i = seed !! i
    \/ (differs seed original_seq i = true /\ final !! i = original_seq !! i).
Proof.
  intros H i.
  apply (search_sequence_invariant
           (fun cur => cur !! i = seed !! i
                       \/ (differs seed original_seq i = true
                           /\ cur !! i = original_seq !! i))
           seed final trail); [|by left|exact H].
  intros cur best pos Hcur (pos' & name & Hpos' & _ & _ & Hold & Horig & Hd & _)
         Hpos.
  assert (pos' = pos) as -> by congruence.
  destruct (decide (i = pos)) as [->|Hne].
  - right. split.
    + destruct Hcur as [Hcur|[Hs _]]; [|exact Hs].
      unfold differs in *. by rewrite <- Hcur.
    + rewrite list_lookup_insert_eq by (by eapply lookup_lt_Some).
      by rewrite Horig.
  - by rewrite list_lookup_insert_ne.
Qed.

(** X11. At every position the final sequence holds the seed's token,
    or, where the seed differs from the original, the original's token;
    a position at which the seed equals the original is never changed. *)
Theorem search_reverts_towards_original (seed final : list pyobj)
    (trail : list IterationDetails) :
  search seed = Ok (final, trail) ->
  forall i,
    (final !! i = seed !! i
     \/ (differs seed original_seq i = true
         /\ final !! i = original_seq !! i))
    /\ (differs seed original_seq i = false -> final !! i = seed !! i).
Proof.
  intros H i.
  destruct (search_reverts_towards_original_aux seed final trail H i)
    as [Hs|[Hd Ho]].
  - split; [by left | done].
  - split; [by right|]. intros Hd'. congruence.
Qed.

End search_facts.

Lemma demo_search :
  ReverseHumanizer.search (Demo.ext 10) Demo.humanizer DemoRun.original
    DemoRun.reference (1 # 2)%Q (Some 0%Q) DemoRun.seed
  = Ok (DemoRun.final, DemoRun.trail).
Proof. reflexivity. Qed.

Lemma search_keeps_skipped_positions_witness :
  Forall (fun pos =>
            exists name, segmented_positions Demo.schema !! pos = Some name
                         /\ name ∉ ReverseHumanizer.skip_positions Demo.humanizer)
         (changed_positions DemoRun.trail).
Proof.
  exact (proj2 (search_keeps_skipped_positions (Demo.ext 10) Demo.humanizer
                  DemoRun.original DemoRun.reference (1 # 2)%Q (Some 0%Q)
                  DemoRun.seed DemoRun.final DemoRun.trail demo_search)).
Defined.

Lemma search_reverts_towards_original_witness :
  DemoRun.final !! 0 = DemoRun.seed !! 0
  \/ (differs DemoRun.seed DemoRun.original 0 = true
      /\ DemoRun.final !! 0 = DemoRun.original !! 0).
Proof.
  exact (proj1 (search_reverts_towards_original (Demo.ext 10) Demo.humanizer
                  DemoRun.original DemoRun.reference (1 # 2)%Q (Some 0%Q)
                  DemoRun.seed DemoRun.final DemoRun.trail demo_search 0)).
Defined.

(** ** The trail *)

Section trail_facts.
Context (ext : Imports) (self : ReverseHumanizer.t).
Variables (original_seq : list pyobj) (human_sample : human_ref)
          (target_model_metric : Q) (target_v_gene_score : option Q).

Local Abbreviation round :=
  (ReverseHumanizer.round ext self original_seq human_sample
                          target_model_metric target_v_gene_score).
Local Abbreviation search :=
  (ReverseHumanizer.search ext self original_seq human_sample
                           target_model_metric target_v_gene_score).

(** The records are numbered by their place in the trail. *)
Lemma run_numbering (n : nat) :
  forall (a : nat) (cur final : list pyobj) (iters trail : list IterationDetails),
  for_break round ((fun k : nat => Z.of_nat k) <$> seq a n) (cur, iters)
    = Ok (final, trail) ->
  length iters = a ->
  (forall k r, iters !! k = Some r -> index r = Z.of_nat k) ->
  forall k r, trail !! k = Some r -> index r = Z.of_nat k.
Proof.
  induction n as [|n IH]; intros a cur final iters trail H Hlen Hiters.
  - injection H as <- <-. exact Hiters.
  - cbn [seq fmap list_fmap] in H. rewrite for_break_cons in H.
    apply bind_Ok in H as (c & Hc & H). apply round_inv in Hc.
    destruct c as [[cur1 iters1]|s1].
    + destruct Hc as (best & pos & bv & v & _ & _ & _ & _ & _ & Hiters1).
      simpl in Hiters1. subst iters1.
      apply (IH (S a) cur1 final _ trail H).
      * rewrite length_app. simpl. lia.
      * intros k r Hk. apply lookup_app_Some in Hk as [Hk|[Hge Hk]].
        -- by apply Hiters.
        -- rewrite Hlen in *. destruct (k - a) as [|d] eqn:Ed; [|by destruct d].
           injection Hk as <-. simpl. f_equal. lia.
    + subst s1. injection H as <- <-. exact Hiters.
Qed.

(** X12. The k-th record of the trail carries the iteration number k, and
    no position is changed twice: the positions of the records' changes
    are pairwise different. *)
Theorem trail_numbered_and_positions_distinct (seed final : list pyobj)
    (trail : list IterationDetails) :
  search seed = Ok (final, trail) ->
  (forall k r, trail !! k = Some r -> index r = Z.of_nat k)
  /\ NoDup (changed_positions trail).
Proof.
  intros H. apply search_inv in H as (cv & vg & _ & Hrun). split.
  - unfold ReverseHumanizer.round_numbers in Hrun.
    apply (run_numbering _ 1 seed final _ trail Hrun); [reflexivity|].
    intros [|k] r Hk; [|discriminate]. by injection Hk as <-.
  - apply (for_break_invariant round
             (fun s => NoDup (changed_positions (snd s))
                       /\ Forall (fun p => differs (fst s) original_seq p = false)
                                 (changed_positions (snd s))) _) in Hrun;
      [exact (proj1 Hrun)| |split; constructor].
    intros it [cur iters] c _ [Hnd Hrev] Hc. apply round_inv in Hc.
    destruct c as [s1|s1]; simpl.
    + destruct Hc as (best & pos & bv & v & Hreal & Hpos & -> & _ & _ & ->).
      destruct Hreal as (pos' & name & Hpos' & _ & _ & _ & Horig & Hd & _).
      assert (pos' = pos) as -> by congruence.
      simpl in Hnd, Hrev. unfold changed_positions in *.
      rewrite omap_app. simpl. rewrite Hpos. simpl.
      assert (Hfresh : pos ∉ omap (fun r => c ← change r; position c) iters).
      { intros Hin. rewrite Forall_forall in Hrev.
        rewrite (Hrev pos Hin) in Hd. discriminate. }
      split.
      * apply NoDup_app. split; [exact Hnd|]. split.
        -- intros p Hp Hp'. apply list_elem_of_singleton in Hp'. by subst p.
        -- apply NoDup_singleton.
      * apply Forall_app. split.
        -- rewrite Forall_forall in Hrev |- *. intros p Hp.
           rewrite differs_insert_ne; [by apply Hrev|].
           intros ->. contradiction.
        -- constructor; [|constructor]. by apply differs_insert_eq.
    + subst s1. by split.
Qed.

(** X13. The last record of the trail reports the metrics of the final
    sequence. *)
Theorem last_record_reports_final (seed final : list pyobj)
    (trail : list IterationDetails) :
  search seed = Ok (final, trail) ->
  exists r,
    last trail = Some r
    /\ calc_metrics ext final human_sample
       = Ok (model_metric r, v_gene_score r).
Proof.
  intros H. apply search_inv in H as (cv & vg & Hm & Hrun).
  apply (for_break_invariant round
           (fun s => exists r,
                last (snd s) = Some r
                /\ calc_metrics ext (fst s) human_sample
                   = Ok (model_metric r, v_gene_score r)) _) in Hrun;
    [exact Hrun| |by eexists].
  intros it [cur iters] c _ Hs Hc. apply round_inv in Hc.
  destruct c as [s1|s1]; simpl.
  - destruct Hc as (best & pos & bv & v & _ & _ & Hcur & Hm2 & _ & ->).
    eexists. split; [apply last_snoc|]. exact Hm2.
  - by subst s1.
Qed.

(** X14. The trail is an exact account of the search: its changes
    applied in order to the seed give the final sequence, and taken back
    in reverse order from the final sequence they give the seed. *)
Theorem trail_replays_and_rolls_back (seed final : list pyobj)
    (trail : list IterationDetails) :
  search seed = Ok (final, trail) ->
  replay trail seed = final /\ rollback trail final = seed.
Proof.
  intros H. apply search_inv in H as (cv & vg & _ & Hrun).
  apply (for_break_invariant round
           (fun s => replay (snd s) seed = fst s
                     /\ rollback (snd s) (fst s) = seed) _) in Hrun;
    [exact Hrun| |by split].
  intros it [cur iters] c _ [Hre Hback] Hc. apply round_inv in Hc.
  destruct c as [s1|s1]; simpl.
  - destruct Hc as (best & pos & bv & v & Hreal & Hpos & -> & _ & _ & ->).
    destruct Hreal as (pos' & name & Hpos' & _ & _ & Hold & _).
    assert (pos' = pos) as -> by congruence.
    simpl in Hre, Hback. unfold replay, rollback in *.
    rewrite foldl_snoc, foldr_snoc, Hre. unfold redo at 1, undo at 2. simpl.
    rewrite Hpos. split; [reflexivity|].
    by rewrite list_insert_insert_eq, list_insert_id.
  - by subst s1.
Qed.

End trail_facts.

Lemma trail_numbered_and_positions_distinct_witness :
  NoDup (changed_positions DemoRun.trail).
Proof.
  exact (proj2 (trail_numbered_and_positions_distinct (Demo.ext 10) Demo.humanizer
                  DemoRun.original DemoRun.reference (1 # 2)%Q (Some 0%Q)
                  DemoRun.seed DemoRun.final DemoRun.trail demo_search)).
Defined.

Lemma last_record_reports_final_witness :
  exists r,
    last DemoRun.trail = Some r
    /\ calc_metrics (Demo.ext 10) DemoRun.final DemoRun.reference
       = Ok (model_metric r, v_gene_score r).
Proof.
  exact (last_record_reports_final (Demo.ext 10) Demo.humanizer
           DemoRun.original DemoRun.reference (1 # 2)%Q (Some 0%Q)
           DemoRun.seed DemoRun.final DemoRun.trail demo_search).
Defined.

Lemma trail_replays_and_rolls_back_witness :
  replay DemoRun.trail DemoRun.seed = DemoRun.final
  /\ rollback DemoRun.trail DemoRun.final = DemoRun.seed.
Proof.
  exact (trail_replays_and_rolls_back (Demo.ext 10) Demo.humanizer
           DemoRun.original DemoRun.reference (1 # 2)%Q (Some 0%Q)
           DemoRun.seed DemoRun.final DemoRun.trail demo_search).
Defined.

(** ** The seed and the reference *)

Section seed_facts.
Context (ext : Imports) (self : ReverseHumanizer.t).

Local Abbreviation schema :=
  (ModelWrapper.annotation (ReverseHumanizer.model_wrapper self)).

(** The seed loop writes framework positions only, whatever the
    reference is. *)
Lemma chimeric_loop_frame (h : human_ref) (names : list string) :
  forall (k : nat) (current_seq seed : list pyobj),
  for_each (ReverseHumanizer.chimeric_body h) (enumerate_from k names)
           current_seq = Ok seed ->
  forall i, i < k \/ is_framework (names !! (i - k)) = false ->
            seed !! i = current_seq !! i.
Proof.
  induction names as [|name names IH]; intros k cur seed H i Hi.
  - by injection H as <-.
  - change (enumerate_from k (name :: names))
      with ((k, name) :: enumerate_from (S k) names) in H.
    rewrite for_each_cons in H. apply bind_Ok in H as (cur1 & Hstep & H).
    assert (Hi1 : i < S k \/ is_framework (names !! (i - S k)) = false).
    { destruct Hi as [Hi|Hi]; [left; lia|].
      destruct (decide (i <= k)); [left; lia|]. right.
      by replace (i - k) with (S (i - S k)) in Hi by lia. }
    rewrite (IH _ _ _ H i Hi1).
    unfold ReverseHumanizer.chimeric_body in Hstep.
    destruct (String.prefix "fwr" name) eqn:Hfwr; [|by injection Hstep as <-].
    apply bind_Ok in Hstep as (v & _ & Hstep).
    apply setitem_Ok in Hstep as [_ ->].
    apply list_lookup_insert_ne. intros <-.
    destruct Hi as [Hi|Hi]; [lia|].
    rewrite Nat.sub_diag in Hi. simpl in Hi. congruence.
Qed.

Lemma chimeric_seed_frame (h : human_ref) (current_seq seed : list pyobj) :
  ReverseHumanizer.chimeric_seed self h current_seq = Ok seed ->
  forall i, is_framework (segmented_positions schema !! i) = false ->
            seed !! i = current_seq !! i.
Proof.
  intros H i Hi. apply (chimeric_loop_frame h _ 0 _ _ H). right.
  by rewrite Nat.sub_0_r.
Qed.

Lemma differs_same (s1 s2 : list pyobj) (i : nat) :
  s1 !! i = s2 !! i -> differs s1 s2 i = false.
Proof.
  intros H. unfold differs. rewrite H. destruct (s2 !! i); [|reflexivity].
  by rewrite py_eq_refl.
Qed.

Lemma query_of_steps (sequence : string) (target_model_metric : Q)
    (target_v_gene_score : option Q) (human_sample : option string)
    (tokens : list string) (h : human_ref) (seed final : list pyobj)
    (trail : list IterationDetails) :
  annotate_single ext sequence schema = Some tokens ->
  ReverseHumanizer.obtain_human_sample ext self (PStr <$> tokens) human_sample
    = Ok h ->
  ReverseHumanizer.chimeric_seed self h (PStr <$> tokens) = Ok seed ->
  ReverseHumanizer.search ext self (PStr <$> tokens) h target_model_metric
    target_v_gene_score seed = Ok (final, trail) ->
  ReverseHumanizer.query ext self sequence target_model_metric
    target_v_gene_score human_sample
  = Ok (seq_to_str ext final false, trail).
Proof.
  intros Hann Hh Hseed Hsearch.
  rewrite (query_annotated ext self _ _ _ _ tokens Hann).
  by rewrite Hh, bind_ret, Hseed, bind_ret, Hsearch.
Qed.

(** X15. Whatever the reference is, a run of [query] leaves every
    position outside the framework regions as the annotator gave it: the
    returned string is the flattening of a sequence that holds the
    input's token at each such position. *)
Theorem non_framework_positions_kept (sequence : string)
    (target_model_metric : Q) (target_v_gene_score : option Q)
    (human_sample : option string) (tokens : list string) (h : human_ref)
    (seed final : list pyobj) (trail : list IterationDetails) :
  annotate_single ext sequence schema = Some tokens ->
  ReverseHumanizer.obtain_human_sample ext self (PStr <$> tokens) human_sample
    = Ok h ->
  ReverseHumanizer.chimeric_seed self h (PStr <$> tokens) = Ok seed ->
  ReverseHumanizer.search ext self (PStr <$> tokens) h target_model_metric
    target_v_gene_score seed = Ok (final, trail) ->
  ReverseHumanizer.query ext self sequence target_model_metric
    target_v_gene_score human_sample
  = Ok (seq_to_str ext final false, trail)
  /\ forall i, is_framework (segmented_positions schema !! i) = false ->
               final !! i = PStr <$> tokens !! i.
Proof.
  intros Hann Hh Hseed Hsearch.
  split; [by eapply query_of_steps|]. intros i Hi.
  pose proof (chimeric_seed_frame _ _ _ Hseed i Hi) as Hsi.
  destruct (search_reverts_towards_original_aux ext self _ _ _ _ _ _ _
              Hsearch i) as [->|[Hd _]].
  - by rewrite Hsi, list_lookup_fmap.
  - rewrite (differs_same _ _ i Hsi) in Hd. discriminate.
Qed.

(** X16. Besides its initial record the trail holds at most one record
    per framework position of the schema: a run accepts at most that many
    rounds, whatever [MAX_CHANGES] is. *)
Theorem trail_bounded_by_framework (sequence : string)
    (target_model_metric : Q) (target_v_gene_score : option Q)
    (human_sample : option string) (s : string)
    (trail : list IterationDetails) :
  ReverseHumanizer.query ext self sequence target_model_metric
    target_v_gene_score human_sample = Ok (s, trail) ->
  length trail <= framework_count schema + 1.
Proof.
  intros Hq.
  apply query_inv in Hq
    as (tokens & h & seed & cv & vg & final & _ & _ & Hseed & _ & Hrun & _).
  pose proof (run_diff_count _ _ _ _ _ _ _ _ _ Hrun) as Hcount.
  simpl in Hcount.
  assert (Hfw : diff_count seed (PStr <$> tokens) <= framework_count schema).
  { unfold diff_count, framework_count.
    apply count_if_seq_le. intros i Hd.
    destruct (is_framework (segmented_positions schema !! i)) eqn:Hfw.
    - split; [reflexivity|]. unfold is_framework in Hfw.
      destruct (segmented_positions schema !! i) eqn:E; [|discriminate].
      by eapply lookup_lt_Some.
    - rewrite (differs_same _ _ i (chimeric_seed_frame _ _ _ Hseed i Hfw)) in Hd.
      discriminate. }
  lia.
Qed.

End seed_facts.

Lemma non_framework_positions_kept_witness :
  ReverseHumanizer.query (Demo.ext 10) Demo.humanizer "AAAA" (1 # 2)%Q
    (Some 0%Q) (Some "BBBB"%string)
  = Ok ("AABA"%string, DemoRun.trail)
  /\ DemoRun.final !! 1 = Some (PStr "A").
Proof.
  destruct (non_framework_positions_kept (Demo.ext 10) Demo.humanizer "AAAA"
              (1 # 2)%Q (Some 0%Q) (Some "BBBB"%string) ["A"; "A"; "A"; "A"]%string
              DemoRun.reference DemoRun.seed DemoRun.final DemoRun.trail
              eq_refl eq_refl eq_refl demo_search) as [Hq Hkept].
  split; [exact Hq|]. exact (Hkept 1 eq_refl).
Defined.

Lemma trail_bounded_by_framework_witness :
  length DemoRun.trail <= framework_count Demo.schema + 1.
Proof.
  exact (trail_bounded_by_framework (Demo.ext 10) Demo.humanizer "AAAA"
           (1 # 2)%Q (Some 0%Q) (Some "BBBB"%string) "AABA" DemoRun.trail
           eq_refl).
Defined.

(** ** The reference *)

Section reference_facts.
Context (ext : Imports) (self : ReverseHumanizer.t).

Local Abbreviation schema :=
  (ModelWrapper.annotation (ReverseHumanizer.model_wrapper self)).

(** The humanizer [self] with another scorer, or none. *)
Local Abbreviation with_scorer scorer :=
  (ReverseHumanizer.mk (ReverseHumanizer.model_wrapper self) scorer
                       (ReverseHumanizer.skip_positions self)
                       (ReverseHumanizer.use_aa_similarity self)).

(** X17. When the supplied sample is not empty and annotates to a list
    that is not empty, lines 50-54 bind the reference to its tokens and do
    not ask the scorer, whichever scorer the humanizer holds, or none.  For
    tokens that cover the schema, the seed holds the sample's token at the
    framework positions and the input's token elsewhere, and the run is
    the search from that seed with that reference. *)
Theorem explicit_sample_is_the_reference (sequence sample : string)
    (target_model_metric : Q) (target_v_gene_score : option Q)
    (sample_tokens : list string) :
  sample ≠ EmptyString ->
  annotate_single ext sample schema = Some sample_tokens ->
  sample_tokens ≠ [] ->
  (forall current_seq,
      ReverseHumanizer.obtain_human_sample ext self current_seq (Some sample)
      = Ok (AnnotatedSample sample_tokens))
  /\ (forall scorer current_seq,
        ReverseHumanizer.obtain_human_sample ext (with_scorer scorer)
          current_seq (Some sample)
        = Ok (AnnotatedSample sample_tokens))
  /\ (forall tokens,
        length (segmented_positions schema) <= length sample_tokens ->
        length (segmented_positions schema) <= length tokens ->
        exists seed,
          ReverseHumanizer.chimeric_seed self (AnnotatedSample sample_tokens)
            (PStr <$> tokens) = Ok seed
          /\ length seed = length tokens
          /\ (forall i,
               seed !! i =
               if is_framework (segmented_positions schema !! i)
               then PStr <$> sample_tokens !! i
               else PStr <$> tokens !! i)
          /\ (annotate_single ext sequence schema = Some tokens ->
              ReverseHumanizer.query ext self sequence target_model_metric
                target_v_gene_score (Some sample)
              = (st ← ReverseHumanizer.search ext self (PStr <$> tokens)
                        (AnnotatedSample sample_tokens) target_model_metric
                        target_v_gene_score seed;
                 Ok (ReverseHumanizer.finish ext st)))).
Proof.
  intros Hne Hann Htok. split; [|split].
  - intros cur. by apply obtain_explicit_sample.
  - intros scorer cur.
    exact (obtain_explicit_sample ext (with_scorer scorer) cur sample
             sample_tokens Hne Hann Htok).
  - intros tokens H1 H2.
    destruct (chimeric_seed_annotated self sample_tokens (PStr <$> tokens))
      as (seed & Hseed & Hlen & Hlook); [exact H1 | by rewrite length_fmap|].
    exists seed. split; [exact Hseed|]. rewrite length_fmap in Hlen.
    split; [exact Hlen|]. split.
    + intros i. rewrite Hlook. by rewrite list_lookup_fmap.
    + intros Hseq.
      rewrite (query_annotated ext self _ _ _ _ tokens Hseq).
      rewrite (obtain_explicit_sample ext self _ sample sample_tokens
                 Hne Hann Htok), bind_ret.
      by rewrite Hseed, bind_ret.
Qed.

Lemma scorer_query_length (scorer : VGeneScorer.t) (sequence : list pyobj)
    (res : list (string * Q * string)) :
  VGeneScorer.query scorer sequence = Ok res ->
  length res = Nat.min 2 (length (VGeneScorer.human_samples scorer)).
Proof.
  unfold VGeneScorer.query. intros H.
  apply bind_Ok in H as (v & Hv & H).
  rewrite <- (scores_length _ _ _ Hv).
  assert (Hloop : forall l acc out,
             for_each (VGeneScorer.query_body scorer) l acc = Ok out ->
             length out = length acc + length l).
  { induction l as [|[idx q] l IH]; intros acc out Hl.
    - injection Hl as <-. simpl. lia.
    - rewrite for_each_cons in Hl. apply bind_Ok in Hl as (acc1 & Hstep & Hl).
      apply IH in Hl. unfold VGeneScorer.query_body in Hstep.
      apply bind_Ok in Hstep as (sample & _ & Hstep).
      apply bind_Ok in Hstep as (label & _ & [= <-]).
      rewrite length_app in Hl. simpl in *. lia. }
  apply Hloop in H. rewrite H, length_take. simpl.
  rewrite sorted_desc_perm. unfold enumerate.
  by rewrite enumerate_from_length.
Qed.

(** X18. With no sample supplied, an annotated run raises
    [AttributeError] when the humanizer has no scorer, and cannot return
    when the scorer's population has fewer than two members: the answer
    of the scorer does not unpack into two, and [ValueError] is raised
    unless the scoring itself raised before. *)
Theorem no_sample_needs_two_references (sequence : string)
    (target_model_metric : Q) (target_v_gene_score : option Q)
    (tokens : list string) :
  annotate_single ext sequence schema = Some tokens ->
  (ReverseHumanizer.v_gene_scorer self = None ->
   ReverseHumanizer.query ext self sequence target_model_metric
     target_v_gene_score None = Raise AttributeError)
  /\ (forall scorer,
        ReverseHumanizer.v_gene_scorer self = Some scorer ->
        length (VGeneScorer.human_samples scorer) < 2 ->
        match VGeneScorer.query scorer (PStr <$> tokens) with
        | Ok _ =>
            ReverseHumanizer.query ext self sequence target_model_metric
              target_v_gene_score None = Raise ValueError
        | Raise e =>
            ReverseHumanizer.query ext self sequence target_model_metric
              target_v_gene_score None = Raise e
        end).
Proof.
  intros Hann. rewrite (query_annotated ext self _ _ _ _ tokens Hann).
  unfold ReverseHumanizer.obtain_human_sample. split.
  - intros Hnone. by rewrite Hnone.
  - intros scorer Hsc Hlen. rewrite Hsc, bind_ret.
    destruct (VGeneScorer.query scorer (PStr <$> tokens)) as [res|e] eqn:Hq;
      [|reflexivity].
    apply scorer_query_length in Hq. rewrite bind_ret.
    destruct res as [|r1 [|r2 [|r3 res]]]; cbn [length] in Hq;
      try reflexivity; lia.
Qed.

End reference_facts.

Lemma explicit_sample_is_the_reference_witness :
  ReverseHumanizer.obtain_human_sample (Demo.ext 10)
    (ReverseHumanizer.mk Demo.model None [] false) DemoRun.original
    (Some "BBBB"%string)
  = Ok DemoRun.reference.
Proof.
  assert (Hne : "BBBB"%string ≠ EmptyString) by discriminate.
  assert (Htok : ["B"; "B"; "B"; "B"]%string ≠ []) by discriminate.
  destruct (explicit_sample_is_the_reference (Demo.ext 10) Demo.humanizer
              "AAAA" "BBBB" (1 # 2)%Q (Some 0%Q) ["B"; "B"; "B"; "B"]%string
              Hne eq_refl Htok) as (_ & Hind & _).
  exact (Hind None DemoRun.original).
Defined.

Lemma no_sample_needs_two_references_witness :
  ReverseHumanizer.query (Demo.ext 10)
    (ReverseHumanizer.mk Demo.model None [] false) "AAAA" (1 # 2)%Q
    (Some 0%Q) None
  = Raise AttributeError.
Proof.
  exact (proj1 (no_sample_needs_two_references (Demo.ext 10)
                  (ReverseHumanizer.mk Demo.model None [] false) "AAAA"
                  (1 # 2)%Q (Some 0%Q) ["A"; "A"; "A"; "A"]%string eq_refl)
               eq_refl).
Defined.

(** ** The best change *)

Section best_change_facts.
Context (ext : Imports) (self : ReverseHumanizer.t).

Local Abbreviation schema :=
  (ModelWrapper.annotation (ReverseHumanizer.model_wrapper self)).
Local Abbreviation less a b :=
  (is_change_less ext a b (ReverseHumanizer.use_aa_similarity self)).

Lemma find_best_loop_maximal (original_seq current_seq : list pyobj)
    (entries : list (nat * string)) :
  comparator_strict ext (ReverseHumanizer.use_aa_similarity self) ->
  forall (seen : SequenceChange -> Prop) best best' current_seq',
  for_each (ReverseHumanizer.find_best_body ext self original_seq) entries
           (best, current_seq) = Ok (best', current_seq') ->
  (forall c, seen c -> less best c = false) ->
  less best best = false ->
  forall c,
    seen c
    \/ (exists idx name new_aa,
          (idx, name) ∈ entries
          /\ (name ∉ ReverseHumanizer.skip_positions self)
          /\ original_seq !! idx = Some new_aa
          /\ ReverseHumanizer._test_single_change self current_seq idx new_aa
             = Ok (c, current_seq)) ->
    less best' c = false.
Proof.
  intros [Hirr Htrans].
  induction entries as [|[idx name] entries IH];
    intros seen best best' cur' H Hseen Hbest c Hc.
  - injection H as <- <-. destruct Hc as [Hc|(? & ? & ? & Hin & _)];
      [by apply Hseen | inversion Hin].
  - rewrite for_each_cons in H. apply bind_Ok in H as ([b1 s1] & Hstep & H).
    unfold ReverseHumanizer.find_best_body in Hstep.
    case_bool_decide as Hskip.
    + injection Hstep as <- <-.
      apply (IH seen best best' cur' H Hseen Hbest).
      destruct Hc as [Hc|(i & n & a & Hin & Hn & Ha & Ht)]; [by left|].
      apply elem_of_cons in Hin as [[= -> ->]|Hin]; [contradiction|].
      right. eauto 10.
    + apply bind_Ok in Hstep as (a0 & Ha0 & Hstep).
      apply getitem_Ok in Ha0.
      apply bind_Ok in Hstep as ([cand s2] & Htest & Hstep).
      pose proof (test_single_change_frame _ _ _ _ _ _ Htest) as ->.
      assert (Hb1 : (forall d, seen d \/ d = cand -> less b1 d = false)
                    /\ s1 = current_seq).
      { destruct (less best cand) eqn:Eless; injection Hstep as <- <-.
        - split; [|reflexivity]. intros d [Hd| ->]; [|apply Hirr].
          destruct (less cand d) eqn:E; [|reflexivity].
          pose proof (Htrans _ _ _ Eless E) as Hbd.
          rewrite (Hseen d Hd) in Hbd. discriminate.
        - split; [|reflexivity]. intros d [Hd| ->]; [by apply Hseen|exact Eless]. }
      destruct Hb1 as [Hb1 ->].
      apply (IH (fun d => seen d \/ d = cand) b1 best' cur' H Hb1).
      * destruct (less best cand) eqn:Eless; injection Hstep as <-;
          [apply Hirr | exact Hbest].
      * destruct Hc as [Hc|(i & n & a & Hin & Hn & Ha & Ht)]; [by left; left|].
        apply elem_of_cons in Hin as [[= -> ->]|Hin].
        -- left. right. rewrite Ha0 in Ha. injection Ha as <-.
           rewrite Htest in Ht. by injection Ht as <-.
        -- right. eauto 10.
Qed.

(** X19. When [is_change_less] is a strict order, the change that
    [_find_best_change] returns is maximal: it is less than no candidate
    that [_test_single_change] gives at a position that is not skipped. *)
Theorem best_change_is_maximal (current_seq original_seq current_seq' : list pyobj)
    (best : SequenceChange) :
  comparator_strict ext (ReverseHumanizer.use_aa_similarity self) ->
  ReverseHumanizer._find_best_change ext self current_seq original_seq
    = Ok (best, current_seq') ->
  forall c,
    tested_candidate self current_seq original_seq c ->
    less best c = false.
Proof.
  intros Hstrict H c (idx & name & a & Hname & Hskip & Ha & Ht).
  unfold ReverseHumanizer._find_best_change in H.
  apply (find_best_loop_maximal original_seq current_seq _ Hstrict
           (fun _ => False) _ best current_seq' H).
  - intros ? [].
  - apply Hstrict.
  - right. exists idx, name, a. split; [by apply enumerate_elem|]. auto.
Qed.

End best_change_facts.

Lemma demo_comparator_strict (n : Z) (flag : bool) :
  comparator_strict (Demo.ext n) flag.
Proof.
  split; simpl; unfold Demo.less.
  - intros a. destruct (Qlt_bool (value a) (value a)) eqn:E; [|reflexivity].
    apply Qlt_bool_iff in E. exfalso. exact (Qlt_irrefl _ E).
  - intros a b c Hab Hbc. apply Qlt_bool_iff in Hab, Hbc.
    apply Qlt_bool_iff. eapply Qlt_trans; eassumption.
Qed.

Lemma best_change_is_maximal_witness :
  is_change_less (Demo.ext 10)
    (mkChange (Some 0) (PStr "B") (PStr "A") (3 # 4))
    (mkChange (Some 2) (PStr "B") (PStr "A") (3 # 4)) false = false.
Proof.
  apply (best_change_is_maximal (Demo.ext 10) Demo.humanizer
           DemoRun.seed DemoRun.original DemoRun.seed
           (mkChange (Some 0) (PStr "B") (PStr "A") (3 # 4))
           (demo_comparator_strict 10 false) eq_refl).
  exists 2, "fwr2_1"%string, (PStr "A"). repeat split.
  intros Hin. inversion Hin.
Defined.

(** ** The data set *)

Lemma string_append_empty (s : string) : (s +:+ EmptyString)%string = s.
Proof.
  induction s as [|c s IH]; [reflexivity|].
  change (String c (s +:+ EmptyString) = String c s). by rewrite IH.
Qed.

Lemma py_join_strings (row : list string) :
  py_join (Some <$> row) = Ok (String.concat "" row).
Proof.
  induction row as [|cell row IH]; [reflexivity|].
  rewrite fmap_cons. cbn [py_join]. rewrite IH, bind_ret. f_equal.
  destruct row as [|c2 row]; simpl; [apply string_append_empty|reflexivity].
Qed.

Lemma py_join_Ok (row : list (option string)) (s : string) :
  py_join row = Ok s -> exists cells, row = Some <$> cells.
Proof.
  revert s. induction row as [|[cell|] row IH]; intros s H.
  - by exists [].
  - simpl in H. apply bind_Ok in H as (joined & Hj & _).
    destruct (IH _ Hj) as [cells ->]. by exists (cell :: cells).
  - discriminate.
Qed.

Lemma py_join_Raise (row : list (option string)) (e : exn) :
  py_join row = Raise e -> e = TypeError.
Proof.
  induction row as [|[cell|] row IH]; [discriminate| |by intros [= <-]].
  cbn [py_join]. destruct (py_join row) as [s|e']; [discriminate|].
  intros [= <-]. by apply IH.
Qed.

Lemma map_result_Raise {A B : Type} (f : A -> result B) (xs : list A) (e : exn) :
  map_result f xs = Raise e -> exists x, x ∈ xs /\ f x = Raise e.
Proof.
  induction xs as [|x xs IH]; [discriminate|]. simpl.
  destruct (f x) as [y|e'] eqn:Ex.
  - rewrite bind_ret. destruct (map_result f xs) as [ys|e'']; [discriminate|].
    intros [= ->]. destruct (IH eq_refl) as (x' & Hin & Hx').
    exists x'. split; [apply elem_of_cons; by right | exact Hx'].
  - intros [= ->]. exists x. split; [apply elem_of_cons; by left | exact Ex].
Qed.

(** The characters of a merged row of one-character cells are the cells. *)
Lemma concat_single_chars (row : list string) :
  Forall (fun cell => String.length cell = 1) row ->
  str_tokens (String.concat "" row) = PStr <$> row.
Proof.
  induction 1 as [|cell row Hcell _ IH]; [reflexivity|].
  destruct cell as [|c [|c' cell]]; try discriminate.
  assert (Hcat : String.concat "" (String c EmptyString :: row)
                 = String c (String.concat "" row)).
  { destruct row; reflexivity. }
  rewrite Hcat.
  change (str_tokens (String c (String.concat "" row)))
    with (PStr (String c EmptyString) :: str_tokens (String.concat "" row)).
  by rewrite IH.
Qed.

(** X20. [merge_all_columns] returns one string per row, and raises
    [TypeError], and nothing else, exactly when a cell is missing.  For a
    row of one-character cells the characters of the merged string are the
    cells again, so the string has one character per column. *)
Theorem merge_all_columns_round_trip (df : DataFrame) :
  ((exists merged, merge_all_columns df = Ok merged)
   <-> Forall (Forall (fun cell => cell <> None)) (frame_rows df))
  /\ (merge_all_columns df = Raise TypeError
      <-> Exists (Exists (fun cell => cell = None)) (frame_rows df))
  /\ (forall e, merge_all_columns df = Raise e -> e = TypeError)
  /\ (forall merged,
        merge_all_columns df = Ok merged ->
        length merged = length (frame_rows df)
        /\ forall i row s,
             frame_rows df !! i = Some (Some <$> row) ->
             merged !! i = Some s ->
             s = String.concat "" row
             /\ (Forall (fun cell => String.length cell = 1) row ->
                 str_tokens s = PStr <$> row
                 /\ String.length s = length row)).
Proof.
  assert (Hreturns : (exists merged, merge_all_columns df = Ok merged)
                     <-> Forall (Forall (fun cell => cell <> None))
                                (frame_rows df)).
  { unfold merge_all_columns.
    rewrite map_result_returns. apply Forall_iff. intros row. split.
    - intros [s Hs]. apply py_join_Ok in Hs as [cells ->].
      apply Forall_fmap, Forall_forall. by intros c _.
    - intros Hrow. induction Hrow as [|[cell|] row Hc _ IH]; [by eexists| |done].
      destruct IH as [s Hs]. simpl. rewrite Hs. by eexists. }
  assert (Hraises : forall e, merge_all_columns df = Raise e -> e = TypeError).
  { unfold merge_all_columns. intros e He.
    apply map_result_Raise in He as (row & _ & Hrow). by apply py_join_Raise in Hrow. }
  split; [exact Hreturns|]. split; [|split; [exact Hraises|]].
  - split.
    + intros Hraise.
      destruct (decide (Forall (Forall (fun cell : option string => cell <> None))
                               (frame_rows df))) as [Hall|Hnot].
      * apply Hreturns in Hall as [merged Hm]. congruence.
      * apply not_Forall_Exists in Hnot; [|apply _].
        eapply Exists_impl; [exact Hnot|]. intros row Hrow.
        apply not_Forall_Exists in Hrow; [|apply _].
        eapply Exists_impl; [exact Hrow|]. intros [cell|] Hc; [|reflexivity].
        by destruct Hc.
    + intros Hex.
      destruct (merge_all_columns df) as [merged|e] eqn:E.
      * exfalso.
        assert (Hall : Forall (Forall (fun cell : option string => cell <> None))
                              (frame_rows df)) by (apply Hreturns; eauto).
        rewrite Forall_forall in Hall.
        apply Exists_exists in Hex as (row & Hin & Hrow).
        specialize (Hall row Hin). rewrite Forall_forall in Hall.
        apply Exists_exists in Hrow as (cell & Hcell & ->).
        by apply (Hall None Hcell).
      * by rewrite (Hraises e eq_refl).
  - unfold merge_all_columns. intros merged H. apply map_result_Ok_iff in H. split.
    + symmetry. exact (Forall2_length _ _ _ H).
    + intros i row s Hrow Hs.
      pose proof (Forall2_lookup_lr _ _ _ _ _ _ H Hrow Hs) as Hjoin.
      cbv beta in Hjoin.
      rewrite py_join_strings in Hjoin. injection Hjoin as <-.
      split; [reflexivity|]. intros Hsingle.
      pose proof (concat_single_chars row Hsingle) as Htok.
      split; [exact Htok|].
      apply (f_equal length) in Htok. unfold str_tokens in Htok.
      rewrite !length_fmap in Htok. rewrite <- Htok.
      clear. induction (String.concat "" row) as [|c s IH]; simpl; congruence.
Qed.

Lemma select_rows_zip {A B : Type} (f : B -> bool) (rows : list A) (ys : list B) :
  select_rows rows (f <$> ys)
  = fst <$> List.filter (fun ry => f ry.2) (zip rows ys).
Proof.
  unfold select_rows. revert ys.
  induction rows as [|row rows IH]; intros [|y ys]; try reflexivity.
  rewrite fmap_cons. cbn [zip_with List.filter snd]. specialize (IH ys).
  destruct (f y); rewrite ?fmap_cons; by rewrite IH.
Qed.

Lemma select_rows_fmap {A : Type} (f : A -> bool) (rows : list A) :
  select_rows rows (f <$> rows) = List.filter f rows.
Proof.
  unfold select_rows. induction rows as [|row rows IH]; [reflexivity|].
  rewrite fmap_cons. cbn [zip_with List.filter snd].
  destruct (f row); rewrite ?fmap_cons; by rewrite IH.
Qed.

Lemma column_equals_Ok (df : DataFrame) (pos aa : string) :
  (exists mask, column_equals df pos aa = Ok mask)
  <-> column_index pos (frame_columns df) <> None.
Proof.
  unfold column_equals. destruct (column_index pos (frame_columns df)).
  - split; [done | by eexists].
  - split; [by intros [? ?] | done].
Qed.

(** X21. [filter_df] keeps the rows that have the required residue at the
    FIRST required position, whatever the other required positions ask for:
    [next(accumulate(masks, ...))] is the first mask. *)
Theorem filter_df_first_position_only (df : DataFrame) (pos aa : string)
    (others : list (string * string)) (j : nat) :
  column_index pos (frame_columns df) = Some j ->
  Forall (fun required => column_index required.1 (frame_columns df) <> None)
         others ->
  filter_df df ((pos, aa) :: others)
  = Ok (mkFrame (frame_columns df)
          (List.filter (fun row => bool_decide (row !! j = Some (Some aa)))
                       (frame_rows df))).
Proof.
  intros Hpos Hothers. unfold filter_df.
  rewrite bool_decide_eq_true_2 by (cbn [length]; lia).
  cbn [map_result].
  assert (Hmask : column_equals df pos aa
                  = Ok ((fun row => bool_decide (row !! j = Some (Some aa)))
                          <$> frame_rows df)).
  { unfold column_equals. by rewrite Hpos. }
  rewrite Hmask, bind_ret.
  assert (Hmasks : exists masks,
             map_result (fun '(pos, aa) => column_equals df pos aa) others
             = Ok masks).
  { apply map_result_returns. eapply Forall_impl; [exact Hothers|].
    intros [p a] Hp. by apply column_equals_Ok. }
  destruct Hmasks as [masks ->]. rewrite !bind_ret.
  cbn [accumulate py_next]. rewrite bind_ret. by rewrite select_rows_fmap.
Qed.

Lemma filter_df_first_position_only_witness :
  filter_df DemoData.frame [("1", "Q"); ("2", "V")]%string
  = Ok (mkFrame ["1"; "2"]%string
                [[Some "Q"; Some "V"]; [Some "Q"; Some "L"]]%string).
Proof.
  apply (filter_df_first_position_only DemoData.frame "1" "Q" [("2", "V")]%string 0).
  - reflexivity.
  - repeat constructor; discriminate.
Defined.

(** X22. [filter_df] returns a frame exactly when every required position
    is a column of the frame; otherwise the exception is pandas' [KeyError].
    The iterator of the running masks is never empty when it is asked for
    its first element, and the columns of the frame are kept. *)
Theorem filter_df_needs_every_column (df : DataFrame)
    (required_positions : list (string * string)) :
  ((exists filtered, filter_df df required_positions = Ok filtered)
   <-> Forall (fun required =>
                 column_index required.1 (frame_columns df) <> None)
              required_positions)
  /\ (forall e, filter_df df required_positions = Raise e ->
                e = ExternalError "KeyError")
  /\ (forall filtered, filter_df df required_positions = Ok filtered ->
        frame_columns filtered = frame_columns df
        /\ sublist (frame_rows filtered) (frame_rows df)).
Proof.
  unfold filter_df. destruct required_positions as [|[pos aa] others].
  { rewrite bool_decide_eq_false_2 by (cbn [length]; lia).
    split; [|split].
    - split; [constructor | by eexists].
    - discriminate.
    - by intros filtered [= <-]. }
  rewrite bool_decide_eq_true_2 by (cbn [length]; lia).
  destruct (map_result (fun '(pos, aa) => column_equals df pos aa)
              ((pos, aa) :: others)) as [masks|e0] eqn:Emasks.
  - assert (Hall : Forall (fun required =>
                     column_index required.1 (frame_columns df) <> None)
                     ((pos, aa) :: others)).
    { assert (Hex : exists masks,
                 map_result (fun '(pos, aa) => column_equals df pos aa)
                   ((pos, aa) :: others) = Ok masks) by eauto.
      apply map_result_returns in Hex. eapply Forall_impl; [exact Hex|].
      intros [p a] Hp. exact (proj1 (column_equals_Ok df p a) Hp). }
    apply map_result_Ok_iff in Emasks.
    destruct masks as [|mask masks]; [by apply Forall2_length in Emasks|].
    rewrite bind_ret. cbn [accumulate py_next]. rewrite bind_ret.
    split; [|split].
    + split; [by intros _ | by eexists].
    + discriminate.
    + intros filtered [= <-]. split; [reflexivity|]. cbn [frame_rows].
      unfold select_rows. generalize (frame_rows df). clear.
      intros rows. revert mask.
      induction rows as [|row rows IH]; intros mask; [constructor|].
      destruct mask as [|b mask]; [apply sublist_nil_l|].
      cbn [zip_with List.filter snd].
      destruct b; rewrite ?fmap_cons.
      * apply sublist_skip, IH.
      * apply sublist_cons, IH.
  - apply map_result_Raise in Emasks as ([p a] & Hin & Hraise).
    unfold column_equals in Hraise.
    destruct (column_index p (frame_columns df)) eqn:Ecol; [discriminate|].
    injection Hraise as <-.
    split; [|split].
    + split; [by intros [? ?]|]. intros Hall. rewrite Forall_forall in Hall.
      specialize (Hall _ Hin). by cbn [fst] in Hall.
    + by intros e [= <-].
    + discriminate.
Qed.

Section dataset_reading_facts.
Context {ChainType : Type} (classes : Classes ChainType).
Context (read_annotated_dataset :
           string -> result (DataFrame * list (option string)))
        (read_raw_dataset :
           string -> pyarg ChainType ->
           result (DataFrame * list (option string))).

Lemma found_nans_false (X : DataFrame) (y : list (option string)) :
  found_nans X y = false
  <-> Forall (Forall (fun cell => cell <> None)) (frame_rows X)
      /\ Forall (fun label => label <> None) y.
Proof.
  unfold found_nans. rewrite orb_false_iff.
  assert (Hcells : forall cells : list (option string),
             existsb (fun cell => bool_decide (cell = None)) cells = false
             <-> Forall (fun cell => cell <> None) cells).
  { intros cells. induction cells as [|cell cells IH]; simpl.
    - split; [constructor | done].
    - rewrite Forall_cons, orb_false_iff, IH, bool_decide_eq_false. tauto. }
  rewrite Hcells.
  assert (Hrows : forall rows : list (list (option string)),
             existsb (existsb (fun cell => bool_decide (cell = None))) rows = false
             <-> Forall (Forall (fun cell => cell <> None)) rows).
  { intros rows. induction rows as [|row rows IH]; simpl.
    - split; [constructor | done].
    - rewrite Forall_cons, orb_false_iff, IH, Hcells. tauto. }
  by rewrite Hrows.
Qed.

(** What lines 32-38 of [read_any_dataset] give: in annotated-data mode,
    once [annotation.name] is evaluated, what [read_annotated_dataset]
    gives, and in raw-data mode what [read_raw_dataset] gives. *)
Lemma read_any_dataset_Ok (input_dir : string)
    (annotated_data annotation : pyarg ChainType) (X : DataFrame)
    (y : list (option string)) :
  read_any_dataset classes read_annotated_dataset read_raw_dataset
    input_dir annotated_data annotation = Ok (X, y)
  <-> ((py_truth classes annotated_data = true
        /\ getattr_name classes annotation = Ok tt
        /\ read_annotated_dataset input_dir = Ok (X, y))
       \/ (py_truth classes annotated_data = false
           /\ read_raw_dataset input_dir annotation = Ok (X, y)))
      /\ found_nans X y = false.
Proof.
  unfold read_any_dataset. split.
  - intros H. apply bind_Ok in H as ([X' y'] & Hread & H).
    destruct (found_nans X' y') eqn:Enan; [discriminate|].
    injection H as <- <-. split; [|exact Enan].
    destruct (py_truth classes annotated_data); [left|right; by split].
    apply bind_Ok in Hread as ([] & Hname & Hread). by repeat split.
  - intros [[(Ht & Hn & Hr)|(Ht & Hr)] Hnan];
      rewrite Ht, ?Hn, ?bind_ret, Hr, bind_ret; cbn beta iota;
      by rewrite Hnan.
Qed.

Lemma read_any_dataset_Raise (input_dir : string)
    (annotated_data annotation : pyarg ChainType) (e : exn) :
  read_any_dataset classes read_annotated_dataset read_raw_dataset
    input_dir annotated_data annotation = Raise e
  <-> (exists X y,
         ((py_truth classes annotated_data = true
           /\ getattr_name classes annotation = Ok tt
           /\ read_annotated_dataset input_dir = Ok (X, y))
          \/ (py_truth classes annotated_data = false
              /\ read_raw_dataset input_dir annotation = Ok (X, y)))
         /\ found_nans X y = true /\ e = RuntimeError "Found nans")
      \/ (py_truth classes annotated_data = true
          /\ e = AttributeError
          /\ getattr_name classes annotation = Raise AttributeError)
      \/ (py_truth classes annotated_data = true
          /\ getattr_name classes annotation = Ok tt
          /\ read_annotated_dataset input_dir = Raise e)
      \/ (py_truth classes annotated_data = false
          /\ read_raw_dataset input_dir annotation = Raise e).
Proof.
  assert (Hname : forall e', getattr_name classes annotation = Raise e' ->
                             e' = AttributeError).
  { intros e'. unfold getattr_name. destruct annotation as [|b|a|c];
      repeat case_match; congruence. }
  unfold read_any_dataset. split.
  - destruct (py_truth classes annotated_data).
    + destruct (getattr_name classes annotation) as [[]|e'] eqn:En.
      * rewrite bind_ret.
        destruct (read_annotated_dataset input_dir) as [[X y]|e'] eqn:Er.
        -- rewrite bind_ret. destruct (found_nans X y) eqn:Enan; [|discriminate].
           intros [= <-]. left. exists X, y. by eauto 10.
        -- intros [= <-]. right. right. left. by eauto.
      * intros [= <-]. pose proof (Hname _ eq_refl) as ->.
        right. left. by eauto.
    + destruct (read_raw_dataset input_dir annotation) as [[X y]|e'] eqn:Er.
      * rewrite bind_ret. destruct (found_nans X y) eqn:Enan; [|discriminate].
        intros [= <-]. left. exists X, y. by eauto 10.
      * intros [= <-]. right. right. right. by eauto.
  - intros [(X & y & Hread & Hnan & ->)|[(Ht & -> & Hn)|[(Ht & Hn & Hr)|(Ht & Hr)]]].
    + destruct Hread as [(Ht & Hn & Hr)|(Ht & Hr)];
        rewrite Ht, ?Hn, ?bind_ret, Hr, bind_ret; cbn beta iota;
        by rewrite Hnan.
    + by rewrite Ht, Hn.
    + by rewrite Ht, Hn, bind_ret, Hr.
    + by rewrite Ht, Hr.
Qed.

(** X23. [read_any_dataset] returns what the reader of the chosen mode read
    exactly when neither the frame nor the labels have a missing value;
    with one it raises [RuntimeError("Found nans")], and an exception of
    the reader is passed on.  In annotated-data mode [annotation.name] is
    evaluated first: with the annotation [None], or any value without that
    attribute, [AttributeError] is raised and nothing is read. *)
Theorem read_any_dataset_has_no_nans (input_dir : string)
    (annotated_data annotation : pyarg ChainType) :
  (forall X y,
     read_any_dataset classes read_annotated_dataset read_raw_dataset
       input_dir annotated_data annotation = Ok (X, y)
     <-> ((py_truth classes annotated_data = true
           /\ getattr_name classes annotation = Ok tt
           /\ read_annotated_dataset input_dir = Ok (X, y))
          \/ (py_truth classes annotated_data = false
              /\ read_raw_dataset input_dir annotation = Ok (X, y)))
         /\ Forall (Forall (fun cell => cell <> None)) (frame_rows X)
         /\ Forall (fun label => label <> None) y)
  /\ (py_truth classes annotated_data = true ->
      (annotation = ArgNone
       \/ getattr_name classes annotation = Raise AttributeError) ->
      read_any_dataset classes read_annotated_dataset read_raw_dataset
        input_dir annotated_data annotation = Raise AttributeError)
  /\ (forall X y,
        ((py_truth classes annotated_data = true
          /\ getattr_name classes annotation = Ok tt
          /\ read_annotated_dataset input_dir = Ok (X, y))
         \/ (py_truth classes annotated_data = false
             /\ read_raw_dataset input_dir annotation = Ok (X, y))) ->
        ~ (Forall (Forall (fun cell => cell <> None)) (frame_rows X)
           /\ Forall (fun label => label <> None) y) ->
        read_any_dataset classes read_annotated_dataset read_raw_dataset
          input_dir annotated_data annotation
        = Raise (RuntimeError "Found nans"))
  /\ (forall e,
        ((py_truth classes annotated_data = true
          /\ getattr_name classes annotation = Ok tt
          /\ read_annotated_dataset input_dir = Raise e)
         \/ (py_truth classes annotated_data = false
             /\ read_raw_dataset input_dir annotation = Raise e)) ->
        read_any_dataset classes read_annotated_dataset read_raw_dataset
          input_dir annotated_data annotation = Raise e).
Proof.
  split; [|split; [|split]].
  - intros X y. rewrite read_any_dataset_Ok, found_nans_false. tauto.
  - intros Htruth Hname. apply read_any_dataset_Raise. right. left.
    split; [exact Htruth|]. split; [reflexivity|].
    by destruct Hname as [->|Hname].
  - intros X y Hread Hnan. apply read_any_dataset_Raise. left.
    exists X, y. split; [exact Hread|]. split; [|reflexivity].
    destruct (found_nans X y) eqn:Enan; [reflexivity|].
    by apply found_nans_false in Enan.
  - intros e Hread. apply read_any_dataset_Raise. right. right.
    destruct Hread as [H|H]; [left|right]; exact H.
Qed.

Lemma kept_rows_merge (kind : option string) (rs : list (list string))
    (ls : list string) :
  map_result py_join
    (fst <$> List.filter
       (fun ry : list (option string) * option string =>
          match ry.2 with
          | Some l => kept_label kind l
          | None => match kind with
                    | None => true
                    | Some _ => false
                    end
          end)
       (zip (fmap (M:=list) Some <$> rs) (Some <$> ls)))
  = Ok (String.concat "" <$>
          (fst <$> List.filter (fun rl => kept_label kind rl.2) (zip rs ls))).
Proof.
  revert ls. induction rs as [|r rs IH]; intros [|l ls]; try reflexivity.
  rewrite !fmap_cons. cbn [zip_with List.filter snd].
  specialize (IH ls).
  destruct (kept_label kind l); [|exact IH].
  rewrite !fmap_cons. cbn [fst map_result].
  rewrite py_join_strings, bind_ret, IH. reflexivity.
Qed.

(** X24. With a data set that has one label per row and whose cells and
    labels are all present, read in annotated-data mode with an annotation
    that has a name, or in raw-data mode, [read_human_samples] returns the
    merged rows of exactly the rows whose label is kept, in the order of
    the data set: without a chain type every row not labelled
    ['NOT_HUMAN'], with one the rows labelled ['IG' + full_type]. *)
Theorem read_human_samples_selects_and_merges (dataset_file : string)
    (annotated_data annotation : pyarg ChainType)
    (v_type : option ChainType) (columns : list string)
    (rows : list (list string)) (labels : list string) :
  length rows = length labels ->
  ((py_truth classes annotated_data = true
    /\ getattr_name classes annotation = Ok tt
    /\ read_annotated_dataset dataset_file
       = Ok (mkFrame columns (fmap (M:=list) Some <$> rows), Some <$> labels))
   \/ (py_truth classes annotated_data = false
       /\ read_raw_dataset dataset_file annotation
          = Ok (mkFrame columns (fmap (M:=list) Some <$> rows),
                Some <$> labels))) ->
  read_human_samples classes read_annotated_dataset read_raw_dataset
    (Some dataset_file) annotated_data annotation v_type
  = Ok (Some (String.concat "" <$>
                (fst <$> List.filter
                           (fun rl => kept_label (full_type classes <$> v_type)
                                                 rl.2)
                           (zip rows labels)))).
Proof.
  intros _ Hread. unfold read_human_samples.
  assert (Hnan : found_nans (mkFrame columns (fmap (M:=list) Some <$> rows))
                            (Some <$> labels) = false).
  { apply found_nans_false. cbn [frame_rows]. split.
    - apply Forall_fmap, Forall_forall. intros row _.
      apply Forall_fmap, Forall_forall. by intros cell _.
    - apply Forall_fmap, Forall_forall. by intros label _. }
  rewrite (proj2 (read_any_dataset_Ok dataset_file annotated_data annotation
                    _ _) (conj Hread Hnan)), bind_ret.
  cbn [frame_columns frame_rows].
  set (mask := match v_type with
               | Some v => _
               | None => _
               end).
  assert (Hmask : mask
                  = (fun label =>
                       match label with
                       | Some l => kept_label (full_type classes <$> v_type) l
                       | None => match full_type classes <$> v_type with
                                 | None => true
                                 | Some _ => false
                                 end
                       end) <$> (Some <$> labels)).
  { subst mask. destruct v_type as [v|]; apply list_fmap_ext;
      intros i [label|] _; cbn [kept_label fmap option_fmap option_map];
      try reflexivity.
    - destruct (String.eqb_spec label ("IG" +:+ full_type classes v))
        as [->|Hne].
      + by rewrite bool_decide_eq_true_2.
      + rewrite bool_decide_eq_false_2; [reflexivity | congruence].
    - destruct (String.eqb_spec label "NOT_HUMAN") as [->|Hne].
      + by rewrite bool_decide_eq_true_2.
      + rewrite bool_decide_eq_false_2; [reflexivity | congruence]. }
  rewrite Hmask, select_rows_zip. unfold merge_all_columns. cbn [frame_rows].
  by rewrite kept_rows_merge.
Qed.

(** After the check for missing values the kept rows merge. *)
Lemma merge_selected_rows (X : DataFrame) (mask : list bool) :
  Forall (Forall (fun cell => cell <> None)) (frame_rows X) ->
  exists merged,
    merge_all_columns
      (mkFrame (frame_columns X) (select_rows (frame_rows X) mask))
    = Ok merged.
Proof.
  intros Hcells. unfold merge_all_columns. cbn [frame_rows].
  apply map_result_returns. unfold select_rows. revert mask.
  induction Hcells as [|row rows Hrow _ IH]; intros mask; [constructor|].
  destruct mask as [|b mask]; [constructor|].
  cbn [zip_with List.filter snd].
  destruct b; rewrite ?fmap_cons; [|apply IH].
  constructor; [|apply IH]. cbn [fst]. clear -Hrow.
  induction Hrow as [|[cell|] row Hc _ [s Hs]]; [by eexists| |done].
  cbn [py_join]. rewrite Hs. by eexists.
Qed.

(** X25. For readers that return one label per row, [read_human_samples]
    returns [None] exactly when no data set file is given.  In
    annotated-data mode with an annotation that has no attribute [name],
    such as the default [None], it raises [AttributeError].  Over frames
    whose cells are strings or missing values its only exceptions are that
    one, those of the reader and [RuntimeError("Found nans")]: the merge of
    the kept rows cannot fail after the check for missing values. *)
Theorem read_human_samples_outcomes (dataset_file : option string)
    (annotated_data annotation : pyarg ChainType)
    (v_type : option ChainType) :
  (forall file X y,
      dataset_file = Some file ->
      read_annotated_dataset file = Ok (X, y)
      \/ read_raw_dataset file annotation = Ok (X, y) ->
      length (frame_rows X) = length y) ->
  (read_human_samples classes read_annotated_dataset read_raw_dataset
     dataset_file annotated_data annotation v_type = Ok None
   <-> dataset_file = None)
  /\ (forall file,
        dataset_file = Some file ->
        py_truth classes annotated_data = true ->
        getattr_name classes annotation = Raise AttributeError ->
        read_human_samples classes read_annotated_dataset read_raw_dataset
          dataset_file annotated_data annotation v_type
        = Raise AttributeError)
  /\ (forall e,
        read_human_samples classes read_annotated_dataset read_raw_dataset
          dataset_file annotated_data annotation v_type = Raise e ->
        exists file,
          dataset_file = Some file
          /\ (e = RuntimeError "Found nans"
              \/ (py_truth classes annotated_data = true
                  /\ e = AttributeError
                  /\ getattr_name classes annotation = Raise AttributeError)
              \/ (py_truth classes annotated_data = true
                  /\ read_annotated_dataset file = Raise e)
              \/ (py_truth classes annotated_data = false
                  /\ read_raw_dataset file annotation = Raise e))).
Proof.
  intros _. destruct dataset_file as [file|].
  2:{ split; [by split|]. split; [discriminate|]. discriminate. }
  unfold read_human_samples.
  destruct (read_any_dataset classes read_annotated_dataset read_raw_dataset
              file annotated_data annotation) as [[X y]|e0] eqn:Eread.
  - rewrite bind_ret. apply read_any_dataset_Ok in Eread as [Hread Hnan].
    apply found_nans_false in Hnan as [Hcells _].
    set (mask := match v_type with
                 | Some v => _
                 | None => _
                 end).
    destruct (merge_selected_rows X mask Hcells) as [merged ->].
    rewrite bind_ret. split; [by split|]. split; [|discriminate].
    intros file' _ Htruth Hname.
    destruct Hread as [(_ & Hok & _)|(Hfalse & _)]; congruence.
  - split; [by split|]. split.
    + intros file' _ Htruth Hname. simpl. f_equal.
      apply read_any_dataset_Raise in Eread
        as [(X & y & Hread & _)|[(_ & -> & _)|[(_ & Hok & _)|(Hfalse & _)]]];
        [|reflexivity|congruence|congruence].
      destruct Hread as [(_ & Hok & _)|(Hfalse & _)]; congruence.
    + intros e [= <-]. exists file. split; [reflexivity|].
      apply read_any_dataset_Raise in Eread
        as [(X & y & _ & _ & ->)|[H|[(Ht & _ & Hr)|H]]]; by eauto 10.
Qed.

End dataset_reading_facts.

Lemma read_human_samples_selects_and_merges_witness :
  read_human_samples DemoData.classes DemoData.read_annotated DemoData.read_raw
    (Some "oas.csv"%string) (ArgBool true) (ArgAnnotation Demo.schema) None
  = Ok (Some ["QV"; "QL"]%string).
Proof.
  apply (read_human_samples_selects_and_merges DemoData.classes
           DemoData.read_annotated DemoData.read_raw "oas.csv"
           (ArgBool true) (ArgAnnotation Demo.schema) None
           ["1"; "2"]%string
           [["Q"; "V"]; ["E"; "V"]; ["Q"; "L"]]%string
           ["IGHV1"; "NOT_HUMAN"; "IGHV3"]%string).
  - reflexivity.
  - left. repeat split.
Defined.

Lemma read_human_samples_outcomes_witness :
  read_human_samples DemoData.classes DemoData.read_annotated DemoData.read_raw
    (Some "oas.csv"%string) (ArgAnnotation Demo.schema) ArgNone None
  = Raise AttributeError.
Proof.
  assert (Hrows : forall file X y,
             Some "oas.csv"%string = Some file ->
             DemoData.read_annotated file = Ok (X, y)
             \/ DemoData.read_raw file ArgNone = Ok (X, y) ->
             length (frame_rows X) = length y).
  { intros file X y _ [H|H]; injection H as <- <-; reflexivity. }
  exact (proj1 (proj2 (read_human_samples_outcomes DemoData.classes
                         DemoData.read_annotated DemoData.read_raw
                         (Some "oas.csv"%string) (ArgAnnotation Demo.schema)
                         ArgNone None Hrows))
               "oas.csv"%string eq_refl eq_refl eq_refl).
Defined.

(** ** build_v_gene_scorer and get_similar_human_samples *)

Lemma str_chars_single (s : string) :
  Forall (fun c => String.length c = 1) (str_chars s).
Proof.
  unfold str_chars. apply Forall_fmap, Forall_forall. by intros c _.
Qed.

Section scorer_building_facts.
Context {ChainType : Type} (classes : Classes ChainType).
Context (read_annotated_dataset :
           string -> result (DataFrame * list (option string)))
        (read_raw_dataset :
           string -> pyarg ChainType ->
           result (DataFrame * list (option string))).
Context {GeneralChainType : Type}
        (annotate : string -> Annotation -> GeneralChainType ->
                    option (list string)).

(** With a data set file, [read_human_samples] returns a list or raises. *)
Lemma read_human_samples_file (file : string)
    (annotated_data annotation : pyarg ChainType)
    (v_type : option ChainType) (res : option (list string)) :
  read_human_samples classes read_annotated_dataset read_raw_dataset
    (Some file) annotated_data annotation v_type = Ok res ->
  exists human_samples, res = Some human_samples.
Proof.
  unfold read_human_samples. intros H.
  apply bind_Ok in H as ([X y] & _ & H).
  apply bind_Ok in H as (human_samples & _ & [= <-]). by eexists.
Qed.

(** Line 60 with a data set file: the annotation is in the place of
    [annotated_data] and [v_type] in the place of [annotation], so that
    [v_type.name] is evaluated when the annotation is true. *)
Lemma build_v_gene_scorer_raises (annotation : Annotation) (file : string)
    (v_type : pyarg ChainType) :
  annotation_truth classes annotation = true ->
  getattr_name classes v_type = Raise AttributeError ->
  build_v_gene_scorer classes read_annotated_dataset read_raw_dataset
    annotation (Some file) v_type = Raise AttributeError.
Proof.
  intros Htruth Hname.
  unfold build_v_gene_scorer, read_human_samples, read_any_dataset.
  cbn [py_truth]. by rewrite Htruth, Hname.
Qed.

(** X26. [build_v_gene_scorer] returns [None] exactly when no data set
    file is given.  With a file and an annotation that is true, it raises
    [AttributeError] whenever [v_type] has no attribute [name], as [None]
    and a [bool] have not: [v_type] is passed in the place of
    [read_human_samples]' annotation.  A scorer that it does build has the
    characters of the first merged row for its population and those of the
    second for its labels, not the rows of the data set. *)
Theorem build_v_gene_scorer_outcomes (annotation : Annotation)
    (dataset_file : option string) (v_type : pyarg ChainType) :
  (build_v_gene_scorer classes read_annotated_dataset read_raw_dataset
     annotation dataset_file v_type = Ok None
   <-> dataset_file = None)
  /\ (forall file,
        dataset_file = Some file ->
        annotation_truth classes annotation = true ->
        (v_type = ArgNone \/ (exists b, v_type = ArgBool b)
         \/ getattr_name classes v_type = Raise AttributeError) ->
        build_v_gene_scorer classes read_annotated_dataset read_raw_dataset
          annotation dataset_file v_type = Raise AttributeError)
  /\ (forall scorer,
        build_v_gene_scorer classes read_annotated_dataset read_raw_dataset
          annotation dataset_file v_type = Ok (Some scorer) ->
        exists human_dataset first second,
          read_human_samples classes read_annotated_dataset read_raw_dataset
            dataset_file (ArgAnnotation annotation) v_type None
          = Ok (Some human_dataset)
          /\ human_dataset !! 0 = Some first
          /\ human_dataset !! 1 = Some second
          /\ String.length first = String.length second
          /\ VGeneScorer.annotation scorer = annotation
          /\ VGeneScorer.human_samples scorer = str_chars first
          /\ VGeneScorer.labels scorer = str_chars second
          /\ Forall (fun sample => String.length sample = 1)
                    (VGeneScorer.human_samples scorer)).
Proof.
  split; [|split].
  - destruct dataset_file as [file|]; [|by split].
    split; [|discriminate]. unfold build_v_gene_scorer. intros H.
    apply bind_Ok in H as (res & Hres & H).
    apply read_human_samples_file in Hres as [human_samples ->].
    apply bind_Ok in H as (first & _ & H).
    apply bind_Ok in H as (second & _ & H).
    apply bind_Ok in H as (scorer & _ & H). discriminate.
  - intros file -> Htruth Hname.
    apply build_v_gene_scorer_raises; [exact Htruth|].
    destruct Hname as [->|[[b ->]|Hname]]; [reflexivity|reflexivity|exact Hname].
  - intros scorer H. unfold build_v_gene_scorer in H.
    apply bind_Ok in H as (res & Hres & H).
    destruct res as [human_dataset|]; [|discriminate].
    apply bind_Ok in H as (first & Hfirst & H).
    apply bind_Ok in H as (second & Hsecond & H).
    apply bind_Ok in H as (built & Hinit & [= <-]).
    apply getitem_Ok in Hfirst. apply getitem_Ok in Hsecond.
    unfold VGeneScorer.init in Hinit.
    destruct (decide (length (str_chars first) ≠ length (str_chars second)))
      as [|Hlen]; [discriminate|].
    injection Hinit as <-. cbn [VGeneScorer.annotation
      VGeneScorer.human_samples VGeneScorer.labels].
    exists human_dataset, first, second.
    repeat split; try done; [|apply str_chars_single].
    apply dec_stable in Hlen. unfold str_chars in Hlen.
    rewrite !length_fmap in Hlen.
    assert (Hl : forall s, length (list_ascii_of_string s) = String.length s).
    { intros s. induction s as [|c s IH]; simpl; congruence. }
    by rewrite <- !Hl.
Qed.

Section loop.
Context (annotation : Annotation) (v_gene_scorer : option VGeneScorer.t)
        (chain_type : GeneralChainType).

Local Abbreviation body :=
  (similar_samples_body annotate annotation v_gene_scorer chain_type).

Local Abbreviation entry_of_sequence :=
  (similar_entry annotate annotation v_gene_scorer chain_type).

Lemma similar_samples_loop (sequences : list string) :
  forall acc out,
  for_each body sequences acc = Ok out ->
  exists added,
    out = acc ++ added /\ Forall2 entry_of_sequence sequences added.
Proof.
  induction sequences as [|s sequences IH]; intros acc out H.
  - injection H as <-. exists []. by rewrite app_nil_r.
  - rewrite for_each_cons in H. apply bind_Ok in H as (acc1 & Hstep & H).
    destruct (IH _ _ H) as (added & -> & Hall).
    assert (Hentry : exists entry,
               acc1 = acc ++ [entry] /\ entry_of_sequence s entry).
    { unfold similar_samples_body in Hstep. unfold similar_entry.
      destruct (annotate s annotation chain_type) as [aligned|].
      - apply bind_Ok in Hstep as (scorer & Hsc & Hstep).
        apply bind_Ok in Hstep as (answer & Hans & [= <-]).
        destruct v_gene_scorer as [sc|]; [|discriminate].
        injection Hsc as ->. eauto 10.
      - injection Hstep as <-. eauto. }
    destruct Hentry as (entry & -> & Hentry).
    exists (entry :: added). split; [by rewrite <- app_assoc|].
    by constructor.
Qed.

Lemma similar_samples_none (sequences : list string) :
  v_gene_scorer = None ->
  forall acc,
  for_each body sequences acc =
  if forallb (fun s => bool_decide (annotate s annotation chain_type = None))
             sequences
  then Ok (acc ++ replicate (length sequences) None)
  else Raise AttributeError.
Proof.
  intros Hnone. induction sequences as [|s sequences IH]; intros acc.
  - simpl. by rewrite app_nil_r.
  - assert (Hstep : body acc s =
                    match annotate s annotation chain_type with
                    | Some _ => Raise AttributeError
                    | None => Ok (acc ++ [None])
                    end).
    { unfold similar_samples_body. rewrite Hnone.
      by destruct (annotate s annotation chain_type). }
    rewrite for_each_cons, Hstep. cbn [forallb length replicate].
    destruct (annotate s annotation chain_type) as [aligned|]; [reflexivity|].
    rewrite bool_decide_eq_true_2 by reflexivity.
    rewrite bind_ret, IH. cbn [andb].
    destruct (forallb _ sequences); [|reflexivity].
    by rewrite <- app_assoc.
Qed.

End loop.

(** X8. When [get_similar_human_samples] returns, it returns one entry per
    input sequence, in order: none for a sequence that does not annotate,
    and otherwise the answer to the annotated sequence of the scorer that
    [build_v_gene_scorer(annotation, dataset_file)] returned.  With an
    annotation that is true that scorer is none: the function returns only
    when no data set file is given and no sequence annotates, with a list
    of nones, and with a data set file it raises [AttributeError] before
    it looks at a sequence. *)
Theorem similar_samples_one_entry_each (annotation : Annotation)
    (dataset_file : option string) (sequences : list string)
    (chain_type : GeneralChainType) :
  (forall out,
      get_similar_human_samples classes read_annotated_dataset
        read_raw_dataset annotate annotation dataset_file sequences chain_type
      = Ok out ->
      exists v_gene_scorer,
        build_v_gene_scorer classes read_annotated_dataset read_raw_dataset
          annotation dataset_file ArgNone = Ok v_gene_scorer
        /\ length out = length sequences
        /\ (forall i s,
              sequences !! i = Some s ->
              match annotate s annotation chain_type with
              | None => out !! i = Some None
              | Some aligned_seq =>
                  exists scorer answer,
                    v_gene_scorer = Some scorer
                    /\ VGeneScorer.query scorer (PStr <$> aligned_seq)
                       = Ok answer
                    /\ out !! i = Some (Some answer)
              end)
        /\ (annotation_truth classes annotation = true ->
            dataset_file = None /\ v_gene_scorer = None
            /\ Forall (fun s => annotate s annotation chain_type = None)
                      sequences
            /\ out = replicate (length sequences) None))
  /\ (forall file,
        dataset_file = Some file ->
        annotation_truth classes annotation = true ->
        get_similar_human_samples classes read_annotated_dataset
          read_raw_dataset annotate annotation dataset_file sequences
          chain_type
        = Raise AttributeError).
Proof.
  split.
  - intros out H. unfold get_similar_human_samples in H.
    apply bind_Ok in H as (v_gene_scorer & Hbuild & H).
    exists v_gene_scorer. split; [exact Hbuild|].
    pose proof H as Hloop.
    apply similar_samples_loop in Hloop as (added & -> & Hall).
    cbn [app]. split; [symmetry; exact (Forall2_length _ _ _ Hall)|].
    assert (Hentries : forall i s,
               sequences !! i = Some s ->
               match annotate s annotation chain_type with
               | None => added !! i = Some None
               | Some aligned_seq =>
                   exists scorer answer,
                     v_gene_scorer = Some scorer
                     /\ VGeneScorer.query scorer (PStr <$> aligned_seq)
                        = Ok answer
                     /\ added !! i = Some (Some answer)
               end).
    { intros i s Hs.
      destruct (Forall2_lookup_l _ _ _ _ _ Hall Hs) as (entry & Hentry & Hspec).
      unfold similar_entry in Hspec. rewrite Hentry.
      destruct (annotate s annotation chain_type) as [aligned|].
      - destruct Hspec as (scorer & answer & ? & ? & ->). eauto 10.
      - by rewrite Hspec. }
    split; [exact Hentries|].
    intros Htruth. destruct dataset_file as [file|].
    { rewrite (build_v_gene_scorer_raises annotation file ArgNone Htruth
                 eq_refl) in Hbuild. discriminate. }
    injection Hbuild as <-. split; [reflexivity|]. split; [reflexivity|].
    rewrite (similar_samples_none annotation None chain_type sequences
               eq_refl []) in H.
    destruct (forallb _ sequences) eqn:Hb; [|discriminate].
    injection H as <-. split; [|reflexivity].
    apply Forall_forall. intros s Hs.
    apply (proj1 (forallb_forall _ _)) with (x := s) in Hb;
      [|by apply list_elem_of_In].
    by apply bool_decide_eq_true in Hb.
  - intros file -> Htruth. unfold get_similar_human_samples.
    by rewrite (build_v_gene_scorer_raises annotation file ArgNone Htruth
                  eq_refl).
Qed.

End scorer_building_facts.

(** X9. When no scorer could be built, [get_similar_human_samples] raises
    [AttributeError] as soon as one sequence annotates, and returns a list
    of nones when no sequence does. *)
Theorem similar_samples_without_scorer {ChainType : Type}
    (classes : Classes ChainType)
    (read_annotated_dataset :
       string -> result (DataFrame * list (option string)))
    (read_raw_dataset :
       string -> pyarg ChainType -> result (DataFrame * list (option string)))
    {chain : Type}
    (annotate : string -> Annotation -> chain -> option (list string))
    (annotation : Annotation) (sequences : list string) (chain_type : chain) :
  (Forall (fun s => annotate s annotation chain_type = None) sequences ->
   get_similar_human_samples classes read_annotated_dataset read_raw_dataset
     annotate annotation None sequences chain_type
   = Ok (replicate (length sequences) None))
  /\ (Exists (fun s => annotate s annotation chain_type ≠ None) sequences ->
      get_similar_human_samples classes read_annotated_dataset read_raw_dataset
        annotate annotation None sequences chain_type
      = Raise AttributeError).
Proof.
  assert (Hrun : get_similar_human_samples classes read_annotated_dataset
                   read_raw_dataset annotate annotation None sequences
                   chain_type
                 = for_each (similar_samples_body annotate annotation None
                                                  chain_type) sequences [])
    by reflexivity.
  rewrite Hrun.
  rewrite (similar_samples_none annotate annotation None chain_type sequences
             eq_refl []).
  split.
  - intros Hall.
    assert (Hb : forallb (fun s => bool_decide (annotate s annotation chain_type = None))
                         sequences = true).
    { apply forallb_forall. intros s Hs. apply bool_decide_eq_true.
      rewrite Forall_forall in Hall. apply Hall. by apply list_elem_of_In. }
    by rewrite Hb.
  - intros Hex.
    destruct (forallb _ sequences) eqn:Hb; [|reflexivity].
    exfalso. apply Exists_exists in Hex as (s & Hin & Hs).
    apply (proj1 (forallb_forall _ _)) with (x := s) in Hb;
      [|by apply list_elem_of_In].
    by apply bool_decide_eq_true in Hb.
Qed.
